(* ===== verification/_CoqProject ===== *)
-Q . S2P
Prelude.v
Json.v
JsonIndent.v
Conversation.v
Tools.v
Orchestration.v
Triage.v
ChatLoop.v
PyFloat.v
FloatExact.v
CoffeeStore.v
CoffeeBasic.v
Scripts.v
Cli.v
