(* ===== verification/Prelude.v ===== *)
(** * A verification of the incident-triage scripts of GenAI-101-Beyond-Chatbot

    The repository is a set of Python teaching scripts around a chat
    completion API.  Its core, and the subject of the spec, is the
    incident-triage workflow: [src/workshop1/exercise8_advanced.py] runs a
    tool-calling loop in which the model may ask for the [escalate_crisis]
    tool, and [src/workshop1/exercise7.py] triages an incident with one
    JSON-mode call and escalates by email (simulated unless
    [USE_REAL_EMAIL] is set).
    [src/workshop1/exercise4_enhanced.py] is the interactive chat that keeps
    a conversation with a "reset" command; exercises 1 to 6 are the
    single-shot scripts that lead up to them, and
    [src/setup/coffee_store_advanced.py] is the introductory coffee-store
    console program.  The parts interact as follows:
    the loop builds a conversation (a message list), sends it to the
    model, parses each requested call's arguments with [json.loads],
    dispatches it to the tool handler, appends the [json.dumps]-serialised
    result, and repeats; the workflow then prints a report of the dict
    the loop returns.  The console [main]s of the two exercises read the
    description and the settings and call these workflows; the
    single-shot scripts send one request (or one per line, or two turns)
    and print the replies.

    ** Files

    - [Prelude] (this file): Python's exceptions as the [outcome] type with
      its bind notation in [py_scope]; the [str] methods ([upper], [lower],
      [strip], [isdigit]); decimal printing of integers; [int()] of a
      string; [dict] as an
      insertion-ordered association list with [d[k] = v], [get] and
      [setdefault]; hint databases [py] and [py_rw]; shared lemmas.
    - [Json]: CPython's [json.dumps] and [json.loads] (a library the scripts
      call, modelled so that the code calling it can be), with the round
      trip [loads_dumps] and [loads_wf]; the class [JsonCodec] states what
      the other components need of the codec, and [cpython_json] is the
      instance.  [loads] runs a recursive-descent parser on fuel
      [2 * length s + 1]; [parse_value_fuel_enough] proves that this fuel
      is always enough, so no input is rejected for lack of fuel.
    - [JsonIndent]: [json.dumps(v, indent=n)] and its round trip
      [loads_dumps_indent].
    - [Conversation]: the message dicts ([message], [tool_call]), the
      completion reply ([completion], [api_result]), and [MessageLog], the
      spec's message log (section 4.1) as an abstract specification.
    - [Tools]: [TOOLS], [escalate_crisis], [process_tool_call]
      (exercise8, lines 39-114), stated against [JsonCodec].
    - [Orchestration]: [call_triage_llm_with_tools] (exercise8, lines
      121-214) as a step relation [step] on [state] (program point,
      [messages], [result_data], alerts printed, conversations sent), in
      which the model's replies and the uuids are free choices, and as an
      executable interpreter [run] driven by a [world] oracle with fuel;
      [next_step] shows the interpreter follows [step].  Also the report of
      [run_workflow_with_function_calling] (lines 221-238).
    - [Triage]: exercise7's [severity_score], [build_messages],
      [call_triage_llm], the ticket, database and email steps,
      [maybe_escalate_to_email] and [run_workflow], the printed lines being
      part of the result.  [send_email_alert] has both branches of
      [USE_REAL_EMAIL]; the real one is [_send_real_email]
      ([send_real_email]), whose configuration and [requests.post] are the
      fields of an [email_service] record, a parameter of the section
      that holds the workflow.
    - [ChatLoop]: exercise4_enhanced's [run_chat_loop] by structural
      recursion on the user's input events.
    - [PyFloat]: Python's [float] as IEEE binary64, from the Standard
      Library's executable [SpecFloat], with [round(x, 2)] and the [.2f]
      format computed from the exact binary value, the conversion of an
      [int] operand (which raises [OverflowError] past the largest
      double) and [repr()] (the shortest digits that read back).
    - [FloatExact]: the exactness of binary64 [+], [*] and [round(x, 2)]
      on multiples of a quarter dollar below [2^53] quarters, proved from
      [SpecFloat]'s rounding (shifting out zero bits changes nothing).
    - [CoffeeStore]: [src/setup/coffee_store_advanced.py] (menu, choice
      parsing with [int()], quantities, the order list, totals, receipt
      and the input loop of [main]).
    - [CoffeeBasic]: [src/setup/test/coffee_store_basic.py], the
      top-level script without functions or [try], in [Module Basic]:
      its state is the order list and the running [total].
    - [Scripts]: exercises 1, 2, 3, 4, 6 and 6_enhanced as programs of a
      state and exception monad [M] over a [console] (lines printed,
      requests sent, input left), with [print], [input] and the client's
      [create] as its primitives; the client is an oracle indexed by the
      number of the call.  exercise3's [while True] loop runs on fuel one
      more than the input events left, which [exercise3_reference] shows
      is never exhausted.
    - [Cli]: the [main] functions of exercise7 and exercise8 in the same
      monad, with CPython's [float()] on strings ([py_float_of_string]),
      calling the workflow models of [Triage] and [Orchestration] with
      clients that may depend on the settings read.

    ** Theorems

    - Refinement of the spec's message log: every conversation the loop
      sends is accepted by [MessageLog.append] with no call pending, and
      during a batch exactly the undispatched calls are pending
      ([loop_refines_message_log]); the same for the chat, whose "reset"
      is the log's [reset] ([chat_sent_accepted], [reset_restarts]).
    - The transitions of the loop: unknown tools, malformed arguments,
      API errors ([unknown_tool_continues], [malformed_arguments_abort],
      [api_errors_not_retried]), each with a run that reaches it.
    - Termination: the loop is unbounded in general ([loop_unbounded]),
      and ends within [2 + k * (m + 3)] steps when the model stops asking
      for tools at its [k]-th call and asks for at most [m] per reply
      ([loop_terminates]); the fuel of any concrete run below is chosen by
      that bound.  The chat ends normally exactly on an exit command or
      Ctrl-C ([chat_loop_ending]).
    - What the loop returns and reports: [result_data] only ever has the
      keys ["escalated"] and ["ticket_id"], the latter [None] after an
      escalation, so the report prints "(none)" ([result_data_keys],
      [escalation_ticket_id_none], [workflow_report_empty]).
    - The escalation behaviour against the spec's policy and scenarios
      ([escalation_not_once_nor_severe], [escalation_on_aborted_run]);
      a first reply without tool calls ends the loop with its content
      ignored, no alert and an empty report
      ([reply_without_tools_ignored]).
    - The tools: registry and dispatcher agree, the alert numbering, the
      errors of bad arguments, the ticket format.
    - The JSON-mode triage: the shape of the normalised object, its error
      exits, the workflow never raising after triage, and the email being
      sent exactly for ALERT and CRISIS.
    - The single-shot scripts: exercise4 keeps one conversation that the
      message log accepts ([exercise4_conversation]); exercise3's loop
      equals its structural reference (lemma [exercise3_reference]),
      honours its exit and sends lines unstripped
      ([exercise3_exit_honoured]); exercise6_enhanced's errors, the
      result being exactly [json.loads] of the reply, an object only when
      the reply opens one (the [-> dict] annotation is unchecked), and
      the indented JSON it prints reading back to the reply
      ([improved_it_support_json_errors], [improved_it_support_json_type],
      [exercise6_enhanced_prints_reply]); one call per single-shot script
      ([single_shot_scripts]).
    - The console [main]s let no [ValueError] escape, make no call before
      the workflow, and pass as settings the stripped lines read, parsed
      with [float()] and [int()], or the default when a line is blank or
      does not parse ([read_cli_settings]).
    - The coffee store: a superscript digit crashes [parse_choice]; only
      [ValueError], [EOFError], [KeyboardInterrupt] and [OverflowError]
      (a quantity too large for a float) can end [main]
      ([main_exceptions]); the order list invariant; numeric selection;
      and line totals exact to the cent for every line below [2^53]
      quarter dollars ([line_total_exact], from [FloatExact]).  The
      receipt adds up to the cent, with tax and discount at 13% and 10%
      to a nearest cent, for every order whose sum of line totals is at
      most 50 dollars ([receipt_adds_up]): the 13% tax is not a multiple
      of a quarter, so the 5000 possible rounded subtotals are evaluated
      once with [all_upto] ([receipt_check]); the bound keeps the
      kernel's re-check of that evaluation within minutes, and the
      theorem says nothing beyond it.
    - The basic coffee store: its running total, a sum of unrounded
      products, is to the cent the sum of the receipt's line totals for
      every input whose order is below [2^53] quarter dollars
      ([total_due_adds_up], by an invariant of the loop), its order update
      is the advanced store's ([update_order_add_line]), and it ends only
      normally, with [SystemExit], [ValueError], [EOFError],
      [KeyboardInterrupt] or [OverflowError] ([script_exceptions]).

    ** Not modelled

    The OpenAI client and the configuration module [common.bc_config]
    (not in [src/]; the model is an oracle and the client's construction
    from the credentials is not modelled); console lines that only report
    progress ([CALLING], [ERROR]) in the loop; the HTTP exchange of the
    real email sender, of which only the request it makes and the
    response it prints are modelled; the prompts [input()] prints.  Strings are Latin-1.  Floats read by [json.loads] and
    [float()] are kept as exact decimals (mantissa and exponent, the sign
    of a zero dropped): their binary64 rounding is not modelled, as they
    only travel to the client or are printed back; the money of the
    coffee stores is binary64 ([PyFloat]).  [int()] has CPython 3.11's
    limit of 4300 digits. *)

(** ** Prelude

    What the models of the scripts share and what Python gives them for
    free. *)

From stdpp Require Export base list strings sets.
From Stdlib Require Export String Ascii ZArith NArith Lia.

(** stdpp makes [String.append] opaque to [simpl]; the models compute with it. *)
Arguments String.append : simpl nomatch.

Declare Scope py_scope.
Delimit Scope py_scope with py.

Create HintDb py.
Create Rewrite HintDb py_rw.

(** ** Exceptions *)

(** The exceptions the modelled scripts can raise.  [SystemExit] is raised
    by [sys.exit] and [raise SystemExit]; its argument is the exit status
    (0 for a bare [raise SystemExit], whose code is [None]). *)
Inductive py_exn : Type :=
| JSONDecodeError
| AttributeError
| TypeError
| ValueError
| KeyError
| KeyboardInterrupt            (** Ctrl-C *)
| SystemExit (code : Z)
| EOFError                     (** [input()] at the end of its input *)
| OverflowError                (** an [int] too large for a [float] *)
| IndexError                   (** a list index out of range *)
| APIError.                    (** any exception of the OpenAI client's [create] *)

#[export] Instance py_exn_eq_dec : EqDecision py_exn.
Proof. solve_decision. Defined.

(** A Python computation either returns a value or raises. *)
Inductive outcome (A : Type) : Type :=
| Ok (a : A)
| Raise (e : py_exn).
Arguments Ok {A} a.
Arguments Raise {A} e.

Definition obind {A B} (m : outcome A) (k : A -> outcome B) : outcome B :=
  match m with
  | Ok a => k a
  | Raise e => Raise e
  end.

Notation "x <- m ;; k" := (obind m (fun x => k))
  (at level 100, m at next level, right associativity) : py_scope.

Definition is_ok {A} (m : outcome A) : bool :=
  match m with Ok _ => true | Raise _ => false end.

(** ** Console input *)

(** What one call of [input()] gets: a line, or Ctrl-C
    ([KeyboardInterrupt]).  A list of events ends where the input ends:
    there [input()] raises [EOFError]. *)
Inductive input_event : Type :=
| Line (s : string)
| Interrupt.

(** ** Characters and [str] methods

    A Python [str] is modelled as a [string] whose characters are the
    Latin-1 code points 0..255.  The character classes follow CPython's
    Unicode database restricted to that range. *)

Definition py_isspace (c : ascii) : bool :=
  let n := nat_of_ascii c in
  ((9 <=? n) && (n <=? 13)) || ((28 <=? n) && (n <=? 32)) ||
  (n =? 133) || (n =? 160).

(** [str.isdigit] holds of ASCII digits and of the superscripts two, three
    and one (U+00B2, U+00B3, U+00B9); [int()] accepts only the former. *)
Definition is_ascii_digit (c : ascii) : bool :=
  let n := nat_of_ascii c in (48 <=? n) && (n <=? 57).

Definition py_isdigit_char (c : ascii) : bool :=
  let n := nat_of_ascii c in
  is_ascii_digit c || (n =? 178) || (n =? 179) || (n =? 185).

Fixpoint all_chars (p : ascii -> bool) (s : string) : bool :=
  match s with
  | EmptyString => true
  | String c r => p c && all_chars p r
  end.

(** [s.isdigit()]: non-empty and every character a digit. *)
Definition py_isdigit (s : string) : bool :=
  match s with
  | EmptyString => false
  | _ => all_chars py_isdigit_char s
  end.

Definition py_lower_char (c : ascii) : ascii :=
  let n := nat_of_ascii c in
  if ((65 <=? n) && (n <=? 90)) || ((192 <=? n) && (n <=? 222) && negb (n =? 215))
  then ascii_of_nat (n + 32) else c.

(** [str.lower()]. *)
Fixpoint py_lower (s : string) : string :=
  match s with
  | EmptyString => EmptyString
  | String c r => String (py_lower_char c) (py_lower r)
  end.

(** [str.upper()]: sharp s becomes "SS"; micro sign and y-diaeresis, whose
    capitals lie outside Latin-1, are kept. *)
Fixpoint py_upper (s : string) : string :=
  match s with
  | EmptyString => EmptyString
  | String c r =>
      let n := nat_of_ascii c in
      if ((97 <=? n) && (n <=? 122)) || ((224 <=? n) && (n <=? 254) && negb (n =? 247))
      then String (ascii_of_nat (n - 32)) (py_upper r)
      else if n =? 223 then String "S" (String "S" (py_upper r))
      else String c (py_upper r)
  end.

Fixpoint lstrip (s : string) : string :=
  match s with
  | EmptyString => EmptyString
  | String c r => if py_isspace c then lstrip r else s
  end.

Fixpoint string_rev (s : string) : string :=
  match s with
  | EmptyString => EmptyString
  | String c r => string_rev r +:+ String c EmptyString
  end.

(** [str.strip()] with no argument. *)
Definition py_strip (s : string) : string :=
  string_rev (lstrip (string_rev (lstrip s))).

(** ** Decimal numbers *)

Definition digit_char (d : N) : ascii := ascii_of_N (48 + d).

(** Digits of [n] in front of [acc]; [fuel] bounds the number of digits. *)
Fixpoint digits_aux (fuel : nat) (n : N) (acc : string) : string :=
  match fuel with
  | O => acc
  | S f =>
      let acc' := String (digit_char (n mod 10)) acc in
      if (n / 10 =? 0)%N then acc' else digits_aux f (n / 10) acc'
  end.

(** [str(n)] for a natural number. *)
Definition string_of_N (n : N) : string := digits_aux (S (N.to_nat (N.size n))) n EmptyString.

(** [str(z)] for an integer. *)
Definition string_of_Z (z : Z) : string :=
  match z with
  | Zneg p => String "-" (string_of_N (Npos p))
  | _ => string_of_N (Z.to_N z)
  end.

Definition digit_value (c : ascii) : N := (N_of_ascii c - 48)%N.

(** Reads the longest run of ASCII digits, accumulating its value. *)
Fixpoint read_digits (s : string) (acc : N) : N * string :=
  match s with
  | String c r => if is_ascii_digit c then read_digits r (acc * 10 + digit_value c) else (acc, s)
  | EmptyString => (acc, s)
  end.

Definition starts_with_digit (s : string) : bool :=
  match s with String c _ => is_ascii_digit c | EmptyString => false end.

(** [int(s)] for a [str], base 10: digits with single underscores between
    them, as [int()] reads them. *)
Fixpoint int_digits (s : string) (acc : Z) (after_digit : bool) : option Z :=
  match s with
  | EmptyString => if after_digit then Some acc else None
  | String c r =>
      if is_ascii_digit c then int_digits r (acc * 10 + Z.of_N (digit_value c)) true
      else if Ascii.eqb c "_" && after_digit then int_digits r acc false
      else None
  end.

Fixpoint count_digits (s : string) : nat :=
  match s with
  | EmptyString => O
  | String c r => (if is_ascii_digit c then 1 else 0) + count_digits r
  end.

(** [sys.get_int_max_str_digits()], 4300 by default: since CPython 3.11
    [int()] raises [ValueError] on a string with more digits. *)
Definition int_max_str_digits : nat := 4300.

Definition int_limited (r : string) : option Z :=
  if (count_digits r <=? int_max_str_digits)%nat then int_digits r 0 false else None.

(** [int(s)] for a [str], base 10: surrounding whitespace, a sign, digits;
    [None] where Python raises [ValueError]. *)
Definition py_int (s : string) : option Z :=
  match py_strip s with
  | String "-" r => option_map Z.opp (int_limited r)
  | String "+" r => int_limited r
  | t => int_limited t
  end.

(** ** Python dictionaries with string keys *)

Definition dict (V : Type) := list (string * V).

Section Dict.
Context {V : Type}.

(** [d.get(k)] *)
Fixpoint dict_get (d : dict V) (k : string) : option V :=
  match d with
  | [] => None
  | (k', v) :: d' => if String.eqb k k' then Some v else dict_get d' k
  end.

(** [d.get(k, default)] *)
Definition dict_get_default (d : dict V) (k : string) (dflt : V) : V :=
  match dict_get d k with Some v => v | None => dflt end.

(** [d[k] = v]: an existing key keeps its position, a new key goes last. *)
Fixpoint dict_set (d : dict V) (k : string) (v : V) : dict V :=
  match d with
  | [] => [(k, v)]
  | (k', v') :: d' => if String.eqb k k' then (k', v) :: d' else (k', v') :: dict_set d' k v
  end.

(** [d.setdefault(k, v)] *)
Definition dict_setdefault (d : dict V) (k : string) (v : V) : dict V :=
  match dict_get d k with Some _ => d | None => dict_set d k v end.

(** [dict(pairs)]: later pairs overwrite earlier ones in place. *)
Definition dict_of_pairs (l : list (string * V)) : dict V :=
  fold_left (fun d kv => dict_set d kv.1 kv.2) l [].

Definition dict_keys (d : dict V) : list string := map fst d.
End Dict.

(** Whether a list of keys has no repetition, as the keys of a [dict]. *)
Fixpoint keys_distinct (ks : list string) : bool :=
  match ks with
  | [] => true
  | k :: ks' => negb (existsb (String.eqb k) ks') && keys_distinct ks'
  end.

(** ** Checking a range of integers

    [all_upto p n s] tests [p] on [s], [s + 1], ..., [s + n - 1], counting
    in [Z] so that evaluating it costs nothing per step beyond [p]; a
    bounded claim is proved by evaluating it once ([all_upto_spec]). *)
Fixpoint all_upto (p : Z -> bool) (n : nat) (s : Z) : bool :=
  match n with
  | O => true
  | S n' => p s && all_upto p n' (Z.succ s)
  end.

Lemma all_upto_spec p n s z :
  all_upto p n s = true -> (s <= z < s + Z.of_nat n)%Z -> p z = true.
Proof.
  revert s. induction n as [|n IH]; intros s H Hz; simpl in *; [lia|].
  apply andb_true_iff in H as [Hs Hn].
  destruct (Z.eq_dec z s) as [->|Hne]; [done|]. apply (IH (Z.succ s)); [done|lia].
Qed.

(** ** Tactics *)

Ltac invc H := inversion H; subst; clear H.

(** Rewrites the goal with every boolean hypothesis [b = true]. *)
Ltac rewrite_true :=
  repeat match goal with
  | H : ?b = true |- context [?b] => rewrite H
  end.

(** Split the hypotheses [obind m k = Ok b] produced by unfolding a model. *)
Ltac destruct_obind :=
  repeat match goal with
  | H : obind ?m _ = Ok _ |- _ =>
      let a := fresh "a" in let Hm := fresh "Hm" in
      destruct m as [a|?] eqn:Hm; [simpl in H|discriminate H]
  end.

(** ** Lemmas shared by the components *)

Lemma obind_eq_ok {A B} (m : outcome A) (k : A -> outcome B) b :
  obind m k = Ok b <-> exists a, m = Ok a /\ k a = Ok b.
Proof. destruct m; simpl; naive_solver. Qed.

Lemma string_app_assoc (s1 s2 s3 : string) : (s1 +:+ s2) +:+ s3 = s1 +:+ (s2 +:+ s3).
Proof. induction s1; simpl; congruence. Qed.

Lemma string_app_nil_r (s : string) : s +:+ EmptyString = s.
Proof. induction s; simpl; congruence. Qed.

Lemma string_length_app (s1 s2 : string) :
  String.length (s1 +:+ s2) = String.length s1 + String.length s2.
Proof. induction s1; simpl; lia. Qed.

#[export] Hint Rewrite string_app_assoc string_app_nil_r string_length_app : py_rw.

Lemma all_chars_app p (s1 s2 : string) : all_chars p (s1 +:+ s2) = all_chars p s1 && all_chars p s2.
Proof. induction s1 as [|c s1 IH]; simpl; [done|]. by rewrite IH, andb_assoc. Qed.

Lemma string_rev_app (s1 s2 : string) : string_rev (s1 +:+ s2) = string_rev s2 +:+ string_rev s1.
Proof.
  induction s1 as [|c s1 IH]; simpl; [by rewrite string_app_nil_r|].
  by rewrite IH, string_app_assoc.
Qed.

Lemma string_rev_involutive (s : string) : string_rev (string_rev s) = s.
Proof. induction s as [|c s IH]; simpl; [done|]. by rewrite string_rev_app, IH. Qed.

Lemma all_chars_rev p (s : string) : all_chars p (string_rev s) = all_chars p s.
Proof.
  induction s as [|c s IH]; simpl; [done|].
  rewrite all_chars_app, IH. simpl. by rewrite andb_true_r, andb_comm.
Qed.

(** A string without whitespace is its own [strip()]. *)
Lemma py_strip_id (s : string) :
  all_chars (fun c => negb (py_isspace c)) s = true -> py_strip s = s.
Proof.
  assert (Hl : forall t, all_chars (fun c => negb (py_isspace c)) t = true -> lstrip t = t).
  { intros [|c t]; simpl; [done|]. intros [Hc _]%andb_true_iff. apply negb_true_iff in Hc. by rewrite Hc. }
  intros Hs. unfold py_strip. rewrite (Hl s Hs), Hl; [apply string_rev_involutive|].
  by rewrite all_chars_rev.
Qed.

Lemma all_chars_impl (p q : ascii -> bool) (s : string) :
  (forall c, p c = true -> q c = true) -> all_chars p s = true -> all_chars q s = true.
Proof.
  intros Hpq. induction s as [|c s IH]; simpl; [done|].
  intros [Hc Hs]%andb_true_iff. by rewrite Hpq, IH.
Qed.

(** A digit, superscripts included, is not whitespace. *)
Lemma isdigit_not_space c : py_isdigit_char c = true -> negb (py_isspace c) = true.
Proof. destruct c as [[] [] [] [] [] [] [] []]; try discriminate; reflexivity. Qed.

Lemma keys_distinct_NoDup ks : keys_distinct ks = true <-> NoDup ks.
Proof.
  induction ks as [|k ks IH]; simpl; [split; [constructor|done]|].
  rewrite andb_true_iff, negb_true_iff, IH, NoDup_cons.
  assert (existsb (String.eqb k) ks = false <-> k ∉ ks).
  { rewrite <- not_true_iff_false, existsb_exists.
    split; intros H Hin; apply H; [exists k; split; [by apply list_elem_of_In|apply String.eqb_refl]|].
    destruct Hin as (k' & Hin & Heq%String.eqb_eq). subst. by apply list_elem_of_In. }
  naive_solver.
Qed.

Section DictLemmas.
Context {V : Type}.
Implicit Types (d : dict V) (k : string) (v : V).

Lemma dict_get_set_eq d k v : dict_get (dict_set d k v) k = Some v.
Proof.
  induction d as [|[k' v'] d IH]; simpl; [by rewrite String.eqb_refl|].
  destruct (String.eqb_spec k k') as [->|]; simpl;
    [by rewrite String.eqb_refl | by apply String.eqb_neq in n as ->].
Qed.

Lemma dict_get_set_ne d k k' v : k <> k' -> dict_get (dict_set d k v) k' = dict_get d k'.
Proof.
  intros Hne. induction d as [|[k0 v0] d IH]; simpl.
  - by destruct (String.eqb_spec k' k); [congruence|].
  - destruct (String.eqb_spec k k0) as [->|]; simpl.
    + by destruct (String.eqb_spec k' k0); [congruence|].
    + by rewrite IH.
Qed.

Lemma dict_get_None_keys d k : dict_get d k = None <-> k ∉ dict_keys d.
Proof.
  induction d as [|[k' v'] d IH]; simpl; [set_solver|].
  rewrite not_elem_of_cons, <- IH.
  destruct (String.eqb_spec k k'); naive_solver.
Qed.

Lemma dict_set_fresh d k v : k ∉ dict_keys d -> dict_set d k v = d ++ [(k, v)].
Proof.
  induction d as [|[k' v'] d IH]; simpl; [done|].
  rewrite not_elem_of_cons. intros [Hne Hk].
  destruct (String.eqb_spec k k'); [congruence|]. by rewrite IH.
Qed.

Lemma dict_keys_set d k v :
  dict_keys (dict_set d k v) = if decide (k ∈ dict_keys d) then dict_keys d else dict_keys d ++ [k].
Proof.
  induction d as [|[k' v'] d IH]; simpl; [done|].
  destruct (String.eqb_spec k k') as [->|Hne]; simpl.
  - rewrite decide_True; [done|set_solver].
  - rewrite IH. unfold dict_keys.
    destruct (decide (k ∈ map fst d)), (decide (k ∈ k' :: map fst d)); set_solver.
Qed.

Lemma dict_set_NoDup d k v : NoDup (dict_keys d) -> NoDup (dict_keys (dict_set d k v)).
Proof.
  rewrite dict_keys_set. case_decide; [done|].
  intros. apply NoDup_app; repeat split; [done| |apply NoDup_singleton]. set_solver.
Qed.

Lemma fold_dict_set_fresh (acc l : list (string * V)) :
  NoDup (map fst (acc ++ l)) -> fold_left (fun d kv => dict_set d kv.1 kv.2) l acc = acc ++ l.
Proof.
  revert acc; induction l as [|[k v] l IH]; intros acc Hnd; simpl; [by rewrite app_nil_r|].
  rewrite dict_set_fresh.
  - rewrite IH; [by rewrite <- app_assoc|]. by rewrite <- app_assoc.
  - rewrite map_app, map_cons in Hnd. apply NoDup_app in Hnd as (_ & Hdis & _).
    unfold dict_keys. intros Hin. apply (Hdis k Hin). set_solver.
Qed.

(** [dict(pairs)] keeps a list of pairs with distinct keys as it is. *)
Lemma dict_of_pairs_NoDup (l : list (string * V)) :
  NoDup (map fst l) -> dict_of_pairs l = l.
Proof. intros. by apply (fold_dict_set_fresh []). Qed.

(** [dict(pairs)] always has distinct keys. *)
Lemma dict_of_pairs_keys_NoDup (l : list (string * V)) : NoDup (dict_keys (dict_of_pairs l)).
Proof.
  unfold dict_of_pairs. cut (forall acc, NoDup (dict_keys acc) ->
    NoDup (dict_keys (fold_left (fun d kv => dict_set d kv.1 kv.2) l acc))).
  { intros H. apply H. constructor. }
  induction l as [|kv l IH]; intros acc Hacc; simpl; [done|]. by apply IH, dict_set_NoDup.
Qed.
Lemma dict_set_forallb (P : V -> bool) d k v :
  forallb (fun kv => P kv.2) d = true -> P v = true ->
  forallb (fun kv => P kv.2) (dict_set d k v) = true.
Proof.
  intros Hd Hv. induction d as [|[k' v'] d IH]; simpl in *; [by rewrite Hv|].
  apply andb_true_iff in Hd as [H1 H2].
  destruct (String.eqb k k'); simpl; rewrite ?Hv, ?H1, ?H2, ?IH; done.
Qed.

(** Every value of [dict(pairs)] is one of the values of the pairs. *)
Lemma dict_of_pairs_forallb (P : V -> bool) (l : list (string * V)) :
  forallb (fun kv => P kv.2) l = true -> forallb (fun kv => P kv.2) (dict_of_pairs l) = true.
Proof.
  unfold dict_of_pairs. cut (forall acc, forallb (fun kv => P kv.2) acc = true ->
    forallb (fun kv => P kv.2) l = true ->
    forallb (fun kv => P kv.2) (fold_left (fun d kv => dict_set d kv.1 kv.2) l acc) = true).
  { intros H Hl. by apply H. }
  induction l as [|[k v] l IH]; intros acc Hacc Hl; simpl in *; [done|].
  apply andb_true_iff in Hl as [Hv Hl]. apply IH; [by apply dict_set_forallb|done].
Qed.
Lemma dict_get_In d k v : dict_get d k = Some v -> In (k, v) d.
Proof.
  induction d as [|[k' v'] d IH]; simpl; [done|].
  destruct (String.eqb_spec k k') as [->|]; [intros E; injection E as ->; by left|auto].
Qed.

Lemma dict_get_setdefault_eq d k v :
  exists v', dict_get (dict_setdefault d k v) k = Some v'.
Proof.
  unfold dict_setdefault. destruct (dict_get d k) eqn:E; [by eexists|].
  eexists. apply dict_get_set_eq.
Qed.

Lemma dict_get_setdefault_ne d k k' v :
  k <> k' -> dict_get (dict_setdefault d k v) k' = dict_get d k'.
Proof. intros Hne. unfold dict_setdefault. destruct (dict_get d k); [done|]. by apply dict_get_set_ne. Qed.
End DictLemmas.

Lemma forallb_rev {A} (f : A -> bool) (l : list A) : forallb f (rev l) = forallb f l.
Proof.
  induction l as [|x l IH]; simpl; [done|].
  by rewrite forallb_app, IH, andb_comm; simpl; rewrite andb_true_r.
Qed.

(** Lookups in a dict after [d[k] = v] and [d.setdefault(k, v)]. *)
#[export] Hint Rewrite @dict_get_set_eq : py_rw.
#[export] Hint Rewrite @dict_get_set_ne @dict_get_setdefault_ne using done : py_rw.
#[export] Hint Rewrite @length_map @length_app : py_rw.

(** ** Decimal printing and reading *)

Lemma digit_char_spec (d : N) :
  (d < 10)%N -> is_ascii_digit (digit_char d) = true /\ digit_value (digit_char d) = d
                 /\ (d <> 0%N -> digit_char d <> "0"%char).
Proof.
  intros Hd.
  assert (d = 0 \/ d = 1 \/ d = 2 \/ d = 3 \/ d = 4 \/ d = 5 \/ d = 6 \/ d = 7 \/ d = 8 \/ d = 9)%N
    as Hcases by lia.
  repeat destruct Hcases as [->|Hcases]; subst; vm_compute; repeat split; congruence.
Qed.

Lemma digits_aux_app f n acc rest : digits_aux f n acc +:+ rest = digits_aux f n (acc +:+ rest).
Proof.
  revert n acc; induction f as [|f IH]; intros n acc; simpl; [done|].
  case_match; [done|]. by rewrite IH.
Qed.

Lemma read_digits_aux f n acc a :
  (n < 10 ^ N.of_nat f)%N ->
  exists k, read_digits (digits_aux f n acc) a = read_digits acc (a * 10 ^ k + n)%N.
Proof.
  revert n acc a; induction f as [|f IH]; intros n acc a Hn; simpl.
  - exists 0%N. rewrite N.pow_0_r in *. f_equal. lia.
  - rewrite Nat2N.inj_succ, N.pow_succ_r' in Hn.
    destruct (digit_char_spec (n mod 10)) as (Hdig & Hval & _); [apply N.mod_lt; lia|].
    pose proof (N.div_mod n 10 ltac:(lia)) as Hdm.
    destruct (N.eqb_spec (n / 10) 0) as [Hq|Hq].
    + exists 1%N. simpl. rewrite Hdig, Hval. f_equal. lia.
    + destruct (IH (n / 10)%N (String (digit_char (n mod 10)) acc) a) as [k Hk].
      { apply N.Div0.div_lt_upper_bound. lia. }
      exists (N.succ k). rewrite Hk. simpl. rewrite Hdig, Hval. f_equal.
      rewrite N.pow_succ_r'. nia.
Qed.

Lemma string_of_N_bound n : (n < 10 ^ N.of_nat (S (N.to_nat (N.size n))))%N.
Proof.
  rewrite Nat2N.inj_succ, N2Nat.id. pose proof (N.size_gt n) as H.
  assert (2 ^ N.size n <= 10 ^ N.size n)%N by (apply N.pow_le_mono_l; lia).
  rewrite N.pow_succ_r'. lia.
Qed.

(** Reading back what [str(n)] printed gives [n] and the rest untouched. *)
Lemma read_digits_string_of_N n rest :
  starts_with_digit rest = false -> read_digits (string_of_N n +:+ rest) 0 = (n, rest).
Proof.
  intros Hrest. unfold string_of_N. rewrite digits_aux_app. change (EmptyString +:+ rest) with rest.
  destruct (read_digits_aux _ n rest 0 (string_of_N_bound n)) as [k ->].
  rewrite N.mul_0_l, N.add_0_l.
  destruct rest as [|c r]; simpl in *; [done|]. by rewrite Hrest.
Qed.

Lemma digits_aux_head f n acc :
  (0 < n)%N -> (n < 10 ^ N.of_nat f)%N ->
  exists c r, digits_aux f n acc = String c r /\ is_ascii_digit c = true /\ c <> "0"%char.
Proof.
  revert n acc; induction f as [|f IH]; intros n acc Hpos Hn; simpl.
  - rewrite N.pow_0_r in Hn. lia.
  - rewrite Nat2N.inj_succ, N.pow_succ_r' in Hn.
    destruct (N.eqb_spec (n / 10) 0) as [Hq|Hq].
    + destruct (digit_char_spec (n mod 10)) as (Hdig & _ & Hnz); [apply N.mod_lt; lia|].
      pose proof (N.div_mod n 10 ltac:(lia)).
      eexists _, _; split; [done|]. split; [done|]. apply Hnz. lia.
    + apply IH; [clear -Hq; remember (n / 10)%N; lia|]. apply N.Div0.div_lt_upper_bound. lia.
Qed.

(** [str(n)] of a positive number does not start with a zero. *)
Lemma string_of_N_head n :
  (0 < n)%N -> exists c r, string_of_N n = String c r /\ is_ascii_digit c = true /\ c <> "0"%char.
Proof. intros. apply digits_aux_head; [done|apply string_of_N_bound]. Qed.
