(* ===== verification/Json.v ===== *)
(** * Json: the [json] module as the scripts use it

    [exercise8_advanced.py] turns the model's tool arguments into Python
    values with [json.loads] and its tool results into text with
    [json.dumps]; [exercise7.py] parses the model's JSON-mode reply with
    [json.loads].  This file models both functions of CPython's [json]
    module (default arguments, the C scanner) on the Python values they
    produce:
    - [json]: [None], [bool], [int], [float], [str], [list] and [dict]
      with string keys in insertion order;
    - [dumps]: [json.dumps(v)] with separators [", "] and [": "] and
      [ensure_ascii=True];
    - [parse_value] and [loads]: [json.loads(s)], recursive descent with
      fuel; [loads] gives it [2 * length s + 1], which the theorem
      [parse_value_fuel_enough] shows is always enough.
    Floats are kept as decimal mantissa and exponent ([FDec m e] is
    [m * 10^e]); the binary rounding of [float()] and the digits of
    [float.__repr__] are not modelled.  Strings are Latin-1: a [\uXXXX]
    escape above U+00FF is outside the model and [loads] rejects it. *)

From S2P Require Import Prelude.

(** ** Python values *)

Inductive py_float : Type :=
| FDec (mant exp : Z)
| FNaN
| FInf
| FNegInf.

Inductive json : Type :=
| JNull
| JBool (b : bool)
| JInt (z : Z)
| JFloat (f : py_float)
| JStr (s : string)
| JArr (l : list json)
| JObj (kvs : dict json).

(** Induction with hypotheses on the elements of lists and dictionaries. *)
Section json_ind.
Variable P : json -> Prop.
Hypothesis HNull : P JNull.
Hypothesis HBool : forall b, P (JBool b).
Hypothesis HInt : forall z, P (JInt z).
Hypothesis HFloat : forall f, P (JFloat f).
Hypothesis HStr : forall s, P (JStr s).
Hypothesis HArr : forall l, Forall P l -> P (JArr l).
Hypothesis HObj : forall kvs, Forall (fun kv => P kv.2) kvs -> P (JObj kvs).

Fixpoint json_ind' (v : json) : P v :=
  match v with
  | JNull => HNull
  | JBool b => HBool b
  | JInt z => HInt z
  | JFloat f => HFloat f
  | JStr s => HStr s
  | JArr l =>
      HArr l ((fix go (l : list json) : Forall P l :=
                 match l with
                 | [] => List.Forall_nil _
                 | x :: l' => List.Forall_cons _ x l' (json_ind' x) (go l')
                 end) l)
  | JObj kvs =>
      HObj kvs ((fix go (kvs : list (string * json)) : Forall (fun kv => P kv.2) kvs :=
                   match kvs with
                   | [] => List.Forall_nil _
                   | (k, x) :: kvs' => List.Forall_cons _ (k, x) kvs' (json_ind' x) (go kvs')
                   end) kvs)
  end.
End json_ind.

(** Well-formed values: every [dict] has distinct keys, as a Python [dict]
    has. *)
Fixpoint json_wf (v : json) : bool :=
  match v with
  | JArr l => forallb json_wf l
  | JObj kvs => keys_distinct (map fst kvs) && forallb (fun kv => json_wf kv.2) kvs
  | _ => true
  end.

(** Nodes of a value, counting one more per element of a list or dict: the
    fuel [parse_value] needs to read it back. *)
Fixpoint json_size (v : json) : nat :=
  match v with
  | JArr l => S (sum_list_with (fun x => S (json_size x)) l)
  | JObj kvs => S (sum_list_with (fun kv => S (json_size kv.2)) kvs)
  | _ => 1
  end.

(** ** [json.dumps] *)

Definition quote_char : ascii := "034"%char.
Definition backslash : ascii := "092"%char.

Definition hex_digit (n : N) : ascii :=
  if (n <? 10)%N then ascii_of_N (48 + n) else ascii_of_N (87 + n).

(** One character of a string literal, as [py_encode_basestring_ascii]
    writes it: printable ASCII as itself, quote and backslash escaped, the
    five named controls by name, anything else as [\u00xx]. *)
Definition escape_char (c : ascii) : string :=
  let n := N_of_ascii c in
  if (n =? 34)%N then String backslash (String quote_char EmptyString)
  else if (n =? 92)%N then String backslash (String backslash EmptyString)
  else if (n =? 10)%N then String backslash "n"
  else if (n =? 13)%N then String backslash "r"
  else if (n =? 9)%N then String backslash "t"
  else if (n =? 8)%N then String backslash "b"
  else if (n =? 12)%N then String backslash "f"
  else if (32 <=? n)%N && (n <=? 126)%N then String c EmptyString
  else String backslash (String "u" (String "0" (String "0"
         (String (hex_digit (n / 16)) (String (hex_digit (n mod 16)) EmptyString))))).

Fixpoint escape_string (s : string) : string :=
  match s with
  | EmptyString => EmptyString
  | String c r => escape_char c +:+ escape_string r
  end.

Definition dumps_string (s : string) : string :=
  String quote_char (escape_string s +:+ String quote_char EmptyString).

Definition dumps_float (f : py_float) : string :=
  match f with
  | FDec m e => string_of_Z m +:+ "e" +:+ string_of_Z e
  | FNaN => "NaN"
  | FInf => "Infinity"
  | FNegInf => "-Infinity"
  end.

(** [sep.join(items)] *)
Fixpoint join (sep : string) (items : list string) : string :=
  match items with
  | [] => EmptyString
  | [x] => x
  | x :: items' => x +:+ sep +:+ join sep items'
  end.

Fixpoint dumps (v : json) : string :=
  match v with
  | JNull => "null"
  | JBool true => "true"
  | JBool false => "false"
  | JInt z => string_of_Z z
  | JFloat f => dumps_float f
  | JStr s => dumps_string s
  | JArr l => "[" +:+ join ", " (map dumps l) +:+ "]"
  | JObj kvs =>
      "{" +:+ join ", " (map (fun kv => dumps_string kv.1 +:+ ": " +:+ dumps kv.2) kvs) +:+ "}"
  end.

(** ** [str()] and [repr()] of values *)

(** [str.isprintable] on Latin-1: printable ASCII and the Latin-1 letters
    and signs except no-break space and soft hyphen. *)
Definition py_printable (c : ascii) : bool :=
  let n := N_of_ascii c in
  ((32 <=? n)%N && (n <=? 126)%N) || ((161 <=? n)%N && negb (n =? 173)%N).

Fixpoint has_char (c : ascii) (s : string) : bool :=
  match s with
  | EmptyString => false
  | String d r => Ascii.eqb c d || has_char c r
  end.

(** One character inside [repr(s)] quoted with [q]. *)
Definition repr_char (q c : ascii) : string :=
  let n := N_of_ascii c in
  if Ascii.eqb c q || (n =? 92)%N then String backslash (String c EmptyString)
  else if (n =? 9)%N then String backslash "t"
  else if (n =? 10)%N then String backslash "n"
  else if (n =? 13)%N then String backslash "r"
  else if py_printable c then String c EmptyString
  else String backslash (String "x" (String (hex_digit (n / 16))
         (String (hex_digit (n mod 16)) EmptyString))).

Fixpoint repr_chars (q : ascii) (s : string) : string :=
  match s with
  | EmptyString => EmptyString
  | String c r => repr_char q c +:+ repr_chars q r
  end.

(** [repr(s)]: single quotes, unless the string has a single quote and no
    double quote. *)
Definition repr_string (s : string) : string :=
  let q := if has_char "'" s && negb (has_char quote_char s) then quote_char else "'"%char in
  String q (repr_chars q s +:+ String q EmptyString).

(** [repr()] of a float: NaN and the infinities as Python writes them; a
    finite value in the decimal form of [dumps_float] (the shortest
    round-trip digits of [float.__repr__] are not modelled). *)
Definition float_repr (f : py_float) : string :=
  match f with
  | FNaN => "nan"
  | FInf => "inf"
  | FNegInf => "-inf"
  | FDec _ _ => dumps_float f
  end.

Fixpoint py_repr (v : json) : string :=
  match v with
  | JNull => "None"
  | JBool true => "True"
  | JBool false => "False"
  | JInt z => string_of_Z z
  | JFloat f => float_repr f
  | JStr s => repr_string s
  | JArr l => "[" +:+ join ", " (map py_repr l) +:+ "]"
  | JObj kvs => "{" +:+ join ", " (map (fun kv => repr_string kv.1 +:+ ": " +:+ py_repr kv.2) kvs) +:+ "}"
  end.

(** [str(v)], as an f-string [{v}] formats it. *)
Definition py_str (v : json) : string :=
  match v with
  | JStr s => s
  | _ => py_repr v
  end.

(** ** Operations of Python values the scripts use *)

(** [v.get(k, default)]: only a [dict] has [get]. *)
Definition py_get (v : json) (k : string) (dflt : json) : outcome json :=
  match v with
  | JObj kvs => Ok (dict_get_default kvs k dflt)
  | _ => Raise AttributeError
  end.

(** [iter(v)], as [for x in v] and [enumerate(v)] use it: the elements of a
    list, the characters of a string, the keys of a dict; other values
    raise [TypeError]. *)
Definition py_iter (v : json) : outcome (list json) :=
  match v with
  | JArr l => Ok l
  | JStr s => Ok (map (fun c => JStr (String c EmptyString)) (list_ascii_of_string s))
  | JObj kvs => Ok (map (fun kv => JStr kv.1) kvs)
  | _ => Raise TypeError
  end.

(** Python truthiness: [if v:]. *)
Definition py_truthy (v : json) : bool :=
  match v with
  | JNull => false
  | JBool b => b
  | JInt z => negb (Z.eqb z 0)
  | JFloat (FDec m _) => negb (Z.eqb m 0)
  | JFloat _ => true
  | JStr s => negb (String.eqb s "")
  | JArr l => negb (Nat.eqb (List.length l) 0)
  | JObj kvs => negb (Nat.eqb (List.length kvs) 0)
  end.

(** ** [json.loads] *)

(** The scanner's whitespace: space, tab, newline, carriage return. *)
Definition is_json_ws (c : ascii) : bool :=
  let n := N_of_ascii c in (n =? 32)%N || (n =? 9)%N || (n =? 10)%N || (n =? 13)%N.

Fixpoint skip_ws (s : string) : string :=
  match s with
  | String c r => if is_json_ws c then skip_ws r else s
  | EmptyString => EmptyString
  end.

Definition hex_value (c : ascii) : option N :=
  let n := N_of_ascii c in
  if (48 <=? n)%N && (n <=? 57)%N then Some (n - 48)%N
  else if (97 <=? n)%N && (n <=? 102)%N then Some (n - 87)%N
  else if (65 <=? n)%N && (n <=? 70)%N then Some (n - 55)%N
  else None.

(** The character of a [\uXXXX] escape, when it is in the model. *)
Definition unicode_escape (h1 h2 h3 h4 : ascii) : option ascii :=
  match hex_value h1, hex_value h2, hex_value h3, hex_value h4 with
  | Some a, Some b, Some c, Some d =>
      let n := (((a * 16 + b) * 16 + c) * 16 + d)%N in
      if (n <? 256)%N then Some (ascii_of_N n) else None
  | _, _, _, _ => None
  end.

Definition simple_escape (e : ascii) : option ascii :=
  let n := N_of_ascii e in
  if (n =? 34)%N || (n =? 92)%N || (n =? 47)%N then Some e
  else if (n =? 98)%N then Some "008"%char
  else if (n =? 102)%N then Some "012"%char
  else if (n =? 110)%N then Some "010"%char
  else if (n =? 114)%N then Some "013"%char
  else if (n =? 116)%N then Some "009"%char
  else None.

(** The body of a string literal after its opening quote ([scanstring] with
    [strict=True]): the decoded string and what follows the closing quote. *)
Fixpoint parse_string_body (s : string) : option (string * string) :=
  match s with
  | EmptyString => None
  | String c r =>
      if (N_of_ascii c =? 34)%N then Some (EmptyString, r)
      else if (N_of_ascii c =? 92)%N then
        match r with
        | String e r' =>
            if (N_of_ascii e =? 117)%N then
              match r' with
              | String h1 (String h2 (String h3 (String h4 r''))) =>
                  match unicode_escape h1 h2 h3 h4, parse_string_body r'' with
                  | Some c', Some (str, rest) => Some (String c' str, rest)
                  | _, _ => None
                  end
              | _ => None
              end
            else
              match simple_escape e, parse_string_body r' with
              | Some c', Some (str, rest) => Some (String c' str, rest)
              | _, _ => None
              end
        | EmptyString => None
        end
      else if (N_of_ascii c <? 32)%N then None
      else match parse_string_body r with
           | Some (str, rest) => Some (String c str, rest)
           | None => None
           end
  end.

Fixpoint strip_prefix (p s : string) : option string :=
  match p, s with
  | EmptyString, _ => Some s
  | String a p', String b s' => if Ascii.eqb a b then strip_prefix p' s' else None
  | _, _ => None
  end.

(** Reads the longest run of ASCII digits with its length. *)
Fixpoint read_digits_count (s : string) (acc : N) (k : nat) : N * nat * string :=
  match s with
  | String c r =>
      if is_ascii_digit c then read_digits_count r (acc * 10 + digit_value c) (S k) else (acc, k, s)
  | EmptyString => (acc, k, s)
  end.

Definition is_char (n : N) (c : ascii) : bool := (N_of_ascii c =? n)%N.

(** The optional fraction [.ddd]: it is taken only when a digit follows the
    dot. *)
Definition parse_frac (s : string) : option (N * nat * string) :=
  match s with
  | String c (String d r) =>
      if is_char 46 c && is_ascii_digit d then Some (read_digits_count (String d r) 0 0) else None
  | _ => None
  end.

(** The optional exponent [e[+-]ddd]: taken only when a digit follows. *)
Definition parse_exp (s : string) : option (Z * string) :=
  match s with
  | String c r =>
      if is_char 101 c || is_char 69 c then
        let '(sgn, r') := match r with
                          | String p r' => if is_char 45 p then (-1, r')
                                           else if is_char 43 p then (1, r') else (1, r)
                          | EmptyString => (1, r)
                          end%Z in
        if starts_with_digit r' then
          let '(e, rest) := read_digits r' 0 in Some (sgn * Z.of_N e, rest)%Z
        else None
      else None
  | EmptyString => None
  end.

Definition parse_sign (s : string) : Z * string :=
  match s with
  | String c r => if is_char 45 c then (-1, r) else (1, s)
  | EmptyString => (1, s)
  end%Z.

(** The integer part: a lone [0], or a non-zero digit and the digits after
    it. *)
Definition parse_int_part (s : string) : option (N * string) :=
  match s with
  | String c r =>
      if is_char 48 c then Some (0%N, r)
      else if is_ascii_digit c then Some (read_digits s 0)
      else None
  | EmptyString => None
  end.

(** [_match_number_unicode]: an optional minus, the integer part, an
    optional fraction and an optional exponent; an [int] without fraction
    and exponent, a [float] otherwise. *)
Definition parse_number (s : string) : option (json * string) :=
  let '(sgn, s1) := parse_sign s in
  match parse_int_part s1 with
  | None => None
  | Some (i, s2) =>
      let '(frac, s3) := match parse_frac s2 with
                         | Some (f, k, r) => (Some (f, k), r)
                         | None => (None, s2)
                         end in
      let '(exp, s4) := match parse_exp s3 with
                        | Some (e, r) => (Some e, r)
                        | None => (None, s3)
                        end in
      match frac, exp with
      | None, None => Some (JInt (sgn * Z.of_N i), s4)
      | _, _ =>
          let '(m, k) := match frac with
                         | Some (f, k) => (i * 10 ^ N.of_nat k + f, k)%N
                         | None => (i, 0)
                         end in
          let e := match exp with Some e => e | None => 0%Z end in
          Some (JFloat (FDec (sgn * Z.of_N m) (e - Z.of_nat k)), s4)
      end
  end.

(** A value that is not a string, array or object: the literals and the
    numbers. *)
Definition parse_scalar (s : string) : option (json * string) :=
  match strip_prefix "null" s with Some r => Some (JNull, r) | None =>
  match strip_prefix "true" s with Some r => Some (JBool true, r) | None =>
  match strip_prefix "false" s with Some r => Some (JBool false, r) | None =>
  match strip_prefix "NaN" s with Some r => Some (JFloat FNaN, r) | None =>
  match strip_prefix "Infinity" s with Some r => Some (JFloat FInf, r) | None =>
  match strip_prefix "-Infinity" s with Some r => Some (JFloat FNegInf, r) | None =>
  parse_number s
  end end end end end end.

(** [scan_once], [_parse_array] and [_parse_object] of the C scanner.
    Every call consumes one unit of fuel. *)
Fixpoint parse_value (fuel : nat) (s : string) {struct fuel} : option (json * string) :=
  match fuel with
  | O => None
  | S f =>
      match s with
      | String c r =>
          if is_char 34 c then
            match parse_string_body r with
            | Some (str, rest) => Some (JStr str, rest)
            | None => None
            end
          else if is_char 123 c then
            match skip_ws r with
            | String d r' => if is_char 125 d then Some (JObj [], r') else parse_members f (skip_ws r) []
            | EmptyString => None
            end
          else if is_char 91 c then
            match skip_ws r with
            | String d r' => if is_char 93 d then Some (JArr [], r') else parse_items f (skip_ws r) []
            | EmptyString => None
            end
          else parse_scalar s
      | EmptyString => None
      end
  end
with parse_items (fuel : nat) (s : string) (acc : list json) {struct fuel} : option (json * string) :=
  match fuel with
  | O => None
  | S f =>
      match parse_value f s with
      | Some (v, r) =>
          match skip_ws r with
          | String c r' =>
              if is_char 93 c then Some (JArr (rev (v :: acc)), r')
              else if is_char 44 c then parse_items f (skip_ws r') (v :: acc)
              else None
          | EmptyString => None
          end
      | None => None
      end
  end
with parse_members (fuel : nat) (s : string) (acc : list (string * json)) {struct fuel}
  : option (json * string) :=
  match fuel with
  | O => None
  | S f =>
      match s with
      | String q r =>
          if is_char 34 q then
            match parse_string_body r with
            | Some (k, r1) =>
                match skip_ws r1 with
                | String colon r2 =>
                    if is_char 58 colon then
                      match parse_value f (skip_ws r2) with
                      | Some (v, r3) =>
                          match skip_ws r3 with
                          | String c r4 =>
                              if is_char 125 c then Some (JObj (dict_of_pairs (rev ((k, v) :: acc))), r4)
                              else if is_char 44 c then parse_members f (skip_ws r4) ((k, v) :: acc)
                              else None
                          | EmptyString => None
                          end
                      | None => None
                      end
                    else None
                | EmptyString => None
                end
            | None => None
            end
          else None
      | EmptyString => None
      end
  end.

(** [json.loads(s)]: one value between optional whitespace, or
    [JSONDecodeError]. *)
Definition loads (s : string) : outcome json :=
  match parse_value (S (2 * String.length s)) (skip_ws s) with
  | Some (v, r) =>
      match skip_ws r with
      | EmptyString => Ok v
      | _ => Raise JSONDecodeError
      end
  | None => Raise JSONDecodeError
  end.

(** ** The parser consumes its input *)

Lemma skip_ws_length s : String.length (skip_ws s) <= String.length s.
Proof. induction s as [|c s IH]; simpl; [lia|]. destruct (is_json_ws c); simpl; lia. Qed.

Lemma strip_prefix_length p s r :
  strip_prefix p s = Some r -> String.length s = String.length p + String.length r.
Proof.
  revert s; induction p as [|a p IH]; intros [|b s] H; simpl in *; try by simplify_eq/=.
  destruct (Ascii.eqb a b); [apply IH in H; lia|done].
Qed.

Lemma read_digits_length s acc n r :
  read_digits s acc = (n, r) -> String.length r <= String.length s.
Proof.
  revert acc; induction s as [|c s IH]; intros acc H; simpl in H.
  - by simplify_eq/=.
  - destruct (is_ascii_digit c); [apply IH in H; simpl; lia|simplify_eq/=; lia].
Qed.

Lemma read_digits_count_length s acc k n k' r :
  read_digits_count s acc k = (n, k', r) -> String.length r <= String.length s.
Proof.
  revert acc k; induction s as [|c s IH]; intros acc k H; simpl in H.
  - by simplify_eq/=.
  - destruct (is_ascii_digit c); [apply IH in H; simpl; lia|simplify_eq/=; lia].
Qed.

(** Turns the equations left by unfolding the number parser into facts on
    lengths. *)
Ltac number_lengths :=
  repeat match goal with
  | H : read_digits _ _ = (_, _) |- _ => apply read_digits_length in H
  | H : read_digits_count _ _ _ = (_, _, _) |- _ => apply read_digits_count_length in H
  | Hb : ?b = true, H : context [if ?b then _ else _] |- _ => rewrite Hb in H
  end.

Lemma parse_frac_length s f k r : parse_frac s = Some (f, k, r) -> String.length r < String.length s.
Proof.
  intros H. destruct s as [|c [|d s]]; cbv beta iota delta [parse_frac] in H; try discriminate.
  destruct (is_char 46 c && is_ascii_digit d); [|discriminate].
  remember (read_digits_count (String d s) 0 0) as t eqn:Ht. symmetry in Ht.
  injection H as ->. apply read_digits_count_length in Ht. simpl in *. lia.
Qed.

Lemma parse_exp_length s e r : parse_exp s = Some (e, r) -> String.length r < String.length s.
Proof.
  unfold parse_exp. intros H. repeat case_match; simplify_eq/=; number_lengths; simpl in *; lia.
Qed.

Lemma parse_sign_length s : String.length (parse_sign s).2 <= String.length s.
Proof. destruct s as [|c r]; simpl; [lia|]. destruct (is_char 45 c); simpl; lia. Qed.

Lemma parse_int_part_length s n r :
  parse_int_part s = Some (n, r) -> String.length r < String.length s.
Proof.
  destruct s as [|c s']; intros H; [discriminate|]. unfold parse_int_part in H.
  destruct (is_char 48 c); [simplify_eq/=; lia|].
  destruct (is_ascii_digit c) eqn:Hc; [|discriminate]. injection H as H.
  simpl in H. rewrite Hc in H. apply read_digits_length in H. simpl. lia.
Qed.

Lemma parse_number_length s v r : parse_number s = Some (v, r) -> String.length r < String.length s.
Proof.
  unfold parse_number. intros H. pose proof (parse_sign_length s).
  destruct (parse_sign s) as [sgn s1]. simpl in *.
  destruct (parse_int_part s1) as [[i s2]|] eqn:Ei; [|discriminate].
  apply parse_int_part_length in Ei.
  destruct (parse_frac s2) as [[[fr k] s3]|] eqn:Ef;
    [apply parse_frac_length in Ef|];
  (destruct (parse_exp _) as [[e s4]|] eqn:Ee; [apply parse_exp_length in Ee|]);
  simplify_eq/=; lia.
Qed.

Lemma parse_scalar_length s v r : parse_scalar s = Some (v, r) -> String.length r < String.length s.
Proof.
  unfold parse_scalar. intros H.
  repeat match type of H with
  | context [strip_prefix ?p s] =>
      let E := fresh "E" in
      destruct (strip_prefix p s) eqn:E;
      [injection H as <- <-; apply strip_prefix_length in E; simpl in E; lia|]
  end.
  by eapply parse_number_length.
Qed.

Lemma parse_string_body_length s str r :
  parse_string_body s = Some (str, r) -> String.length r < String.length s.
Proof.
  remember (String.length s) as n eqn:Hn. revert s str r Hn.
  induction n as [n IH] using lt_wf_ind; intros s str r Hn H.
  destruct s as [|c s]; simpl in H; [done|]. simpl in Hn.
  repeat match goal with
  | H : parse_string_body ?t = Some (_, _) |- _ =>
      apply (IH (String.length t)) in H; [|simpl in *; lia|done]
  | _ => progress (case_match; simplify_eq/=)
  end; simpl in *; lia.
Qed.

(** Facts on lengths for every [skip_ws] a hypothesis mentions. *)
Ltac skip_ws_lengths :=
  repeat match goal with
  | H : skip_ws ?s = String _ _ |- _ =>
      let L := fresh "L" in pose proof (skip_ws_length s) as L; rewrite H in L; simpl in L; clear H
  | H : context [String.length (skip_ws ?s)] |- _ =>
      lazymatch goal with
      | _ : String.length (skip_ws s) <= String.length s |- _ => fail
      | _ => pose proof (skip_ws_length s)
      end
  | |- context [String.length (skip_ws ?s)] =>
      lazymatch goal with
      | _ : String.length (skip_ws s) <= String.length s |- _ => fail
      | _ => pose proof (skip_ws_length s)
      end
  end.

Lemma parse_consumes f :
  (forall s v r, parse_value f s = Some (v, r) -> String.length r < String.length s) /\
  (forall s acc v r, parse_items f s acc = Some (v, r) -> String.length r < String.length s) /\
  (forall s acc v r, parse_members f s acc = Some (v, r) -> String.length r < String.length s).
Proof.
  induction f as [|f (IHv & IHi & IHm)]; [repeat split; intros; discriminate|].
  repeat split; intros * H; simpl in H;
  repeat match goal with
  | H : parse_value f _ = Some (_, _) |- _ => apply IHv in H
  | H : parse_items f _ _ = Some (_, _) |- _ => apply IHi in H
  | H : parse_members f _ _ = Some (_, _) |- _ => apply IHm in H
  | H : parse_string_body _ = Some (_, _) |- _ => apply parse_string_body_length in H
  | H : parse_scalar _ = Some (_, _) |- _ => apply parse_scalar_length in H
  | _ => progress (case_match; simplify_eq/=)
  end; skip_ws_lengths; simpl in *; lia.
Qed.

Lemma parse_value_length f s v r :
  parse_value f s = Some (v, r) -> String.length r < String.length s.
Proof. apply parse_consumes. Qed.

(** ** The fuel of [loads] is enough *)

Lemma parse_fuel_mono f :
  (forall s g, 2 * String.length s < f -> f <= g -> parse_value g s = parse_value f s) /\
  (forall s acc g, 2 * String.length s + 1 < f -> f <= g -> parse_items g s acc = parse_items f s acc) /\
  (forall s acc g, 2 * String.length s + 1 < f -> f <= g ->
     parse_members g s acc = parse_members f s acc).
Proof.
  induction f as [|f (IHv & IHi & IHm)]; [repeat split; intros; lia|].
  repeat split; intros * Hlen Hg; (destruct g as [|g]; [lia|]); simpl.
  - destruct s as [|c r]; [done|]. simpl in Hlen.
    destruct (is_char 34 c); [done|]. destruct (is_char 123 c).
    + destruct (skip_ws r) as [|d r'] eqn:E; [done|]. destruct (is_char 125 d); [done|].
      apply IHm; [|lia]. skip_ws_lengths. simpl in *. lia.
    + destruct (is_char 91 c); [|done].
      destruct (skip_ws r) as [|d r'] eqn:E; [done|]. destruct (is_char 93 d); [done|].
      apply IHi; [|lia]. skip_ws_lengths. simpl in *. lia.
  - rewrite (IHv s g) by lia.
    destruct (parse_value f s) as [[v r]|] eqn:E; [|done]. apply parse_value_length in E.
    destruct (skip_ws r) as [|c r'] eqn:E2; [done|].
    destruct (is_char 93 c); [done|]. destruct (is_char 44 c); [|done].
    apply IHi; [|lia]. skip_ws_lengths. simpl in *. lia.
  - destruct s as [|q r]; [done|]. destruct (is_char 34 q); [|done]. simpl in Hlen.
    destruct (parse_string_body r) as [[k r1]|] eqn:E1; [|done].
    apply parse_string_body_length in E1.
    destruct (skip_ws r1) as [|colon r2] eqn:E2; [done|]. destruct (is_char 58 colon); [|done].
    rewrite (IHv (skip_ws r2) g) by (skip_ws_lengths; simpl in *; lia).
    destruct (parse_value f (skip_ws r2)) as [[v r3]|] eqn:E3; [|done].
    apply parse_value_length in E3.
    destruct (skip_ws r3) as [|c r4] eqn:E4; [done|].
    destruct (is_char 125 c); [done|]. destruct (is_char 44 c); [|done].
    apply IHm; [|lia]. skip_ws_lengths. simpl in *. lia.
Qed.

(** More fuel than [2 * length s] never changes what [parse_value] reads:
    the fuel [loads] gives is the fuel of a parser that always terminates. *)
Theorem parse_value_fuel_enough s g :
  2 * String.length s < g -> parse_value g s = parse_value (S (2 * String.length s)) s.
Proof. intros. apply (parse_fuel_mono (S (2 * String.length s))); lia. Qed.

Lemma loads_any_fuel s g :
  2 * String.length s < g ->
  loads s = match parse_value g (skip_ws s) with
            | Some (v, r) => match skip_ws r with EmptyString => Ok v | _ => Raise JSONDecodeError end
            | None => Raise JSONDecodeError
            end.
Proof.
  intros Hg. unfold loads. pose proof (skip_ws_length s).
  rewrite (parse_value_fuel_enough (skip_ws s) g) by lia.
  by rewrite (parse_value_fuel_enough (skip_ws s) (S (2 * String.length s))) by lia.
Qed.

(** ** [json.loads] reads back what [json.dumps] writes *)

(** A number stops before any character that could extend it. *)
Definition num_stop (s : string) : bool :=
  match s with
  | String c _ => negb (is_ascii_digit c || is_char 46 c || is_char 101 c || is_char 69 c)
  | EmptyString => true
  end.

(** What may start a value: not whitespace and not a closing bracket. *)
Definition head_ok (s : string) : bool :=
  match s with
  | String c _ => negb (is_json_ws c) && negb (is_char 93 c) && negb (is_char 125 c)
  | EmptyString => false
  end.

Lemma escape_char_parse c t :
  parse_string_body (escape_char c +:+ t) =
  match parse_string_body t with Some (str, rest) => Some (String c str, rest) | None => None end.
Proof. destruct c as [[] [] [] [] [] [] [] []]; reflexivity. Qed.

Lemma escape_string_parse s rest :
  parse_string_body (escape_string s +:+ String quote_char rest) = Some (s, rest).
Proof.
  induction s as [|c s IH]; [reflexivity|].
  simpl. by rewrite string_app_assoc, escape_char_parse, IH.
Qed.

Lemma digit_chars c :
  is_ascii_digit c = true ->
  is_json_ws c = false /\ is_char 93 c = false /\ is_char 125 c = false /\ is_char 34 c = false /\
  is_char 123 c = false /\ is_char 91 c = false /\ is_char 45 c = false /\ is_char 43 c = false /\
  is_char 46 c = false /\ is_char 101 c = false /\ is_char 69 c = false.
Proof. destruct c as [[] [] [] [] [] [] [] []]; try discriminate; intros _; vm_compute; tauto. Qed.

Lemma is_char_zero c : is_char 48 c = true -> c = "0"%char.
Proof.
  unfold is_char. intros H%N.eqb_eq. rewrite <- (ascii_N_embedding c), H. reflexivity.
Qed.

(** The first character of [str(n)]: a digit, zero only for zero. *)
Lemma string_of_N_first n rest :
  exists c r, string_of_N n +:+ rest = String c r /\ is_ascii_digit c = true /\
              (is_char 48 c = true -> n = 0%N /\ r = rest).
Proof.
  destruct (N.eq_dec n 0) as [->|Hn]; [by eexists _, _|].
  destruct (string_of_N_head n) as (c & r & Hs & Hd & Hz); [lia|].
  rewrite Hs. eexists _, _. split; [done|]. split; [done|].
  intros ->%is_char_zero. done.
Qed.

Lemma num_stop_no_digit s : num_stop s = true -> starts_with_digit s = false.
Proof. destruct s as [|c r]; simpl; [done|]. destruct (is_ascii_digit c); simpl; done. Qed.

Lemma parse_frac_not_dot c t : is_char 46 c = false -> parse_frac (String c t) = None.
Proof. intros H. destruct t; simpl; [done|]. by rewrite H. Qed.

Lemma num_stop_frac s : num_stop s = true -> parse_frac s = None.
Proof.
  destruct s as [|c r]; [done|]. simpl. intros H. apply parse_frac_not_dot.
  destruct (is_char 46 c); [|done]. by rewrite orb_true_r in H.
Qed.

Lemma num_stop_exp s : num_stop s = true -> parse_exp s = None.
Proof.
  destruct s as [|c r]; [done|]. simpl. intros H.
  destruct (is_char 101 c), (is_char 69 c); rewrite ?orb_true_r in H; done.
Qed.

Lemma parse_int_part_N n rest :
  starts_with_digit rest = false -> parse_int_part (string_of_N n +:+ rest) = Some (n, rest).
Proof.
  intros Hrest. destruct (string_of_N_first n rest) as (c & r & Hs & Hd & Hz).
  rewrite Hs. unfold parse_int_part.
  destruct (is_char 48 c) eqn:H48; [by destruct (Hz eq_refl) as [-> ->]|].
  rewrite Hd, <- Hs. by rewrite read_digits_string_of_N.
Qed.

Lemma parse_sign_N n rest : parse_sign (string_of_N n +:+ rest) = (1%Z, string_of_N n +:+ rest).
Proof.
  destruct (string_of_N_first n rest) as (c & r & Hs & Hd & _). rewrite Hs. simpl.
  by destruct (digit_chars c Hd) as (_&_&_&_&_&_&->&_).
Qed.

(** The sign and the magnitude of [str(z)]. *)
Lemma parse_sign_Z z rest :
  exists sgn n, parse_sign (string_of_Z z +:+ rest) = (sgn, string_of_N n +:+ rest) /\
                (sgn = 1 \/ sgn = -1)%Z /\ z = (sgn * Z.of_N n)%Z.
Proof.
  destruct z as [|p|p].
  - exists 1%Z, 0%N. split; [apply (parse_sign_N 0)|lia].
  - exists 1%Z, (Npos p). split; [apply (parse_sign_N (Npos p))|lia].
  - exists (-1)%Z, (Npos p). simpl. split; [done|lia].
Qed.

Lemma parse_number_Z z rest :
  num_stop rest = true -> parse_number (string_of_Z z +:+ rest) = Some (JInt z, rest).
Proof.
  intros Hs. unfold parse_number.
  destruct (parse_sign_Z z rest) as (sgn & n & -> & _ & ->).
  rewrite parse_int_part_N by (by apply num_stop_no_digit).
  by rewrite num_stop_frac, num_stop_exp.
Qed.

Lemma parse_exp_N n rest :
  num_stop rest = true -> parse_exp (String "e" (string_of_N n +:+ rest)) = Some (Z.of_N n, rest).
Proof.
  intros Hs. unfold parse_exp. change (is_char 101 "e") with true. simpl.
  destruct (string_of_N_first n rest) as (c & r & Hsr & Hd & _). rewrite Hsr.
  destruct (digit_chars c Hd) as (_&_&_&_&_&_&H45&H43&_). rewrite H45, H43.
  change (starts_with_digit (String c r)) with (is_ascii_digit c).
  rewrite Hd, <- Hsr, read_digits_string_of_N by (by apply num_stop_no_digit).
  simpl. by rewrite Z.mul_1_l.
Qed.

Lemma parse_exp_Z e rest :
  num_stop rest = true -> parse_exp (String "e" (string_of_Z e +:+ rest)) = Some (e, rest).
Proof.
  intros Hs. destruct e as [|p|p].
  - by apply (parse_exp_N 0).
  - by apply (parse_exp_N (Npos p)).
  - unfold parse_exp. change (is_char 101 "e") with true. simpl.
    destruct (string_of_N_first (Npos p) rest) as (c & r & Hsr & Hd & _).
    rewrite Hsr. change (starts_with_digit (String c r)) with (is_ascii_digit c).
    rewrite Hd, <- Hsr, read_digits_string_of_N by (by apply num_stop_no_digit).
    reflexivity.
Qed.

Lemma parse_number_float m e rest :
  num_stop rest = true ->
  parse_number (string_of_Z m +:+ String "e" (string_of_Z e +:+ rest)) = Some (JFloat (FDec m e), rest).
Proof.
  intros Hs. unfold parse_number.
  destruct (parse_sign_Z m (String "e" (string_of_Z e +:+ rest))) as (sgn & n & -> & _ & ->).
  rewrite parse_int_part_N by done.
  rewrite parse_frac_not_dot by done. rewrite parse_exp_Z by done.
  simpl. by rewrite Z.sub_0_r.
Qed.

(** Shapes of [str(z)]: a digit first, or a minus and a digit. *)
Definition number_head (s : string) : Prop :=
  (exists c t, s = String c t /\ is_ascii_digit c = true) \/
  (exists c t, s = String "-" (String c t) /\ is_ascii_digit c = true).

Lemma string_of_Z_head z rest : number_head (string_of_Z z +:+ rest).
Proof.
  destruct z as [|p|p].
  - left. destruct (string_of_N_first 0 rest) as (c & t & Hs & Hd & _). by exists c, t.
  - left. destruct (string_of_N_first (Npos p) rest) as (c & t & Hs & Hd & _). by exists c, t.
  - right. destruct (string_of_N_first (Npos p) rest) as (c & t & Hs & Hd & _).
    exists c, t. simpl. by rewrite Hs.
Qed.

(** Rules out the literals of [parse_scalar] against a digit. *)
Ltac ascii_neq_digit c Hd :=
  repeat match goal with
  | |- context [Ascii.eqb ?a c] =>
      destruct (Ascii.eqb_spec a c) as [<-|_]; [by vm_compute in Hd|]
  end.

Lemma parse_value_number f s : number_head s -> parse_value (S f) s = parse_number s.
Proof.
  intros [(c & t & -> & Hd)|(c & t & -> & Hd)].
  - destruct (digit_chars c Hd) as (_&_&_&H34&H123&H91&_).
    cbn [parse_value]. rewrite H34, H123, H91. unfold parse_scalar. cbn [strip_prefix].
    ascii_neq_digit c Hd. reflexivity.
  - cbn [parse_value]. unfold parse_scalar. cbn [strip_prefix]. ascii_neq_digit c Hd. reflexivity.
Qed.

Lemma head_ok_number s : number_head s -> head_ok s = true.
Proof.
  intros [(c & t & -> & Hd)|(c & t & -> & Hd)]; [|done].
  cbn [head_ok]. destruct (digit_chars c Hd) as (->&->&->&_). done.
Qed.

Lemma head_ok_dumps v rest : head_ok (dumps v +:+ rest) = true.
Proof.
  destruct v as [| [] | z | [m e| | |] | s | l | kvs]; try done.
  - apply head_ok_number, string_of_Z_head.
  - simpl. rewrite string_app_assoc. apply head_ok_number, string_of_Z_head.
Qed.

Lemma skip_ws_head_ok s : head_ok s = true -> skip_ws s = s.
Proof.
  destruct s as [|c t]; simpl; [done|].
  by destruct (is_json_ws c).
Qed.

Lemma head_ok_app s t : head_ok s = true -> head_ok (s +:+ t) = true.
Proof. by destruct s. Qed.

Lemma join_cons_ne sep x items : items <> [] -> join sep (x :: items) = x +:+ sep +:+ join sep items.
Proof. by destruct items. Qed.

Lemma join_head (xs : list json) rest :
  xs <> [] -> head_ok (join ", " (map dumps xs) +:+ rest) = true.
Proof.
  destruct xs as [|x [|y ys]]; intros Hne; [done|apply head_ok_dumps|].
  cbn [map join]. rewrite string_app_assoc. apply head_ok_dumps.
Qed.

(** The property proved by induction: any fuel above the size reads the
    value back, whatever follows it, when nothing can extend a number. *)
Definition reads_back (x : json) : Prop :=
  forall f rest, json_size x <= f -> num_stop rest = true ->
  parse_value f (dumps x +:+ rest) = Some (x, rest).

Lemma parse_items_dumps xs acc f rest :
  Forall reads_back xs -> xs <> [] -> sum_list_with (fun x => S (json_size x)) xs <= f ->
  parse_items f (join ", " (map dumps xs) +:+ String "]" rest) acc = Some (JArr (rev acc ++ xs), rest).
Proof.
  revert acc f. induction xs as [|x xs IH]; intros acc f Hall Hne Hf; [done|].
  apply Forall_cons in Hall as [Hx Hxs].
  destruct f as [|f]; [simpl in Hf; lia|]. simpl in Hf.
  destruct xs as [|y ys].
  - cbn [map join parse_items]. rewrite Hx by (done || lia). done.
  - rewrite map_cons, join_cons_ne by done. rewrite !string_app_assoc. cbn [parse_items].
    remember (join ", " (map dumps (y :: ys))) as J eqn:HJ.
    rewrite Hx by (done || lia). simpl.
    rewrite skip_ws_head_ok by (subst J; apply join_head; done).
    subst J. rewrite IH by (done || lia). simpl. by rewrite <- app_assoc.
Qed.

Definition dumps_member (kv : string * json) : string := dumps_string kv.1 +:+ ": " +:+ dumps kv.2.

Lemma member_head (kvs : list (string * json)) rest :
  kvs <> [] -> exists t, join ", " (map dumps_member kvs) +:+ rest = String quote_char t.
Proof.
  destruct kvs as [|kv [|kv' kvs]]; intros Hne; [done|by eexists|].
  rewrite map_cons, join_cons_ne by done. rewrite string_app_assoc. by eexists.
Qed.

Lemma parse_member_step f k v T acc :
  reads_back v -> json_size v <= f -> num_stop T = true ->
  parse_members (S f) (dumps_member (k, v) +:+ T) acc =
  match skip_ws T with
  | String c r4 =>
      if is_char 125 c then Some (JObj (dict_of_pairs (rev ((k, v) :: acc))), r4)
      else if is_char 44 c then parse_members f (skip_ws r4) ((k, v) :: acc)
      else None
  | EmptyString => None
  end.
Proof.
  intros Hv Hf HT. unfold dumps_member, dumps_string. cbn [fst snd].
  rewrite !string_app_assoc. cbn [parse_members String.append].
  change (is_char 34 quote_char) with true. cbv iota beta.
  rewrite string_app_assoc. cbn [String.append].
  rewrite escape_string_parse. cbv iota beta.
  rewrite (skip_ws_head_ok (String ":" _)) by reflexivity.
  change (is_char 58 ":") with true. cbv iota beta.
  change (skip_ws (String " " (dumps v +:+ T))) with (skip_ws (dumps v +:+ T)).
  rewrite skip_ws_head_ok by apply head_ok_dumps. by rewrite Hv.
Qed.

Lemma parse_members_dumps kvs acc f rest :
  Forall (fun kv => reads_back kv.2) kvs -> kvs <> [] ->
  sum_list_with (fun kv => S (json_size kv.2)) kvs <= f ->
  parse_members f (join ", " (map dumps_member kvs) +:+ String "}" rest) acc =
  Some (JObj (dict_of_pairs (rev acc ++ kvs)), rest).
Proof.
  revert acc f. induction kvs as [|[k v] kvs IH]; intros acc f Hall Hne Hf; [done|].
  apply Forall_cons in Hall as [Hv Hkvs].
  destruct f as [|f]; [simpl in Hf; lia|]. simpl in Hf.
  destruct kvs as [|kv' kvs'].
  - cbn [map join]. rewrite parse_member_step by (done || lia). done.
  - rewrite map_cons, join_cons_ne by done. rewrite !string_app_assoc.
    rewrite parse_member_step by (done || lia).
    remember (join ", " (map dumps_member (kv' :: kvs'))) as J eqn:HJ. simpl.
    destruct (member_head (kv' :: kvs') (String "}" rest)) as [t Ht]; [done|].
    rewrite <- HJ in Ht. rewrite Ht. simpl. rewrite <- Ht.
    subst J. rewrite IH by (done || lia). simpl. by rewrite <- app_assoc.
Qed.

Lemma Forall_wf_reads_back (l : list json) :
  Forall (fun x => json_wf x = true -> reads_back x) l -> forallb json_wf l = true -> Forall reads_back l.
Proof.
  induction 1 as [|x l Hx Hl IH]; simpl; [constructor|].
  rewrite andb_true_iff. intros [? ?]. constructor; auto.
Qed.

Lemma Forall_wf_reads_back_kvs (kvs : list (string * json)) :
  Forall (fun kv => json_wf kv.2 = true -> reads_back kv.2) kvs ->
  forallb (fun kv => json_wf kv.2) kvs = true -> Forall (fun kv => reads_back kv.2) kvs.
Proof.
  induction 1 as [|kv kvs Hx Hl IH]; simpl; [constructor|].
  rewrite andb_true_iff. intros [? ?]. constructor; auto.
Qed.

Lemma reads_back_wf v : json_wf v = true -> reads_back v.
Proof.
  induction v as [| b | z | fl | s | l IH | kvs IH] using json_ind';
    intros Hwf f rest Hf Hs; (destruct f as [|f]; [simpl in Hf; lia|]).
  - done.
  - by destruct b.
  - rewrite parse_value_number by apply string_of_Z_head. by apply parse_number_Z.
  - destruct fl as [m e| | |]; try done. cbn [dumps dumps_float].
    rewrite !string_app_assoc. cbn [String.append].
    rewrite parse_value_number by apply string_of_Z_head. by apply parse_number_float.
  - cbn [dumps]. unfold dumps_string. cbn [String.append].
    rewrite string_app_assoc. cbn [String.append parse_value]. change (is_char 34 quote_char) with true. cbv iota beta.
    by rewrite escape_string_parse.
  - destruct l as [|x l']; [done|]. simpl in Hwf.
    cbn [dumps]. rewrite !string_app_assoc. cbn [String.append parse_value].
    remember (join ", " (map dumps (x :: l'))) as J eqn:HJ.
    assert (Hh : head_ok (J +:+ String "]" rest) = true) by (subst J; by apply join_head).
    change (is_char 34 "[") with false. change (is_char 123 "[") with false.
    change (is_char 91 "[") with true. cbv iota beta.
    rewrite skip_ws_head_ok by done.
    destruct (J +:+ String "]" rest) as [|c t] eqn:HX; [done|].
    simpl in Hh. destruct (is_char 93 c); [by rewrite andb_false_r in Hh|].
    rewrite <- HX. subst J. rewrite parse_items_dumps; [done| |done|simpl in *; lia].
    by apply Forall_wf_reads_back.
  - destruct kvs as [|kv kvs']; [done|]. simpl in Hwf. apply andb_true_iff in Hwf as [Hnd Hwf].
    cbn [dumps].
    change (map (fun kv => dumps_string kv.1 +:+ ": " +:+ dumps kv.2) (kv :: kvs'))
      with (map dumps_member (kv :: kvs')).
    rewrite !string_app_assoc. cbn [String.append parse_value].
    destruct (member_head (kv :: kvs') (String "}" rest)) as [t Ht]; [done|].
    change (is_char 34 "{") with false. change (is_char 123 "{") with true. cbv iota beta.
    rewrite Ht. simpl. rewrite <- Ht.
    rewrite parse_members_dumps; [|by apply Forall_wf_reads_back_kvs|done|simpl in *; lia].
    simpl. rewrite dict_of_pairs_NoDup; [done|]. by apply keys_distinct_NoDup.
Qed.

(** [json.loads(json.dumps(v)) == v] for every well-formed value. *)
Theorem loads_dumps v : json_wf v = true -> loads (dumps v) = Ok v.
Proof.
  intros Hwf.
  rewrite (loads_any_fuel _ (S (2 * String.length (dumps v)) + json_size v)) by lia.
  rewrite <- (string_app_nil_r (dumps v)).
  rewrite skip_ws_head_ok by apply head_ok_dumps.
  rewrite (reads_back_wf v Hwf); [done|lia|done].
Qed.

(** ** What [json.loads] returns is a Python value *)

Lemma parse_number_wf s v r : parse_number s = Some (v, r) -> json_wf v = true.
Proof. unfold parse_number. intros H. repeat (case_match; simplify_eq/=); done. Qed.

Lemma parse_scalar_wf s v r : parse_scalar s = Some (v, r) -> json_wf v = true.
Proof.
  unfold parse_scalar. intros H.
  repeat match type of H with
  | context [strip_prefix ?p s] =>
      destruct (strip_prefix p s); [by simplify_eq/=|]
  end.
  by eapply parse_number_wf.
Qed.

Lemma parse_wf f :
  (forall s v r, parse_value f s = Some (v, r) -> json_wf v = true) /\
  (forall s acc v r, parse_items f s acc = Some (v, r) -> forallb json_wf acc = true ->
     json_wf v = true) /\
  (forall s acc v r, parse_members f s acc = Some (v, r) ->
     forallb (fun kv => json_wf kv.2) acc = true -> json_wf v = true).
Proof.
  induction f as [|f (IHv & IHi & IHm)]; [repeat split; intros; discriminate|].
  repeat split; intros * H; simpl in H.
  - repeat (case_match; simplify_eq/=); try done.
    + by eapply IHm.
    + by eapply IHi.
    + by eapply parse_scalar_wf.
  - intros Hacc. repeat (case_match; simplify_eq/=); try done;
      match goal with Hp : parse_value f _ = Some (_, _) |- _ => apply IHv in Hp end.
    + rewrite forallb_app, forallb_rev. simpl. by rewrite_true.
    + eapply IHi; [done|]. simpl. by rewrite_true.
  - intros Hacc. repeat (case_match; simplify_eq/=); try done;
      match goal with Hp : parse_value f _ = Some (_, _) |- _ => apply IHv in Hp end.
    + apply andb_true_iff. split.
      * apply keys_distinct_NoDup, dict_of_pairs_keys_NoDup.
      * apply dict_of_pairs_forallb. rewrite forallb_app, forallb_rev. simpl. by rewrite_true.
    + eapply IHm; [done|]. simpl. by rewrite_true.
Qed.

(** Every value [json.loads] returns is well formed. *)
Lemma loads_wf s v : loads s = Ok v -> json_wf v = true.
Proof.
  unfold loads. destruct (parse_value _ _) as [[v' r]|] eqn:E; [|discriminate].
  destruct (skip_ws r); intros H; [injection H as <-|discriminate]. by eapply (proj1 (parse_wf _)).
Qed.

(** ** Which values are dicts *)

Definition is_obj (v : json) : bool := match v with JObj _ => true | _ => false end.

(** The text's first non-blank character is an opening brace. *)
Definition opens_object (s : string) : bool :=
  match skip_ws s with String c _ => is_char 123 c | EmptyString => false end.

Lemma parse_number_not_obj s v r : parse_number s = Some (v, r) -> is_obj v = false.
Proof.
  unfold parse_number. destruct (parse_sign s) as [sgn s1].
  destruct (parse_int_part s1) as [[i s2]|]; [|discriminate].
  destruct (parse_frac s2) as [[[f k] s3]|]; cbn iota beta;
    (destruct (parse_exp _) as [[e s4]|]; cbn iota beta); intros H; simplify_eq/=; done.
Qed.

Lemma parse_scalar_not_obj s v r : parse_scalar s = Some (v, r) -> is_obj v = false.
Proof.
  unfold parse_scalar. intros H.
  repeat match type of H with
  | context [strip_prefix ?p s] => destruct (strip_prefix p s); [by simplify_eq/=|]
  end.
  by eapply parse_number_not_obj.
Qed.

Lemma parse_shape f :
  (forall s v r, parse_value f s = Some (v, r) ->
     is_obj v = match s with String c _ => is_char 123 c | EmptyString => false end) /\
  (forall s acc v r, parse_items f s acc = Some (v, r) -> is_obj v = false) /\
  (forall s acc v r, parse_members f s acc = Some (v, r) -> is_obj v = true).
Proof.
  induction f as [|f (IHv & IHi & IHm)]; [repeat split; intros; discriminate|].
  repeat split; intros * H; simpl in H; repeat (case_match; simplify_eq/=); try done;
    try (by eapply IHi); try (by eapply IHm); try (by eapply parse_scalar_not_obj).
  all: match goal with H : is_char 34 ?a = true |- _ => unfold is_char in *; apply N.eqb_eq in H; by rewrite H end.
Qed.

(** [json.loads] returns a dict exactly for a text that opens with a
    brace. *)
Lemma loads_is_obj t v : loads t = Ok v -> is_obj v = opens_object t.
Proof.
  unfold loads, opens_object. destruct (parse_value _ _) as [[v' r]|] eqn:E; [|discriminate].
  destruct (skip_ws r); intros H; [injection H as <-|discriminate]. by apply (proj1 (parse_shape _)) in E.
Qed.

(** ** The [json] module as an interface

    What the scripts rely on from [json]: [loads] reads back what [dumps]
    writes, and returns only well-formed values.  The tool dispatcher and
    the orchestration loop are proved against this interface; the CPython
    model above is its instance. *)
Class JsonCodec := {
  codec_loads : string -> outcome json;
  codec_dumps : json -> string;
  codec_loads_dumps : forall v, json_wf v = true -> codec_loads (codec_dumps v) = Ok v;
  codec_loads_wf : forall s v, codec_loads s = Ok v -> json_wf v = true
}.

#[export] Instance cpython_json : JsonCodec := {|
  codec_loads := loads;
  codec_dumps := dumps;
  codec_loads_dumps := loads_dumps;
  codec_loads_wf := loads_wf
|}.

(** Looking up a well-formed dict gives a well-formed value. *)
Lemma dict_get_default_wf kvs k d :
  json_wf (JObj kvs) = true -> json_wf d = true -> json_wf (dict_get_default kvs k d) = true.
Proof.
  simpl. intros [_ Hvs]%andb_true_iff Hd. unfold dict_get_default.
  induction kvs as [|[k' v'] kvs IH]; simpl in *; [done|].
  apply andb_true_iff in Hvs as [Hv Hvs]. destruct (String.eqb k k'); [done|]. by apply IH.
Qed.

#[export] Hint Resolve dict_get_default_wf : py.

Section CodecLemmas.
Context `{JsonCodec}.

(** Serialising is injective on well-formed values. *)
Lemma codec_dumps_inj a b :
  json_wf a = true -> json_wf b = true -> codec_dumps a = codec_dumps b -> a = b.
Proof.
  intros Ha Hb E. apply codec_loads_dumps in Ha, Hb. rewrite E in Ha. congruence.
Qed.
End CodecLemmas.

#[export] Hint Resolve codec_loads_wf : py.

(** [json.loads] raises nothing but [JSONDecodeError]. *)
Lemma loads_error s e : loads s = Raise e -> e = JSONDecodeError.
Proof. unfold loads. repeat case_match; congruence. Qed.
