(* ===== verification/JsonIndent.v ===== *)
(** * JsonIndent: [json.dumps(v, indent=n)]

    With an [indent], CPython's [json] module encodes through the Python
    [_make_iterencode] rather than the C encoder: a non-empty list or dict
    opens a new line indented one level deeper for each element, separates
    elements by [","] and a new line (the item separator is [","] when an
    indent is given), and closes on a new line at the outer level; empty
    lists and dicts stay ["[]"] and ["{}"], keys are followed by [": "],
    and scalars are written as [json.dumps] writes them.  [exercise6_enhanced.py]
    prints its result this way.  The theorem of this file is the round trip
    [loads_dumps_indent]: [json.loads] reads back what the indenting
    encoder writes, the parser skipping the layout as whitespace. *)

From S2P Require Import Prelude Json.

(** ** The encoder *)

Definition spaces (n : nat) : string := string_of_list_ascii (repeat " "%char n).

(** ['\n' + ' ' * (indent * level)] *)
Definition newline_indent (indent level : nat) : string := String "010" (spaces (indent * level)).

Fixpoint dumps_indent_at (indent level : nat) (v : json) : string :=
  match v with
  | JArr [] => "[]"
  | JArr l =>
      "[" +:+ newline_indent indent (S level) +:+
      join ("," +:+ newline_indent indent (S level)) (map (dumps_indent_at indent (S level)) l) +:+
      newline_indent indent level +:+ "]"
  | JObj [] => "{}"
  | JObj kvs =>
      "{" +:+ newline_indent indent (S level) +:+
      join ("," +:+ newline_indent indent (S level))
           (map (fun kv => dumps_string kv.1 +:+ ": " +:+ dumps_indent_at indent (S level) kv.2) kvs) +:+
      newline_indent indent level +:+ "}"
  | _ => dumps v
  end.

(** [json.dumps(v, indent=n)] *)
Definition dumps_indent (indent : nat) (v : json) : string := dumps_indent_at indent 0 v.

(** ** Layout is whitespace to the parser *)

Definition ws (s : string) : bool := all_chars is_json_ws s.

Lemma skip_ws_app w s : ws w = true -> skip_ws (w +:+ s) = skip_ws s.
Proof.
  induction w as [|c w IH]; [done|]. unfold ws. simpl.
  intros [Hc Hw]%andb_true_iff. rewrite Hc. by apply IH.
Qed.

Lemma spaces_ws n : ws (spaces n) = true.
Proof. by induction n. Qed.

Lemma newline_indent_ws k l : ws (newline_indent k l) = true.
Proof. apply spaces_ws. Qed.

Lemma json_ws_cases c : is_json_ws c = true -> c = " "%char \/ c = "009"%char \/ c = "010"%char \/ c = "013"%char.
Proof.
  unfold is_json_ws. rewrite !orb_true_iff, !N.eqb_eq.
  intros [[[H|H]|H]|H]; rewrite <- (ascii_N_embedding c), H; auto.
Qed.

Lemma num_stop_ws w t : ws w = true -> num_stop t = true -> num_stop (w +:+ t) = true.
Proof.
  destruct w as [|c w]; [done|]. unfold ws. simpl. intros [Hc _]%andb_true_iff _.
  by destruct (json_ws_cases c Hc) as [->|[->|[->| ->]]].
Qed.

Lemma ws_close w c r : ws w = true -> skip_ws (w +:+ String c r) = if is_json_ws c then skip_ws r else String c r.
Proof. intros Hw. by rewrite skip_ws_app. Qed.

#[export] Hint Resolve newline_indent_ws spaces_ws : py.

Lemma head_ok_indent k l v rest : head_ok (dumps_indent_at k l v +:+ rest) = true.
Proof.
  destruct v as [| | | | |[|x l']|[|kv kvs]]; try apply head_ok_dumps; done.
Qed.

Lemma join_head_indent sep k l (xs : list json) rest :
  xs <> [] -> head_ok (join sep (map (dumps_indent_at k l) xs) +:+ rest) = true.
Proof.
  destruct xs as [|x [|y ys]]; intros Hne; [done|apply head_ok_indent|].
  cbn [map join]. rewrite string_app_assoc. apply head_ok_indent.
Qed.

(** ** Reading back lists and dicts *)

Definition reads_back_at (k : nat) (x : json) : Prop :=
  forall level f rest, json_size x <= f -> num_stop rest = true ->
  parse_value f (dumps_indent_at k level x +:+ rest) = Some (x, rest).

Lemma parse_items_indent k L xs acc f w rest :
  Forall (reads_back_at k) xs -> xs <> [] -> sum_list_with (fun x => S (json_size x)) xs <= f ->
  ws w = true ->
  parse_items f (join ("," +:+ newline_indent k L) (map (dumps_indent_at k L) xs) +:+ w +:+ String "]" rest) acc =
  Some (JArr (rev acc ++ xs), rest).
Proof.
  revert acc f. induction xs as [|x xs IH]; intros acc f Hall Hne Hf Hw; [done|].
  apply Forall_cons in Hall as [Hx Hxs].
  destruct f as [|f]; [simpl in Hf; lia|]. simpl in Hf.
  destruct xs as [|y ys].
  - cbn [map join parse_items]. rewrite Hx by (done || lia || by apply num_stop_ws).
    by rewrite ws_close.
  - rewrite map_cons, join_cons_ne by done. rewrite !string_app_assoc. cbn [parse_items].
    remember (join _ (map (dumps_indent_at k L) (y :: ys))) as J eqn:HJ.
    rewrite Hx by (done || lia). simpl.
    rewrite skip_ws_app, skip_ws_head_ok by (auto with py; subst J; by apply join_head_indent).
    subst J. rewrite IH by (done || lia). simpl. by rewrite <- app_assoc.
Qed.

(** One member ["k": v] printed as [p], followed by [T]. *)
Lemma parse_member_gen f key p v T acc :
  head_ok (p +:+ T) = true -> parse_value f (p +:+ T) = Some (v, T) ->
  parse_members (S f) (dumps_string key +:+ ": " +:+ p +:+ T) acc =
  match skip_ws T with
  | String c r4 =>
      if is_char 125 c then Some (JObj (dict_of_pairs (rev ((key, v) :: acc))), r4)
      else if is_char 44 c then parse_members f (skip_ws r4) ((key, v) :: acc)
      else None
  | EmptyString => None
  end.
Proof.
  intros Hh Hv. unfold dumps_string. cbn [parse_members String.append].
  change (is_char 34 quote_char) with true. cbv iota beta.
  rewrite string_app_assoc. cbn [String.append].
  rewrite escape_string_parse. cbv iota beta.
  rewrite (skip_ws_head_ok (String ":" _)) by reflexivity.
  change (is_char 58 ":") with true. cbv iota beta.
  change (skip_ws (String " " (p +:+ T))) with (skip_ws (p +:+ T)).
  rewrite skip_ws_head_ok by done. by rewrite Hv.
Qed.

Definition dumps_member_at (k L : nat) (kv : string * json) : string :=
  dumps_string kv.1 +:+ ": " +:+ dumps_indent_at k L kv.2.

Lemma member_head_indent k L sep (kvs : list (string * json)) rest :
  kvs <> [] -> exists t, join sep (map (dumps_member_at k L) kvs) +:+ rest = String quote_char t.
Proof.
  destruct kvs as [|kv [|kv' kvs]]; intros Hne; [done|by eexists|].
  rewrite map_cons, join_cons_ne by done. rewrite string_app_assoc. by eexists.
Qed.

Lemma parse_members_indent k L kvs acc f w rest :
  Forall (fun kv => reads_back_at k kv.2) kvs -> kvs <> [] ->
  sum_list_with (fun kv => S (json_size kv.2)) kvs <= f -> ws w = true ->
  parse_members f (join ("," +:+ newline_indent k L) (map (dumps_member_at k L) kvs) +:+ w +:+ String "}" rest) acc =
  Some (JObj (dict_of_pairs (rev acc ++ kvs)), rest).
Proof.
  revert acc f. induction kvs as [|[key v] kvs IH]; intros acc f Hall Hne Hf Hw; [done|].
  apply Forall_cons in Hall as [Hv Hkvs]. simpl in Hv.
  destruct f as [|f]; [simpl in Hf; lia|]. simpl in Hf.
  destruct kvs as [|kv' kvs'].
  - cbn [map join]. unfold dumps_member_at. cbn [fst snd]. rewrite !string_app_assoc.
    rewrite (parse_member_gen f key _ v); [|apply head_ok_indent|apply Hv; [lia|by apply num_stop_ws]].
    rewrite ws_close by done. done.
  - rewrite map_cons, join_cons_ne by done. unfold dumps_member_at at 1. cbn [fst snd].
    rewrite !string_app_assoc.
    rewrite (parse_member_gen f key _ v); [|apply head_ok_indent|apply Hv; [lia|done]].
    cbn [skip_ws String.append]. change (is_json_ws ",") with false. cbv iota beta.
    change (String "," (newline_indent k L)) with ("," +:+ newline_indent k L).
    change (is_char 125 ",") with false. change (is_char 44 ",") with true.
    cbv iota beta. rewrite skip_ws_app by auto with py.
    destruct (member_head_indent k L ("," +:+ newline_indent k L) (kv' :: kvs') (w +:+ String "}" rest))
      as [t Ht]; [done|].
    rewrite Ht. simpl. rewrite <- Ht.
    rewrite IH by (done || lia). simpl. by rewrite <- app_assoc.
Qed.

Lemma Forall_wf {A} (P : A -> Prop) (wf : A -> bool) l :
  Forall (fun x => wf x = true -> P x) l -> forallb wf l = true -> Forall P l.
Proof.
  induction 1 as [|x l Hx Hl IH]; simpl; [constructor|].
  rewrite andb_true_iff. intros [? ?]. constructor; auto.
Qed.

(** The test for an empty list or dict after the opening bracket. *)
Lemma open_list_head X f :
  head_ok X = true ->
  match X with
  | String d r' => if is_char 93 d then Some (JArr [], r') else parse_items f X []
  | EmptyString => None
  end = parse_items f X [].
Proof. destruct X as [|c t]; [done|]. simpl. by destruct (is_json_ws c), (is_char 93 c). Qed.

Lemma open_dict_head X f :
  head_ok X = true ->
  match X with
  | String d r' => if is_char 125 d then Some (JObj [], r') else parse_members f X []
  | EmptyString => None
  end = parse_members f X [].
Proof. destruct X as [|c t]; [done|]. simpl. by destruct (is_json_ws c), (is_char 93 c), (is_char 125 c). Qed.

Lemma reads_back_indent k v : json_wf v = true -> reads_back_at k v.
Proof.
  induction v as [| b | z | fl | s | l IH | kvs IH] using json_ind'; intros Hwf level f rest Hf Hs;
    try (by apply (reads_back_wf _ Hwf)).
  - destruct l as [|x l']; [by apply (reads_back_wf _ Hwf)|]. simpl in Hwf.
    destruct f as [|f]; [simpl in Hf; lia|].
    cbn [dumps_indent_at]. rewrite !string_app_assoc. cbn [String.append parse_value].
    change (is_char 34 "[") with false. change (is_char 123 "[") with false.
    change (is_char 91 "[") with true. cbv iota beta.
    change (String "," (newline_indent k (S level))) with ("," +:+ newline_indent k (S level)).
    rewrite skip_ws_app by auto with py.
    rewrite skip_ws_head_ok, open_list_head by (apply join_head_indent; done).
    rewrite parse_items_indent; [done|by eapply Forall_wf|done|simpl in *; lia|auto with py].
  - destruct kvs as [|kv kvs']; [by apply (reads_back_wf _ Hwf)|].
    simpl in Hwf. apply andb_true_iff in Hwf as [Hnd Hwf].
    destruct f as [|f]; [simpl in Hf; lia|].
    cbn [dumps_indent_at].
    change (map (fun kv => dumps_string kv.1 +:+ ": " +:+ dumps_indent_at k (S level) kv.2) (kv :: kvs'))
      with (map (dumps_member_at k (S level)) (kv :: kvs')).
    rewrite !string_app_assoc. cbn [String.append parse_value].
    change (is_char 34 "{") with false. change (is_char 123 "{") with true. cbv iota beta.
    change (String "," (newline_indent k (S level))) with ("," +:+ newline_indent k (S level)).
    rewrite skip_ws_app by auto with py.
    destruct (member_head_indent k (S level) ("," +:+ newline_indent k (S level)) (kv :: kvs')
                (newline_indent k level +:+ String "}" rest)) as [t Ht]; [done|].
    rewrite Ht. simpl. rewrite <- Ht.
    rewrite parse_members_indent; [|by apply (Forall_wf _ (fun kv : string * json => json_wf kv.2))
                                   |done|simpl in *; lia|auto with py].
    simpl. rewrite dict_of_pairs_NoDup; [done|]. by apply keys_distinct_NoDup.
Qed.

(** [json.loads(json.dumps(v, indent=n)) == v] for every well-formed value. *)
Theorem loads_dumps_indent k v : json_wf v = true -> loads (dumps_indent k v) = Ok v.
Proof.
  intros Hwf. unfold dumps_indent.
  rewrite (loads_any_fuel _ (S (2 * String.length (dumps_indent_at k 0 v)) + json_size v)) by lia.
  rewrite <- (string_app_nil_r (dumps_indent_at k 0 v)).
  rewrite skip_ws_head_ok by apply head_ok_indent.
  rewrite (reads_back_indent k v Hwf); [done|lia|done].
Qed.
