(* ===== verification/Conversation.v ===== *)
(** * Conversation: chat messages and the message log

    The scripts keep the conversation as a Python list of message dicts and
    grow it with [messages.append(...)]; [exercise8_advanced.py] appends an
    assistant message carrying [tool_calls] and then one [tool] message per
    call.  This file holds
    - [tool_call] and [message]: the dict shapes the scripts build, one
      constructor per shape;
    - [MessageLog]: the message log of the spec (section 4.1), an abstract
      specification the code is checked against: [append] fails with
      [InvalidSequence] when a tool message answers no pending call, or
      when a new turn starts while calls are pending;
    - lemmas on appending batches of tool calls and their results, used by
      the refinement theorem of the orchestration loop. *)

From S2P Require Import Prelude.

(** ** Messages *)

(** [{"id": tc.id, "type": "function", "function": {"name": ..., "arguments": ...}}] *)
Record tool_call := mk_tool_call {
  tc_id : string;
  tc_name : string;
  tc_arguments : string
}.

Inductive message : Type :=
| MSystem (content : string)                               (** [{"role": "system", ...}] *)
| MUser (content : string)                                 (** [{"role": "user", ...}] *)
| MAssistant (content : option string)                     (** [{"role": "assistant", "content": c}] *)
| MAssistantCalls (content : string) (calls : list tool_call)
    (** [{"role": "assistant", "content": c, "tool_calls": [...]}] *)
| MTool (tool_call_id : string) (content : string).        (** [{"role": "tool", ...}] *)

#[export] Instance tool_call_eq_dec : EqDecision tool_call.
Proof. solve_decision. Defined.

#[export] Instance message_eq_dec : EqDecision message.
Proof. solve_decision. Defined.

(** The role of a message, as the dict's ["role"] key holds it. *)
Definition role (m : message) : string :=
  match m with
  | MSystem _ => "system"
  | MUser _ => "user"
  | MAssistant _ | MAssistantCalls _ _ => "assistant"
  | MTool _ _ => "tool"
  end.

(** The tool messages answering [calls] in order, with the given contents. *)
Definition answers (calls : list tool_call) (results : list message) : Prop :=
  Forall2 (fun tc m => exists content, m = MTool (tc_id tc) content) calls results.

(** ** Replies of the completion API *)

(** [response.choices[0].message]: its content and its tool calls. *)
Record completion := mk_completion {
  resp_content : option string;
  resp_tool_calls : option (list tool_call)
}.

(** The result of [client.chat.completions.create]: a reply or an
    exception. *)
Inductive api_result : Type :=
| ApiOk (r : completion)
| ApiError.

(** ** The message log of the spec *)

Module MessageLog.

Inductive log_error := InvalidSequence.

Record t := mk {
  messages : list message;
  pending : list string     (** ids of tool calls awaiting a result *)
}.

(** Removes the first occurrence of [x]. *)
Fixpoint remove_first (x : string) (l : list string) : list string :=
  match l with
  | [] => []
  | y :: l' => if String.eqb x y then l' else y :: remove_first x l'
  end.

Definition empty : t := mk [] [].

(** [reset(systemPrompt)]: the only mutation besides [append]. *)
Definition reset (system_prompt : string) : t := mk [MSystem system_prompt] [].

Definition pending_tool_call_ids (l : t) : list string := pending l.

(** [append(message)]. *)
Definition append (l : t) (m : message) : log_error + t :=
  match m with
  | MTool id _ =>
      if decide (id ∈ pending l) then inr (mk (messages l ++ [m]) (remove_first id (pending l)))
      else inl InvalidSequence
  | MAssistantCalls _ calls =>
      if decide (pending l = []) then inr (mk (messages l ++ [m]) (map tc_id calls))
      else inl InvalidSequence
  | _ =>
      if decide (pending l = []) then inr (mk (messages l ++ [m]) [])
      else inl InvalidSequence
  end.

Fixpoint append_all (l : t) (ms : list message) : log_error + t :=
  match ms with
  | [] => inr l
  | m :: ms' =>
      match append l m with
      | inr l' => append_all l' ms'
      | inl e => inl e
      end
  end.

(** The pending ids after reading a whole conversation, or the error. *)
Definition check (ms : list message) : log_error + list string :=
  match append_all empty ms with
  | inr l => inr (pending l)
  | inl e => inl e
  end.

(** A conversation the log accepts with the given calls still pending. *)
Definition accepts (ms : list message) (pend : list string) : Prop := check ms = inr pend.

Lemma append_messages l m l' : append l m = inr l' -> messages l' = messages l ++ [m].
Proof. destruct m; simpl; case_decide; intros Happ; simplify_eq/=; done. Qed.

Lemma append_all_app l ms1 ms2 :
  append_all l (ms1 ++ ms2) =
  match append_all l ms1 with inr l' => append_all l' ms2 | inl e => inl e end.
Proof.
  revert l; induction ms1 as [|m ms1 IH]; intros l; simpl; [done|].
  destruct (append l m); [done|]. apply IH.
Qed.

Lemma append_all_messages l ms l' :
  append_all l ms = inr l' -> messages l' = messages l ++ ms.
Proof.
  revert l; induction ms as [|m ms IH]; intros l H; simpl in H.
  - simplify_eq. by rewrite app_nil_r.
  - destruct (append l m) as [|l1] eqn:E; [done|].
    apply IH in H. apply append_messages in E. rewrite H, E. by rewrite <- app_assoc.
Qed.

(** A conversation the log accepts is what the log holds. *)
Lemma check_messages ms pend :
  accepts ms pend -> append_all empty ms = inr (mk ms pend).
Proof.
  unfold accepts, check. destruct (append_all empty ms) as [|l] eqn:E; [done|].
  intros H; simplify_eq. apply append_all_messages in E. simpl in E.
  destruct l; simpl in *; by subst.
Qed.

Lemma accepts_app ms1 ms2 pend :
  accepts (ms1 ++ ms2) pend <->
  exists pend1, accepts ms1 pend1 /\ append_all (mk ms1 pend1) ms2 = inr (mk (ms1 ++ ms2) pend).
Proof.
  unfold accepts, check. rewrite append_all_app. split.
  - destruct (append_all empty ms1) as [|l1] eqn:E1; [done|].
    destruct (append_all l1 ms2) as [|l2] eqn:E2; intros H; simplify_eq.
    exists (pending l1). split; [done|].
    pose proof (append_all_messages _ _ _ E1) as M1. simpl in M1.
    pose proof (append_all_messages _ _ _ E2) as M2.
    destruct l1 as [m1 p1], l2 as [m2 p2]; simpl in *; subst. done.
  - intros (pend1 & H1 & H2). apply check_messages in H1. by rewrite H1, H2.
Qed.

(** Answering the pending calls in the order they were made. *)
Lemma append_answers ms calls results rest :
  answers calls results ->
  append_all (mk ms (map tc_id calls ++ rest)) results = inr (mk (ms ++ results) rest).
Proof.
  intros Hans. revert ms. induction Hans as [|tc m calls results [content ->] Hans IH];
    intros ms; simpl; [by rewrite app_nil_r|].
  rewrite decide_True by set_solver. rewrite String.eqb_refl.
  rewrite IH. by rewrite <- app_assoc.
Qed.

(** An assistant turn with tool calls whose first calls are answered in
    order: the other calls are pending. *)
Lemma accepts_batch_prefix ms content answered rem results :
  accepts ms [] -> answers answered results ->
  accepts (ms ++ MAssistantCalls content (answered ++ rem) :: results) (map tc_id rem).
Proof.
  intros Hms Hans. apply accepts_app. exists []. split; [done|].
  cbn [append_all append]. rewrite decide_True by done. simpl pending.
  rewrite map_app, append_answers by done. by rewrite <- app_assoc.
Qed.

(** A whole turn, answered in order, leaves nothing pending. *)
Lemma accepts_batch ms content calls results :
  accepts ms [] -> answers calls results ->
  accepts (ms ++ MAssistantCalls content calls :: results) [].
Proof.
  intros Hms Hans. rewrite <- (app_nil_r calls). by apply (accepts_batch_prefix _ _ _ []).
Qed.

(** A message without tool calls, when nothing is pending. *)
Lemma accepts_plain ms m :
  accepts ms [] -> (forall id c, m <> MTool id c) -> (forall c calls, m <> MAssistantCalls c calls) ->
  accepts (ms ++ [m]) [].
Proof.
  intros Hms Ht Hc. apply accepts_app. exists []. split; [done|].
  destruct m; simpl; first [done | by rewrite decide_True | by edestruct Hc | by edestruct Ht].
Qed.

End MessageLog.
