(* ===== verification/Tools.v ===== *)
(** * Tools: the tool registry and the dispatcher of [exercise8_advanced.py]

    - [TOOLS] (lines 39-67): the tool declarations sent with every
      completion request, as the Python value the script builds;
    - [escalate_crisis] (lines 73-100): makes a ticket id from [uuid4().hex],
      prints an alert (its subject and body lines are the [alert] record)
      and returns the result dict; the uuid is an argument, since the model
      of the loop draws it;
    - [process_tool_call] (lines 103-114): routes a tool name to its handler,
      or to the unknown-tool result, and serialises the result with
      [json.dumps]; it is stated against the [JsonCodec] interface.
    The alert is the only side effect of a tool: the script prints it in
    place of sending an email. *)

From S2P Require Import Prelude Json Conversation.

(** ** The registry *)

Definition TOOLS : json :=
  JArr [JObj [("type", JStr "function");
              ("function", JObj [
                 ("name", JStr "escalate_crisis");
                 ("description", JStr ("Escalate a CRISIS-level incident to on-call team. " +:+
                                       "Generates ticket ID automatically."));
                 ("parameters", JObj [
                    ("type", JStr "object");
                    ("properties", JObj [
                       ("summary", JObj [("type", JStr "string");
                                         ("description", JStr "Incident summary")]);
                       ("severity", JObj [("type", JStr "string");
                                          ("enum", JArr [JStr "NORMAL"; JStr "ALERT"; JStr "CRISIS"]);
                                          ("description", JStr "Severity level")]);
                       ("actions", JObj [("type", JStr "array");
                                         ("items", JObj [("type", JStr "string")]);
                                         ("description", JStr "Required actions")])]);
                    ("required", JArr [JStr "summary"; JStr "severity"; JStr "actions"])])])]].

(** [tool["function"]["name"]] of each declaration. *)
Definition declared_names (tools : json) : list string :=
  match tools with
  | JArr l =>
      flat_map (fun t =>
        match t with
        | JObj kvs =>
            match dict_get kvs "function" with
            | Some (JObj f) => match dict_get f "name" with Some (JStr n) => [n] | _ => [] end
            | _ => []
            end
        | _ => []
        end) l
  | _ => []
  end.

(** ** [escalate_crisis] *)

(** [f"TICKET-{hex[:6].upper()}"] *)
Definition ticket_id_of (hex : string) : string := "TICKET-" +:+ py_upper (substring 0 6 hex).

(** [f"  {i}. {item}"] for [enumerate(items, start=i)]. *)
Fixpoint numbered (i : N) (items : list string) : list string :=
  match items with
  | [] => []
  | x :: items' => ("  " +:+ string_of_N i +:+ ". " +:+ x) :: numbered (i + 1)%N items'
  end.

(** The alert [escalate_crisis] prints: its subject, its body lines, and
    every line the function prints, one string per [print] call. *)
Record alert := mk_alert {
  alert_subject : string;
  alert_lines : list string;
  alert_printed : list string
}.

Definition nl : string := String "010" EmptyString.

(** Lines 73-100; [hex] is the value of [uuid.uuid4().hex].  The lines
    printed before [enumerate] raises (lines 76-79) are not kept when it
    raises. *)
Definition escalate_crisis (hex : string) (summary severity actions : json) : outcome (json * alert) :=
  let ticket_id := ticket_id_of hex in
  let subject := "[" +:+ py_str severity +:+ "] " +:+ ticket_id +:+ " - " +:+ py_str summary in
  (items <- py_iter actions ;;
   let body_lines := ["Incident ID: " +:+ ticket_id; "Severity   : " +:+ py_str severity;
                      ""; "Required Actions:"] ++ numbered 1 (map py_str items) in
   let printed := [nl +:+ "[TOOL] escalate_crisis called"; "       Ticket ID: " +:+ ticket_id;
                   "       Severity : " +:+ py_str severity; "       Summary  : " +:+ py_str summary;
                   "[EMAIL] Alert:"; "        Subject: " +:+ subject] ++
                  map (fun line => "          " +:+ line) body_lines in
   Ok (JObj [("success", JBool true); ("ticket_id", JStr ticket_id); ("severity", severity)],
       mk_alert subject body_lines printed))%py.

(** [str.upper()] of a hexadecimal digit of [uuid4().hex]. *)
Definition is_upper_hex (c : ascii) : bool :=
  let n := N_of_ascii c in ((48 <=? n)%N && (n <=? 57)%N) || ((65 <=? n)%N && (n <=? 70)%N).

(** [uuid.uuid4().hex]: 32 lowercase hexadecimal digits. *)
Definition is_lower_hex (c : ascii) : bool :=
  let n := N_of_ascii c in ((48 <=? n)%N && (n <=? 57)%N) || ((97 <=? n)%N && (n <=? 102)%N).

Definition uuid_hex (hex : string) : bool :=
  (String.length hex =? 32) && all_chars is_lower_hex hex.

(** ** The dispatcher *)

Section Dispatch.
Context `{JsonCodec}.

(** [{"error": f"Unknown tool: {tool_name}"}] *)
Definition unknown_tool_result (tool_name : string) : json :=
  JObj [("error", JStr ("Unknown tool: " +:+ tool_name))].

(** Lines 103-114: the serialised result and the alert printed, if any. *)
Definition process_tool_call (hex : string) (tool_name : string) (tool_input : json)
  : outcome (string * option alert) :=
  if String.eqb tool_name "escalate_crisis" then
    (summary <- py_get tool_input "summary" (JStr "") ;;
     severity <- py_get tool_input "severity" (JStr "") ;;
     actions <- py_get tool_input "actions" (JArr []) ;;
     obind (escalate_crisis hex summary severity actions)
           (fun '(result, al) => Ok (codec_dumps result, Some al)))%py
  else Ok (codec_dumps (unknown_tool_result tool_name), None).
End Dispatch.

(** ** Properties *)

Lemma numbered_length i items : List.length (numbered i items) = List.length items.
Proof. revert i; induction items; intros i; simpl; auto. Qed.

Lemma numbered_lookup i items j :
  numbered i items !! j = (fun x => "  " +:+ string_of_N (i + N.of_nat j) +:+ ". " +:+ x) <$> items !! j.
Proof.
  revert i j; induction items as [|x items IH]; intros i [|j]; simpl; try done.
  - by rewrite N.add_0_r.
  - rewrite IH. by replace (i + 1 + N.of_nat j)%N with (i + N.of_nat (S j))%N by lia.
Qed.

Lemma upper_hex_char c r :
  is_lower_hex c = true -> exists c', py_upper (String c r) = String c' (py_upper r) /\ is_upper_hex c' = true.
Proof.
  destruct c as [[] [] [] [] [] [] [] []]; intros H; try discriminate H; eexists; split; reflexivity.
Qed.

Lemma py_upper_hex s :
  all_chars is_lower_hex s = true ->
  String.length (py_upper s) = String.length s /\ all_chars is_upper_hex (py_upper s) = true.
Proof.
  induction s as [|c s IH]; [done|]. cbn [all_chars]. intros [Hc Hs]%andb_true_iff.
  destruct (upper_hex_char c s Hc) as (c' & -> & Hc'). simpl.
  destruct (IH Hs) as [-> ->]. by rewrite Hc'.
Qed.

Lemma substring_prefix n p s :
  all_chars p s = true ->
  all_chars p (substring 0 n s) = true /\ String.length (substring 0 n s) = Nat.min n (String.length s).
Proof.
  revert n; induction s as [|c s IH]; intros [|n]; simpl; try done.
  intros [Hc Hs]%andb_true_iff. destruct (IH n Hs) as [-> ->]. by rewrite Hc.
Qed.

#[export] Hint Rewrite numbered_length : py_rw.

Section DispatchLemmas.
Context `{JsonCodec}.

Lemma escalation_result_wf hex severity :
  json_wf severity = true ->
  json_wf (JObj [("success", JBool true); ("ticket_id", JStr (ticket_id_of hex));
                 ("severity", severity)]) = true.
Proof. intros Hs. simpl. by rewrite Hs. Qed.
End DispatchLemmas.

#[export] Hint Resolve escalation_result_wf : py.

Section ToolTheorems.
Context `{JsonCodec}.

(** C16: The ticket id is ["TICKET-"] followed by the first six digits of
    the uuid in upper case: six characters of [0-9A-F]. *)
Theorem ticket_id_format hex :
  uuid_hex hex = true ->
  exists t, ticket_id_of hex = "TICKET-" +:+ t /\ String.length t = 6 /\ all_chars is_upper_hex t = true.
Proof.
  unfold uuid_hex. intros [Hl Hx]%andb_true_iff. apply Nat.eqb_eq in Hl.
  destruct (substring_prefix 6 _ _ Hx) as [Hp Hn]. destruct (py_upper_hex _ Hp) as [Hu Ha].
  exists (py_upper (substring 0 6 hex)). split; [done|]. split; [|done]. rewrite Hu, Hn, Hl. done.
Qed.

(** C14: The alert lists the actions in order, numbered from 1 after four
    header lines: the [j]-th action (from 0) is the line
    ["  <j+1>. <action>"]. *)
Theorem escalate_crisis_alert_lines hex summary severity items result al :
  escalate_crisis hex summary severity (JArr items) = Ok (result, al) ->
  List.length (alert_lines al) = 4 + List.length items /\
  forall j x, items !! j = Some x ->
    alert_lines al !! (4 + j) = Some ("  " +:+ string_of_N (N.of_nat (S j)) +:+ ". " +:+ py_str x).
Proof.
  unfold escalate_crisis. simpl. intros E. injection E as <- <-. simpl.
  autorewrite with py_rw. split; [done|].
  intros j x Hj. rewrite numbered_lookup, list_lookup_fmap, Hj. simpl.
  by replace (1 + N.of_nat j)%N with (N.of_nat (S j)) by lia.
Qed.

(** C15: Arguments of the wrong shape raise: a value that is not a dict
    raises [AttributeError] at [tool_input.get], and ["actions"] that is
    [None], a boolean or a number raises [TypeError] at [enumerate]. *)
Theorem escalate_crisis_errors hex input :
  ((forall kvs, input <> JObj kvs) ->
   process_tool_call hex "escalate_crisis" input = Raise AttributeError) /\
  (forall kvs, input = JObj kvs ->
   match dict_get_default kvs "actions" (JArr []) with
   | JNull | JBool _ | JInt _ | JFloat _ => True
   | _ => False
   end ->
   process_tool_call hex "escalate_crisis" input = Raise TypeError).
Proof.
  split.
  - intros Hn. destruct input; try done. by edestruct Hn.
  - intros kvs -> Ha. unfold process_tool_call. simpl. unfold escalate_crisis.
    by destruct (dict_get_default kvs "actions" (JArr [])).
Qed.

(** C13: The dispatcher agrees with the registry: a declared tool is never
    answered with the unknown-tool result and always prints an alert when
    it returns, and every other name is answered with
    [{"error": "Unknown tool: <name>"}] and no alert. *)
Theorem dispatch_matches_registry hex name input :
  json_wf input = true ->
  (name ∈ declared_names TOOLS -> forall out oal, process_tool_call hex name input = Ok (out, oal) ->
     out <> codec_dumps (unknown_tool_result name) /\ oal <> None) /\
  (name ∉ declared_names TOOLS ->
     process_tool_call hex name input = Ok (codec_dumps (unknown_tool_result name), None)).
Proof.
  intros Hwf. change (declared_names TOOLS) with ["escalate_crisis"]. split.
  - intros ->%list_elem_of_singleton out oal. unfold process_tool_call. simpl.
    destruct input as [| | | | |l|kvs]; simpl; try discriminate.
    unfold escalate_crisis. destruct (py_iter _); simpl; [|discriminate].
    intros E. injection E as <- <-. split; [|done]. intros E.
    apply codec_dumps_inj in E; [discriminate|..|done].
    eauto with py.
  - intros Hn. unfold process_tool_call.
    destruct (String.eqb_spec name "escalate_crisis"); [set_solver|done].
Qed.
End ToolTheorems.

Lemma ticket_id_format_witness :
  uuid_hex "abc123def4567890abc123def4567890" = true /\
  exists t, ticket_id_of "abc123def4567890abc123def4567890" = "TICKET-" +:+ t /\
            String.length t = 6 /\ all_chars is_upper_hex t = true.
Proof. split; [reflexivity|]. apply ticket_id_format. reflexivity. Defined.

Lemma escalate_crisis_alert_lines_witness :
  exists r al, escalate_crisis "abc123def4567890abc123def4567890" (JStr "DB outage") (JStr "CRISIS")
                 (JArr [JStr "page oncall"; JStr "fail over"]) = Ok (r, al) /\
    alert_lines al !! 5 = Some "  2. fail over".
Proof.
  eexists _, _. split; [reflexivity|].
  refine (proj2 (escalate_crisis_alert_lines "abc123def4567890abc123def4567890" (JStr "DB outage")
                   (JStr "CRISIS") [JStr "page oncall"; JStr "fail over"] _ _ _) 1 (JStr "fail over") eq_refl).
  reflexivity.
Defined.

Lemma escalate_crisis_errors_witness :
  process_tool_call "abc123def4567890abc123def4567890" "escalate_crisis" (JArr []) = Raise AttributeError /\
  process_tool_call "abc123def4567890abc123def4567890" "escalate_crisis"
    (JObj [("actions", JInt 3)]) = Raise TypeError.
Proof.
  split; [apply (proj1 (escalate_crisis_errors _ (JArr []))); discriminate|].
  apply (proj2 (escalate_crisis_errors _ (JObj [("actions", JInt 3)])) [("actions", JInt 3)]);
    [reflexivity|exact I].
Defined.

Lemma dispatch_matches_registry_witness :
  process_tool_call "abc123def4567890abc123def4567890" "reboot_server" (JObj []) =
    Ok (dumps (unknown_tool_result "reboot_server"), None).
Proof.
  apply (proj2 (@dispatch_matches_registry cpython_json "abc123def4567890abc123def4567890" "reboot_server" (JObj [])
                 eq_refl)).
  vm_compute. set_solver.
Defined.
