(* ===== verification/Orchestration.v ===== *)
(** * Orchestration: the tool-calling loop of [exercise8_advanced.py]

    [call_triage_llm_with_tools] (lines 121-214) seeds the conversation,
    calls the model, and while the reply carries tool calls it appends the
    assistant message, dispatches each call in order (appending one [tool]
    message per call and recording [escalate_crisis] results in
    [result_data]) and calls the model again.  The first call exits the
    program on an API error ([sys.exit(1)]); a later one ends the loop
    ([break]).  Nothing bounds the number of iterations.

    - [state]: the program point [pc] and the variables [messages],
      [result_data], the alerts printed and the conversations sent to the
      API (one per call, oldest first);
    - [step]: the loop as a step relation, one constructor per transition
      of the code; the model's replies and the uuids are free choices, so
      the theorems hold whatever the model answers;
    - [world], [next], [run]: an executable interpreter that resolves the
      choices with an oracle, with fuel; [next_step] shows each of its
      moves is a [step];
    - [handle_tool_call] (lines 182-198): one iteration of the inner
      [for] loop. *)

From S2P Require Import Prelude Json Conversation Tools.

(** ** Requests and replies *)

(** [while response.choices[0].message.tool_calls:] holds of a present,
    non-empty list. *)
Definition has_tool_calls (r : completion) : option (list tool_call) :=
  match resp_tool_calls r with
  | Some (tc :: tcs) => Some (tc :: tcs)
  | _ => None
  end.

(** [response.choices[0].message.content or ""] *)
Definition content_or_empty (r : completion) : string :=
  match resp_content r with
  | Some c => c
  | None => ""
  end.

(** Lines 123-140. *)
Definition system_prompt : string :=
  "You are an incident handler. " +:+
  "Analyze incidents and call the escalate_crisis tool to log and handle them. " +:+
  "Use severity: NORMAL for minor issues, ALERT for significant issues, CRISIS for critical issues. " +:+
  "Always call the tool.".

Definition initial_messages (description : string) : list message :=
  [MSystem system_prompt;
   MUser ("Incident description:" +:+ nl +:+ description +:+ nl +:+ nl +:+
          "Analyze this incident and use the appropriate tools.")].

(** ** States *)

Inductive pc : Type :=
| AtStart                        (** line 143: the first call *)
| AtCheck (r : completion)       (** line 159: the [while] test on the reply [r] *)
| AtTools (todo : list tool_call) (** line 181: the calls of the batch still to dispatch *)
| AtCallAgain                    (** line 201: the call after a batch *)
| Returned                       (** line 214: [return result_data] *)
| Raised (e : py_exn).           (** an exception left the function *)

Record state := mk_state {
  st_pc : pc;
  st_messages : list message;
  st_result : dict json;
  st_alerts : list alert;
  st_sent : list (list message)
}.

Definition init (description : string) : state :=
  mk_state AtStart (initial_messages description) [] [] [].

Definition final (s : state) : bool :=
  match st_pc s with Returned | Raised _ => true | _ => false end.

Definition option_list {A} (o : option A) : list A :=
  match o with Some x => [x] | None => [] end.

Section Loop.
Context `{JsonCodec}.

(** Lines 182-198: parse the arguments, dispatch, build the [tool]
    message, and record an [escalate_crisis] result. *)
Definition handle_tool_call (hex : string) (tc : tool_call) (result : dict json)
  : outcome (message * dict json * option alert) :=
  (tool_input <- codec_loads (tc_arguments tc) ;;
   obind (process_tool_call hex (tc_name tc) tool_input) (fun '(tool_result, oal) =>
     let msg := MTool (tc_id tc) tool_result in
     if String.eqb (tc_name tc) "escalate_crisis" then
       escalated <- codec_loads tool_result ;;
       ticket <- py_get tool_input "ticket_id" JNull ;;
       Ok (msg, dict_set (dict_set result "escalated" escalated) "ticket_id" ticket, oal)
     else Ok (msg, result, oal)))%py.

(** ** The loop as a step relation *)

Inductive step : state -> state -> Prop :=
| step_first_ok s r :
    st_pc s = AtStart ->
    step s (mk_state (AtCheck r) (st_messages s) (st_result s) (st_alerts s)
                     (st_sent s ++ [st_messages s]))
| step_first_error s :
    st_pc s = AtStart ->
    step s (mk_state (Raised (SystemExit 1)) (st_messages s) (st_result s) (st_alerts s)
                     (st_sent s ++ [st_messages s]))
| step_enter s r tcs :
    st_pc s = AtCheck r -> has_tool_calls r = Some tcs ->
    step s (mk_state (AtTools tcs) (st_messages s ++ [MAssistantCalls (content_or_empty r) tcs])
                     (st_result s) (st_alerts s) (st_sent s))
| step_exit s r :
    st_pc s = AtCheck r -> has_tool_calls r = None ->
    step s (mk_state Returned (st_messages s) (st_result s) (st_alerts s) (st_sent s))
| step_tool s tc todo hex msg result' oal :
    st_pc s = AtTools (tc :: todo) -> uuid_hex hex = true ->
    handle_tool_call hex tc (st_result s) = Ok (msg, result', oal) ->
    step s (mk_state (AtTools todo) (st_messages s ++ [msg]) result'
                     (st_alerts s ++ option_list oal) (st_sent s))
| step_tool_raise s tc todo hex e :
    st_pc s = AtTools (tc :: todo) -> uuid_hex hex = true ->
    handle_tool_call hex tc (st_result s) = Raise e ->
    step s (mk_state (Raised e) (st_messages s) (st_result s) (st_alerts s) (st_sent s))
| step_batch_done s :
    st_pc s = AtTools [] ->
    step s (mk_state AtCallAgain (st_messages s) (st_result s) (st_alerts s) (st_sent s))
| step_again_ok s r :
    st_pc s = AtCallAgain ->
    step s (mk_state (AtCheck r) (st_messages s) (st_result s) (st_alerts s)
                     (st_sent s ++ [st_messages s]))
| step_again_error s :
    st_pc s = AtCallAgain ->
    step s (mk_state Returned (st_messages s) (st_result s) (st_alerts s)
                     (st_sent s ++ [st_messages s])).

Inductive star : state -> state -> Prop :=
| star_refl s : star s s
| star_step s1 s2 s3 : step s1 s2 -> star s2 s3 -> star s1 s3.

Definition reachable (description : string) (s : state) : Prop := star (init description) s.

(** ** An interpreter *)

(** The model answers the [n]-th call, given the conversation; the [n]-th
    uuid drawn is [w_uuid n]. *)
Record world := mk_world {
  w_api : nat -> list message -> api_result;
  w_uuid : nat -> string
}.

Definition next (w : world) (s : state) : option state :=
  match st_pc s with
  | AtStart =>
      Some match w_api w (List.length (st_sent s)) (st_messages s) with
           | ApiOk r => mk_state (AtCheck r) (st_messages s) (st_result s) (st_alerts s)
                                 (st_sent s ++ [st_messages s])
           | ApiError => mk_state (Raised (SystemExit 1)) (st_messages s) (st_result s)
                                  (st_alerts s) (st_sent s ++ [st_messages s])
           end
  | AtCheck r =>
      Some match has_tool_calls r with
           | Some tcs => mk_state (AtTools tcs)
                                  (st_messages s ++ [MAssistantCalls (content_or_empty r) tcs])
                                  (st_result s) (st_alerts s) (st_sent s)
           | None => mk_state Returned (st_messages s) (st_result s) (st_alerts s) (st_sent s)
           end
  | AtTools [] =>
      Some (mk_state AtCallAgain (st_messages s) (st_result s) (st_alerts s) (st_sent s))
  | AtTools (tc :: todo) =>
      Some match handle_tool_call (w_uuid w (List.length (st_alerts s))) tc (st_result s) with
           | Ok (msg, result', oal) =>
               mk_state (AtTools todo) (st_messages s ++ [msg]) result'
                        (st_alerts s ++ option_list oal) (st_sent s)
           | Raise e => mk_state (Raised e) (st_messages s) (st_result s) (st_alerts s) (st_sent s)
           end
  | AtCallAgain =>
      Some match w_api w (List.length (st_sent s)) (st_messages s) with
           | ApiOk r => mk_state (AtCheck r) (st_messages s) (st_result s) (st_alerts s)
                                 (st_sent s ++ [st_messages s])
           | ApiError => mk_state Returned (st_messages s) (st_result s) (st_alerts s)
                                  (st_sent s ++ [st_messages s])
           end
  | Returned | Raised _ => None
  end.

Fixpoint run (w : world) (fuel : nat) (s : state) : state :=
  match fuel with
  | O => s
  | S f => match next w s with Some s' => run w f s' | None => s end
  end.

(** What [call_triage_llm_with_tools(description, ...)] returns, raises,
    or [None] when the fuel ran out first. *)
Definition call_triage_llm_with_tools (w : world) (fuel : nat) (description : string)
  : option (outcome (dict json)) :=
  let s := run w fuel (init description) in
  match st_pc s with
  | Returned => Some (Ok (st_result s))
  | Raised e => Some (Raise e)
  | _ => None
  end.
End Loop.

(** ** The workflow *)

(** The check mark of line 233, as the UTF-8 bytes printed. *)
Definition check_mark : string := String "226" (String "156" (String "147" EmptyString)).

(** Lines 224-236: what the workflow prints about the returned dict
    [data], one string per [print] call, and whether [enumerate] raised
    (after the first four lines were printed). *)
Definition workflow_report (data : dict json) : list string * outcome unit :=
  let head := [nl +:+ "=== Workflow Results ===";
               "Summary : " +:+ py_str (dict_get_default data "summary" (JStr "(none)"));
               "Severity: " +:+ py_str (dict_get_default data "severity" (JStr "(none)"));
               "Actions :"] in
  match py_iter (dict_get_default data "actions" (JArr [])) with
  | Raise e => (head, Raise e)
  | Ok actions =>
      (head ++ numbered 1 (map py_str actions) ++
       [if py_truthy (dict_get_default data "escalated" JNull)
        then nl +:+ check_mark +:+ " Crisis escalated - Ticket: " +:+
             py_str (dict_get_default data "ticket_id" JNull)
        else nl +:+ "Incident triaged and logged.";
        nl +:+ "=== Workflow Complete ==="], Ok tt)
  end.

Section Workflow.
Context `{JsonCodec}.

(** Lines 221-238: the lines printed, and the exception that left the
    function if one did; [None] when the loop ran out of fuel. *)
Definition run_workflow_with_function_calling (w : world) (fuel : nat) (description : string)
  : option (list string * outcome unit) :=
  let header := nl +:+ "=== Calling LLM with Function Calling ===" in
  match call_triage_llm_with_tools w fuel description with
  | Some (Ok data) => let '(lines, o) := workflow_report data in Some (header :: lines, o)
  | Some (Raise e) => Some ([header], Raise e)
  | None => None
  end.
End Workflow.

(** ** The interpreter follows the step relation *)

Section Interpreter.
Context `{JsonCodec}.

Lemma star_trans s1 s2 s3 : star s1 s2 -> star s2 s3 -> star s1 s3.
Proof. induction 1; eauto using star. Qed.

Lemma star_one s1 s2 : step s1 s2 -> star s1 s2.
Proof. eauto using star. Qed.

(** Rule induction: a property every step preserves holds along [star]. *)
Lemma star_inv (P : state -> Prop) s s' :
  (forall s1 s2, step s1 s2 -> P s1 -> P s2) -> star s s' -> P s -> P s'.
Proof. intros Hstep. induction 1; eauto. Qed.

Definition valid_world (w : world) : Prop := forall n, uuid_hex (w_uuid w n) = true.

Lemma next_step w s s' : valid_world w -> next w s = Some s' -> step s s'.
Proof.
  intros Hw. destruct s as [p ms res al sent]. unfold next; simpl.
  destruct p as [|r|[|tc todo]| | |]; intros Hn; try discriminate; injection Hn as <-.
  - destruct (w_api w _ _); by constructor.
  - destruct (has_tool_calls r) eqn:E; by econstructor.
  - by constructor.
  - destruct (handle_tool_call _ tc res) as [[[msg res'] oal]|e] eqn:E;
      [eapply step_tool|eapply step_tool_raise]; eauto.
  - destruct (w_api w _ _); by constructor.
Qed.

Lemma run_star w fuel s : valid_world w -> star s (run w fuel s).
Proof.
  intros Hw. revert s; induction fuel as [|f IH]; intros s; simpl; [constructor|].
  destruct (next w s) eqn:E; [|constructor]. eapply star_step; [by eapply next_step|apply IH].
Qed.

Lemma next_final w s : next w s = None <-> final s = true.
Proof.
  destruct s as [[|r|[|tc todo]| | |] ms res al sent]; unfold next; simpl; split; try done.
  all: intros Hn; repeat case_match; discriminate.
Qed.

Lemma run_final w fuel s : final s = true -> run w fuel s = s.
Proof. intros Hf. destruct fuel; simpl; [done|]. by rewrite (proj2 (next_final w s) Hf). Qed.

Lemma run_add w f1 f2 s : run w (f1 + f2) s = run w f2 (run w f1 s).
Proof.
  revert s; induction f1 as [|f1 IH]; intros s; simpl; [done|].
  destruct (next w s) eqn:E; [apply IH|]. apply next_final in E. by rewrite run_final.
Qed.
End Interpreter.

(** ** Dispatching one call *)

Section HandleToolCall.
Context `{JsonCodec}.

(** The shape of a successful dispatch: the [tool] message answers the
    call, [result_data] changes only for [escalate_crisis], and an alert
    is printed only by [escalate_crisis]. *)
Lemma handle_tool_call_ok hex tc result msg result' oal :
  handle_tool_call hex tc result = Ok (msg, result', oal) ->
  exists input tool_result,
    codec_loads (tc_arguments tc) = Ok input /\
    process_tool_call hex (tc_name tc) input = Ok (tool_result, oal) /\
    msg = MTool (tc_id tc) tool_result /\
    (tc_name tc <> "escalate_crisis" -> result' = result).
Proof.
  unfold handle_tool_call. destruct (codec_loads _) as [input|e]; simpl; [|discriminate].
  destruct (process_tool_call _ _ _) as [[tr oal']|e] eqn:Ep; simpl; [|discriminate].
  destruct (String.eqb_spec (tc_name tc) "escalate_crisis") as [Heq|Hne].
  - destruct (codec_loads tr); simpl; [|discriminate].
    destruct (py_get _ "ticket_id" JNull); simpl; [|discriminate].
    intros Hok; simplify_eq; exists input, tr; by repeat split.
  - intros Hok; simplify_eq; exists input, tr; by repeat split.
Qed.
End HandleToolCall.

(** ** Every conversation sent to the model is a valid message log

    The code keeps the spec's log discipline: at every call of the model
    no tool call is left unanswered, and while a batch is dispatched the
    log accepts the conversation with exactly the remaining calls
    pending. *)

Section Refinement.
Context `{JsonCodec}.

Definition log_ok (s : state) : Prop :=
  Forall (fun ms => MessageLog.accepts ms []) (st_sent s) /\
  match st_pc s with
  | AtTools todo =>
      exists base c answered results,
        st_messages s = base ++ MAssistantCalls c (answered ++ todo) :: results /\
        MessageLog.accepts base [] /\ answers answered results
  | Raised _ => True
  | _ => MessageLog.accepts (st_messages s) []
  end.

Lemma log_ok_init d : log_ok (init d).
Proof. split; [constructor|]. reflexivity. Qed.

Lemma log_ok_step s s' : step s s' -> log_ok s -> log_ok s'.
Proof.
  intros Hstep [Hsent Hpc].
  destruct Hstep as [s r Hp|s Hp|s r tcs Hp Hr|s r Hp Hr|s tc todo hex msg res' oal Hp Hu Hh
                    |s tc todo hex e Hp Hu Hh|s Hp|s r Hp|s Hp];
    rewrite Hp in Hpc; split; simpl; try done;
    try (apply Forall_app; split; [done|by constructor]).
  - exists (st_messages s), (content_or_empty r), [], [].
    split; [done|split; [done|constructor]].
  - destruct Hpc as (base & c & answered & results & Hms & Hbase & Hans).
    destruct (handle_tool_call_ok _ _ _ _ _ _ Hh) as (input & tr & _ & _ & -> & _).
    exists base, c, (answered ++ [tc]), (results ++ [MTool (tc_id tc) tr]).
    split; [rewrite Hms, <- !app_assoc; done|]. split; [done|].
    apply Forall2_app; [done|]. constructor; [by eexists|constructor].
  - destruct Hpc as (base & c & answered & results & Hms & Hbase & Hans).
    rewrite Hms, app_nil_r in *. by apply MessageLog.accepts_batch.
Qed.

Lemma log_ok_star s s' : star s s' -> log_ok s -> log_ok s'.
Proof. induction 1; eauto using log_ok_step. Qed.

(** C1: Refinement of the message log of the spec: every conversation the
    loop sends to the model is accepted by [MessageLog.append] with no
    call pending, and during a batch the log accepts the conversation
    with exactly the ids of the calls not yet dispatched pending. *)
Theorem loop_refines_message_log d s :
  reachable d s ->
  Forall (fun ms => MessageLog.accepts ms []) (st_sent s) /\
  (forall todo, st_pc s = AtTools todo -> MessageLog.accepts (st_messages s) (map tc_id todo)) /\
  (forall r, st_pc s = AtCheck r \/ st_pc s = AtCallAgain \/ st_pc s = Returned ->
     MessageLog.accepts (st_messages s) []).
Proof.
  intros Hr. destruct (log_ok_star _ _ Hr (log_ok_init d)) as [Hsent Hpc].
  split; [done|]. split.
  - intros todo Hp. rewrite Hp in Hpc.
    destruct Hpc as (base & c & answered & results & -> & Hbase & Hans).
    by apply MessageLog.accepts_batch_prefix.
  - intros r [Hp|[Hp|Hp]]; by rewrite Hp in Hpc.
Qed.
End Refinement.

(** ** The transitions of the loop *)

(** Inverts a step from a state whose program point is known. *)
Ltac invert_step H :=
  inversion H; subst;
  repeat match goal with
  | Hp : st_pc ?s = _, Hq : st_pc ?s = _ |- _ => rewrite Hp in Hq; try discriminate Hq; injection Hq as ?
  end; subst.

Section Transitions.
Context `{JsonCodec}.

(** C2: A call to a tool the registry does not declare never raises once its
    arguments parse: the [tool] message carries
    [{"error": "Unknown tool: <name>"}], [result_data] and the alerts are
    unchanged, and the loop goes on with the next call. *)
Theorem unknown_tool_continues s tc todo input s' :
  st_pc s = AtTools (tc :: todo) -> tc_name tc <> "escalate_crisis" ->
  codec_loads (tc_arguments tc) = Ok input -> step s s' ->
  s' = mk_state (AtTools todo)
                (st_messages s ++ [MTool (tc_id tc) (codec_dumps (unknown_tool_result (tc_name tc)))])
                (st_result s) (st_alerts s) (st_sent s) /\
  codec_loads (codec_dumps (unknown_tool_result (tc_name tc))) = Ok (unknown_tool_result (tc_name tc)).
Proof.
  intros Hp Hn Hl Hs.
  assert (Hh : forall hex, handle_tool_call hex tc (st_result s) =
    Ok (MTool (tc_id tc) (codec_dumps (unknown_tool_result (tc_name tc))), st_result s, None)).
  { intros hex. unfold handle_tool_call, process_tool_call. rewrite Hl. simpl.
    by destruct (String.eqb_spec (tc_name tc) "escalate_crisis"). }
  split; [|by apply codec_loads_dumps].
  invert_step Hs; rewrite Hh in *; simplify_eq. by rewrite app_nil_r.
Qed.

(** C3: Arguments that do not parse as JSON end the whole run with the
    exception of [json.loads]: the error is not turned into a tool
    result. *)
Theorem malformed_arguments_abort s tc todo e s' :
  st_pc s = AtTools (tc :: todo) -> codec_loads (tc_arguments tc) = Raise e -> step s s' ->
  st_pc s' = Raised e.
Proof.
  intros Hp Hl Hs. invert_step Hs; unfold handle_tool_call in *; rewrite Hl in *; simpl in *;
    congruence.
Qed.
End Transitions.

(** ** The loop has no bound *)

(** A model that always asks for one more call of an undeclared tool. *)
Definition stubborn_call : tool_call := mk_tool_call "call_0" "reboot_server" "{}".
Definition stubborn_reply : completion := mk_completion None (Some [stubborn_call]).
Definition some_uuid : string := "00000000000000000000000000000000".

Lemma stubborn_iteration s :
  st_pc s = AtCheck stubborn_reply ->
  exists s', star s s' /\ st_pc s' = AtCheck stubborn_reply /\
             List.length (st_sent s') = S (List.length (st_sent s)).
Proof.
  intros Hp. eexists. split.
  - eapply star_step; [eapply step_enter; [exact Hp|reflexivity]|].
    eapply star_step; [eapply (step_tool _ _ _ some_uuid); reflexivity|].
    eapply star_step; [apply step_batch_done; reflexivity|].
    eapply star_step; [apply (step_again_ok _ stubborn_reply); reflexivity|].
    apply star_refl.
  - split; [done|]. simpl. rewrite length_app. simpl. lia.
Qed.

Lemma stubborn_calls d n :
  exists s, reachable d s /\ st_pc s = AtCheck stubborn_reply /\ List.length (st_sent s) = S n.
Proof.
  induction n as [|n (s & Hr & Hp & Hl)].
  - eexists. split; [eapply star_one, (step_first_ok _ stubborn_reply); reflexivity|done].
  - destruct (stubborn_iteration s Hp) as (s' & Hs' & Hp' & Hl').
    exists s'. split; [by eapply star_trans|]. split; [done|]. lia.
Qed.

(** C4: Nothing bounds the number of round trips: for every [n], some
    behaviour of the model (always requesting a tool) makes the loop call
    the model more than [n] times without reaching a final state. *)
Theorem loop_unbounded d n :
  exists s, reachable d s /\ n < List.length (st_sent s) /\ final s = false.
Proof.
  destruct (stubborn_calls d n) as (s & Hr & Hp & Hl). exists s.
  split; [done|]. split; [lia|]. unfold final. by rewrite Hp.
Qed.

(** ** What [result_data] holds *)

Section ResultData.
Context `{JsonCodec}.

Lemma handle_tool_call_keys hex tc result msg result' oal :
  handle_tool_call hex tc result = Ok (msg, result', oal) ->
  forall k, k ∈ dict_keys result' -> k ∈ dict_keys result \/ k = "escalated" \/ k = "ticket_id".
Proof.
  unfold handle_tool_call. destruct (codec_loads _) as [input|e]; simpl; [|discriminate].
  destruct (process_tool_call _ _ _) as [[tr oal']|e]; simpl; [|discriminate].
  destruct (String.eqb (tc_name tc) "escalate_crisis").
  - destruct (codec_loads tr); simpl; [|discriminate].
    destruct (py_get _ "ticket_id" JNull); simpl; [|discriminate].
    intros Hok k; simplify_eq. rewrite !dict_keys_set.
    repeat case_decide; set_solver.
  - intros Hok k; simplify_eq. by left.
Qed.

Definition result_keys_ok (s : state) : Prop :=
  forall k, k ∈ dict_keys (st_result s) -> k = "escalated" \/ k = "ticket_id".

Lemma result_keys_step s s' : step s s' -> result_keys_ok s -> result_keys_ok s'.
Proof.
  intros Hs Hok k Hk. destruct Hs as [| | | |s tc todo hex msg res' oal Hp Hu Hh| | | |];
    simpl in Hk; try by apply Hok.
  destruct (handle_tool_call_keys _ _ _ _ _ _ Hh k Hk) as [Hk'|Hk']; [by apply Hok|done].
Qed.

Lemma result_keys_reachable d s : reachable d s -> result_keys_ok s.
Proof.
  intros Hr. apply (star_inv result_keys_ok _ _ result_keys_step Hr).
  intros k Hk. simpl in Hk. set_solver.
Qed.

(** C9: The dict the loop returns has no keys but ["escalated"] and
    ["ticket_id"]: no summary, severity or actions. *)
Theorem result_data_keys d s :
  reachable d s -> forall k, k ∈ dict_keys (st_result s) -> k = "escalated" \/ k = "ticket_id".
Proof.
  apply result_keys_reachable.
Qed.
End ResultData.

(** ** [result_data["ticket_id"]] after an escalation *)

Section Escalation.
Context `{JsonCodec}.

(** C7: An [escalate_crisis] call whose arguments carry no ["ticket_id"] (the
    declared schema has none) records [None] as [result_data["ticket_id"]],
    while the ticket the tool generated is only inside
    [result_data["escalated"]]; the alert is printed. *)
Theorem escalation_ticket_id_none hex tc result kvs msg result' oal :
  tc_name tc = "escalate_crisis" ->
  codec_loads (tc_arguments tc) = Ok (JObj kvs) ->
  dict_get kvs "ticket_id" = None ->
  handle_tool_call hex tc result = Ok (msg, result', oal) ->
  dict_get result' "ticket_id" = Some JNull /\
  dict_get result' "escalated" =
    Some (JObj [("success", JBool true); ("ticket_id", JStr (ticket_id_of hex));
                ("severity", dict_get_default kvs "severity" (JStr ""))]) /\
  oal <> None.
Proof.
  intros Hn Hl Hg Hh. unfold handle_tool_call, process_tool_call in Hh.
  rewrite Hl, Hn in Hh. simpl in Hh. unfold escalate_crisis in Hh.
  destruct (py_iter _) as [items|e]; simpl in Hh; [|discriminate].
  rewrite codec_loads_dumps in Hh.
  2:{ eauto with py. }
  simpl in Hh. unfold dict_get_default in Hh at 3. rewrite Hg in Hh. simplify_eq.
  autorewrite with py_rw. by repeat split.
Qed.
End Escalation.

(** The arguments a model sends for [escalate_crisis]. *)
Definition escalation_call : tool_call :=
  mk_tool_call "call_1" "escalate_crisis"
    (dumps (JObj [("summary", JStr "DB outage"); ("severity", JStr "CRISIS");
                  ("actions", JArr [JStr "page oncall"])])).

Lemma escalation_ticket_id_none_witness :
  exists msg result' oal,
    handle_tool_call some_uuid escalation_call [] = Ok (msg, result', oal) /\
    dict_get result' "ticket_id" = Some JNull.
Proof.
  destruct (handle_tool_call some_uuid escalation_call []) as [[[m r] o]|e] eqn:E;
    [|vm_compute in E; discriminate].
  exists m, r, o. split; [done|].
  eapply (escalation_ticket_id_none some_uuid escalation_call []
            [("summary", JStr "DB outage"); ("severity", JStr "CRISIS");
             ("actions", JArr [JStr "page oncall"])]);
    [reflexivity|vm_compute; reflexivity|reflexivity|exact E].
Defined.

(** ** The report of the workflow *)

Section Report.
Context `{JsonCodec}.

Lemma result_get_absent d s k dflt :
  reachable d s -> k <> "escalated" -> k <> "ticket_id" ->
  dict_get_default (st_result s) k dflt = dflt.
Proof.
  intros Hr H1 H2. unfold dict_get_default.
  destruct (dict_get (st_result s) k) eqn:E; [|done].
  assert (Hk : k ∈ dict_keys (st_result s)).
  { destruct (decide (k ∈ dict_keys (st_result s))) as [|Hn]; [done|].
    apply dict_get_None_keys in Hn. congruence. }
  destruct (result_keys_reachable d s Hr k Hk); congruence.
Qed.

(** C8: Whatever the model answers, the report never shows a summary, a
    severity or an action: the loop's dict has none of these keys, so
    the report prints ["(none)"] twice and no action line. *)
Theorem workflow_report_empty d s :
  reachable d s ->
  workflow_report (st_result s) =
    ([nl +:+ "=== Workflow Results ==="; "Summary : (none)"; "Severity: (none)"; "Actions :";
      if py_truthy (dict_get_default (st_result s) "escalated" JNull)
      then nl +:+ check_mark +:+ " Crisis escalated - Ticket: " +:+
           py_str (dict_get_default (st_result s) "ticket_id" JNull)
      else nl +:+ "Incident triaged and logged.";
      nl +:+ "=== Workflow Complete ==="], Ok tt).
Proof.
  intros Hr. unfold workflow_report.
  rewrite !(result_get_absent d s) by done. reflexivity.
Qed.
End Report.

(** ** The loop ends once the model stops asking for tools *)

Section Termination.
Context `{JsonCodec}.
Variable w : world.

Lemma run_mono f f' s : final (run w f s) = true -> f <= f' -> final (run w f' s) = true.
Proof.
  intros Hf Hle. replace f' with (f + (f' - f)) by lia. by rewrite run_add, run_final.
Qed.

Lemma run_S f s s' : next w s = Some s' -> run w (S f) s = run w f s'.
Proof. intros E. simpl. by rewrite E. Qed.

Lemma run_exit f s r :
  st_pc s = AtCheck r -> has_tool_calls r = None -> final (run w (S f) s) = true.
Proof. intros Hp Hr. simpl. unfold next. rewrite Hp, Hr. by rewrite run_final. Qed.

(** Dispatching a batch takes one step per call; it raises or leaves
    the conversations sent unchanged. *)
Lemma run_tools todo s :
  st_pc s = AtTools todo ->
  final (run w (List.length todo) s) = true \/
  (st_pc (run w (List.length todo) s) = AtTools [] /\ st_sent (run w (List.length todo) s) = st_sent s).
Proof.
  revert s; induction todo as [|tc todo IH]; intros s Hp; simpl; [by right|].
  unfold next. rewrite Hp.
  destruct (handle_tool_call _ tc _) as [[[msg res'] oal]|e].
  - match goal with |- context [run w _ ?s1] => destruct (IH s1 eq_refl) as [?|[? Hs]] end;
    [by left|right; split; [done|by rewrite Hs]].
  - left. by rewrite run_final.
Qed.

(** One iteration of the [while] loop: enter, dispatch, call again. *)
Lemma run_iteration s r tcs :
  st_pc s = AtCheck r -> has_tool_calls r = Some tcs ->
  final (run w (List.length tcs + 3) s) = true \/
  exists r' ms, st_pc (run w (List.length tcs + 3) s) = AtCheck r' /\
    List.length (st_sent (run w (List.length tcs + 3) s)) = S (List.length (st_sent s)) /\
    w_api w (List.length (st_sent s)) ms = ApiOk r'.
Proof.
  intros Hp Hr. replace (List.length tcs + 3) with (S (List.length tcs + 2)) by lia.
  rewrite (run_S _ _ (mk_state (AtTools tcs) (st_messages s ++ [MAssistantCalls (content_or_empty r) tcs])
                               (st_result s) (st_alerts s) (st_sent s)))
    by (unfold next; by rewrite Hp, Hr).
  rewrite run_add. set (s1 := mk_state _ _ _ _ _).
  destruct (run_tools tcs s1 eq_refl) as [Hf|[Hp2 Hs2]]; [left; by rewrite run_final|].
  set (s2 := run w (List.length tcs) s1) in *.
  rewrite (run_S _ s2 (mk_state AtCallAgain (st_messages s2) (st_result s2) (st_alerts s2) (st_sent s2)))
    by (unfold next; by rewrite Hp2).
  simpl. unfold next. simpl.
  destruct (w_api w _ _) as [r'|] eqn:E; simpl; [right|by left].
  exists r', (st_messages s2). rewrite length_app, <- E, Hs2. simpl.
  split; [done|]. split; [lia|done].
Qed.

(** From the [k]-th call on, the model asks for no tool; it never asks
    for more than [m] tools at once. *)
Variables k m : nat.
Hypothesis stops : forall n ms r, k <= n -> w_api w n ms = ApiOk r -> has_tool_calls r = None.
Hypothesis batch : forall n ms r tcs, w_api w n ms = ApiOk r -> has_tool_calls r = Some tcs ->
                                   List.length tcs <= m.

Lemma run_from_check j s r i ms :
  st_pc s = AtCheck r -> List.length (st_sent s) = S i -> w_api w i ms = ApiOk r ->
  k <= i + j -> final (run w (j * (m + 3) + 1) s) = true.
Proof.
  revert s r i ms; induction j as [|j IH]; intros s r i ms Hp Hl Hw Hk.
  - eapply run_exit; [done|]. apply (stops i ms); [lia|done].
  - destruct (has_tool_calls r) as [tcs|] eqn:Hr; [|rewrite Nat.add_1_r; by eapply run_exit].
    pose proof (batch _ _ _ _ Hw Hr) as Hb.
    destruct (run_iteration s r tcs Hp Hr) as [Hf|(r' & ms' & Hp' & Hl' & Hw')].
    + eapply run_mono; [exact Hf|lia].
    + replace (S j * (m + 3) + 1)
        with ((List.length tcs + 3) + ((j * (m + 3) + 1) + (m - List.length tcs))) by lia.
      assert (Hf : final (run w (j * (m + 3) + 1) (run w (List.length tcs + 3) s)) = true).
      { rewrite Hl in Hw'. eapply (IH _ r' (S i)); [done|lia|exact Hw'|lia]. }
      rewrite (run_add w (List.length tcs + 3)), (run_add w (j * (m + 3) + 1)), run_final; exact Hf.
Qed.
End Termination.

Section Terminates.
Context `{JsonCodec}.

(** C5: Termination: when the model asks for no tool from its [k]-th call on
    and for at most [m] tools per reply, the function returns or raises
    within [2 + k * (m + 3)] steps of the interpreter. *)
Theorem loop_terminates w d k m :
  (forall n ms r, k <= n -> w_api w n ms = ApiOk r -> has_tool_calls r = None) ->
  (forall n ms r tcs, w_api w n ms = ApiOk r -> has_tool_calls r = Some tcs -> List.length tcs <= m) ->
  call_triage_llm_with_tools w (2 + k * (m + 3)) d <> None.
Proof.
  intros Hstop Hbatch. unfold call_triage_llm_with_tools.
  assert (Hf : final (run w (S (k * (m + 3) + 1)) (init d)) = true).
  { destruct (w_api w 0 (initial_messages d)) as [r|] eqn:E.
    - rewrite (run_S w _ _ (mk_state (AtCheck r) (initial_messages d) [] [] [initial_messages d]))
        by (unfold next; simpl; by rewrite E).
      by eapply (run_from_check w k m Hstop Hbatch k _ r 0).
    - rewrite (run_S w _ _ (mk_state (Raised (SystemExit 1)) (initial_messages d) [] []
                                       [initial_messages d]))
        by (unfold next; simpl; by rewrite E).
      by rewrite run_final. }
  replace (2 + k * (m + 3)) with (S (k * (m + 3) + 1)) by lia.
  unfold final in Hf. by destruct (st_pc _).
Qed.
End Terminates.

(** ** A run *)

(** A model that asks once for [escalate_crisis] and then answers. *)
Definition demo_world : world :=
  mk_world (fun n _ => match n with
                       | O => ApiOk (mk_completion None (Some [escalation_call]))
                       | _ => ApiOk (mk_completion (Some "Escalated.") None)
                       end)
           (fun _ => "abc123def4567890abc123def4567890").

Lemma loop_terminates_witness : call_triage_llm_with_tools demo_world (2 + 1 * (1 + 3)) "DB down" <> None.
Proof.
  apply (loop_terminates demo_world "DB down" 1 1).
  - intros [|n] ms r Hn; [lia|]. simpl. intros E. by injection E as <-.
  - intros [|n] ms r tcs E; injection E as <-; simpl; intros E;
      [injection E as <-; simpl; lia|discriminate].
Defined.

(** ** Runs against the spec's escalation policy and scenarios *)

Definition printer_args : string :=
  dumps (JObj [("summary", JStr "Printer jam"); ("severity", JStr "NORMAL"); ("actions", JArr [])]).

(** A model that asks twice for [escalate_crisis] with severity [NORMAL]. *)
Definition normal_world : world :=
  mk_world (fun n _ => match n with
                       | O => ApiOk (mk_completion None (Some [mk_tool_call "call_1" "escalate_crisis" printer_args;
                                                               mk_tool_call "call_2" "escalate_crisis" printer_args]))
                       | _ => ApiOk (mk_completion (Some "Logged.") None)
                       end)
           (fun _ => "abc123def4567890abc123def4567890").

(** A model whose batch escalates and then sends arguments that are not JSON. *)
Definition aborting_world : world :=
  mk_world (fun n _ => ApiOk (mk_completion None (Some [escalation_call;
                                                        mk_tool_call "call_2" "escalate_crisis" "{summary"])))
           (fun _ => "abc123def4567890abc123def4567890").

(** The spec's first scenario: the triage JSON comes as content, with no tool call. *)
Definition content_world : world :=
  mk_world (fun _ _ => ApiOk (mk_completion
                               (Some (dumps (JObj [("summary", JStr "DB outage"); ("severity", JStr "CRISIS");
                                                   ("actions", JArr [JStr "page oncall"])]))) (Some [])))
           (fun _ => "abc123def4567890abc123def4567890").

Lemma sample_world_valid api : valid_world (mk_world api (fun _ => "abc123def4567890abc123def4567890")).
Proof. intros n. reflexivity. Qed.

(** C10: Escalation is not the spec's policy: [escalate_crisis] prints an
    alert on every call, whatever the severity, so a run can return after
    two alerts for a [NORMAL] incident. *)
Theorem escalation_not_once_nor_severe d :
  exists s, reachable d s /\ st_pc s = Returned /\
    map alert_subject (st_alerts s) =
      ["[NORMAL] TICKET-ABC123 - Printer jam"; "[NORMAL] TICKET-ABC123 - Printer jam"].
Proof.
  exists (run normal_world 8 (init d)).
  split; [apply run_star, sample_world_valid|]. split; vm_compute; reflexivity.
Qed.

(** C11: An alert already printed stays printed when the run then aborts:
    here the second call of the batch has arguments that are not JSON. *)
Theorem escalation_on_aborted_run d :
  exists s, reachable d s /\ st_pc s = Raised JSONDecodeError /\ List.length (st_alerts s) = 1.
Proof.
  exists (run aborting_world 4 (init d)).
  split; [apply run_star, sample_world_valid|]. split; vm_compute; reflexivity.
Qed.

(** C12: The content of a reply without tool calls is ignored.  The spec's
    first scenario has the triage JSON (severity CRISIS) as the content of
    the first reply; whatever that content is, a first reply with no tool
    call (none, or an empty list) ends the function after one call with an
    empty [result_data] and no alert, and the workflow reports the
    incident as merely logged. *)
Theorem reply_without_tools_ignored w f d r :
  w_api w 0 (initial_messages d) = ApiOk r -> has_tool_calls r = None ->
  call_triage_llm_with_tools w (S (S f)) d = Some (Ok []) /\
  st_sent (run w (S (S f)) (init d)) = [initial_messages d] /\
  st_alerts (run w (S (S f)) (init d)) = [] /\
  run_workflow_with_function_calling w (S (S f)) d =
    Some ([nl +:+ "=== Calling LLM with Function Calling ==="; nl +:+ "=== Workflow Results ===";
           "Summary : (none)"; "Severity: (none)"; "Actions :"; nl +:+ "Incident triaged and logged.";
           nl +:+ "=== Workflow Complete ==="], Ok tt).
Proof.
  intros Ha Hr.
  assert (E : run w (S (S f)) (init d) = mk_state Returned (initial_messages d) [] [] [initial_messages d]).
  { rewrite (run_S w (S f) (init d) (mk_state (AtCheck r) (initial_messages d) [] [] [initial_messages d]))
      by (unfold next; cbn; by rewrite Ha).
    rewrite (run_S w f _ (mk_state Returned (initial_messages d) [] [] [initial_messages d]))
      by (unfold next; cbn; by rewrite Hr).
    by apply run_final. }
  unfold run_workflow_with_function_calling, call_triage_llm_with_tools. rewrite E.
  split_and!; reflexivity.
Qed.

(** C6: API errors are not retried: an error on the first call ends the
    program with [sys.exit(1)] after one attempt, and an error on a later
    call ends the loop as if the model had finished, returning the results
    gathered so far. *)
Theorem api_errors_not_retried w d f s :
  (w_api w 0 (initial_messages d) = ApiError ->
   call_triage_llm_with_tools w (S f) d = Some (Raise (SystemExit 1)) /\
   List.length (st_sent (run w (S f) (init d))) = 1) /\
  (run w f (init d) = s -> st_pc s = AtCallAgain ->
   w_api w (List.length (st_sent s)) (st_messages s) = ApiError ->
   call_triage_llm_with_tools w (S f) d = Some (Ok (st_result s))).
Proof.
  split.
  - intros E. unfold call_triage_llm_with_tools. simpl. unfold next. simpl. rewrite E.
    rewrite run_final by done. done.
  - intros Hr Hp E. unfold call_triage_llm_with_tools. replace (S f) with (f + 1) by lia.
    rewrite run_add, Hr. simpl. unfold next. rewrite Hp, E. done.
Qed.

(** ** Witnesses *)

Definition demo_run : state := run demo_world 8 (init "DB down").

Lemma demo_run_reachable : reachable "DB down" demo_run.
Proof. apply run_star, sample_world_valid. Qed.

Lemma loop_refines_message_log_witness :
  st_pc demo_run = Returned /\ MessageLog.accepts (st_messages demo_run) [].
Proof.
  split; [vm_compute; reflexivity|].
  apply (proj2 (proj2 (loop_refines_message_log "DB down" demo_run demo_run_reachable))
           (mk_completion None None)).
  right. right. vm_compute. reflexivity.
Defined.

(** A model that always asks for the undeclared tool [reboot_server]. *)
Definition stubborn_world : world :=
  mk_world (fun _ _ => ApiOk stubborn_reply) (fun _ => "abc123def4567890abc123def4567890").

(** In a run, the call of [reboot_server] is answered with the
    unknown-tool message and the run goes on to the end of the batch. *)
Lemma unknown_tool_continues_witness :
  st_pc (run stubborn_world 2 (init "DB down")) = AtTools [stubborn_call] /\
  run stubborn_world 3 (init "DB down") =
    mk_state (AtTools [])
             (st_messages (run stubborn_world 2 (init "DB down")) ++
              [MTool "call_0" (codec_dumps (unknown_tool_result "reboot_server"))])
             (st_result (run stubborn_world 2 (init "DB down")))
             (st_alerts (run stubborn_world 2 (init "DB down")))
             (st_sent (run stubborn_world 2 (init "DB down"))).
Proof.
  split; [vm_compute; reflexivity|].
  apply (proj1 (unknown_tool_continues (run stubborn_world 2 (init "DB down")) stubborn_call [] (JObj [])
                  (run stubborn_world 3 (init "DB down")) ltac:(vm_compute; reflexivity) ltac:(discriminate)
                  ltac:(vm_compute; reflexivity) ltac:(eapply (next_step stubborn_world); [intros ?; reflexivity|];
                                                       vm_compute; reflexivity))).
Defined.

(** The spec's first scenario: the triage JSON with severity CRISIS as
    content, and an empty list of tool calls. *)
Lemma reply_without_tools_ignored_witness :
  call_triage_llm_with_tools content_world 3 "DB down" = Some (Ok []) /\
  st_alerts (run content_world 3 (init "DB down")) = [].
Proof.
  destruct (reply_without_tools_ignored content_world 1 "DB down" _ ltac:(reflexivity) ltac:(reflexivity))
    as (H1 & _ & H3 & _).
  split; [exact H1|exact H3].
Defined.

Definition malformed_call : tool_call := mk_tool_call "call_2" "escalate_crisis" "{summary".

(** In a run, the batch escalates once and its second call, whose
    arguments are not JSON, ends the run with [JSONDecodeError]. *)
Lemma malformed_arguments_abort_witness :
  st_pc (run aborting_world 3 (init "DB down")) = AtTools [malformed_call] /\
  List.length (st_alerts (run aborting_world 3 (init "DB down"))) = 1 /\
  st_pc (run aborting_world 4 (init "DB down")) = Raised JSONDecodeError.
Proof.
  split; [vm_compute; reflexivity|]. split; [vm_compute; reflexivity|].
  apply (malformed_arguments_abort (run aborting_world 3 (init "DB down")) malformed_call []);
    [vm_compute; reflexivity|vm_compute; reflexivity|].
  eapply (next_step aborting_world); [intros ?; reflexivity|]. vm_compute. reflexivity.
Defined.

Lemma result_data_keys_witness :
  dict_keys (st_result demo_run) = ["escalated"; "ticket_id"] /\
  ("escalated" = "escalated" \/ "escalated" = "ticket_id").
Proof.
  split; [vm_compute; reflexivity|].
  apply (result_data_keys "DB down" demo_run demo_run_reachable). vm_compute. set_solver.
Defined.

Lemma workflow_report_empty_witness :
  fst (workflow_report (st_result demo_run)) !! 1 = Some "Summary : (none)".
Proof. rewrite (workflow_report_empty "DB down" demo_run demo_run_reachable). reflexivity. Defined.

Definition flaky_world : world :=
  mk_world (fun n _ => match n with O => ApiOk stubborn_reply | _ => ApiError end) (fun _ => some_uuid).

Lemma api_errors_not_retried_witness :
  call_triage_llm_with_tools (mk_world (fun _ _ => ApiError) (fun _ => some_uuid)) 1 "x" =
    Some (Raise (SystemExit 1)) /\
  call_triage_llm_with_tools flaky_world 5 "x" = Some (Ok []).
Proof.
  split.
  - exact (proj1 (proj1 (api_errors_not_retried (mk_world (fun _ _ => ApiError) (fun _ => some_uuid))
                           "x" 0 (init "x")) eq_refl)).
  - exact (proj2 (api_errors_not_retried flaky_world "x" 4 (run flaky_world 4 (init "x")))
                 eq_refl eq_refl eq_refl).
Defined.
