(* ===== verification/Triage.v ===== *)
(** * Triage: the JSON-mode triage workflow of [exercise7.py]

    The script asks the model, in JSON mode and with two few-shot examples,
    for a triage object, normalises it, creates a ticket, "saves" it, and
    sends (prints) an email alert when the severity is [ALERT] or [CRISIS].
    - [severity_score] (lines 44-47), [build_messages] (lines 50-125);
    - [call_triage_llm] (lines 128-169): one completion call; an API error,
      a reply that is not JSON or not an object ends the program with
      [sys.exit(1)]; the object is completed with [setdefault] and its
      ["actions"] made a list;
    - [create_ticket_incident], [save_to_db_placeholder],
      [send_email_alert] with its two branches, of which [USE_REAL_EMAIL]
      ([False]) selects the simulated one, and [send_real_email] (lines
      189-210) with the email backend as an oracle,
      [maybe_escalate_to_email], [run_workflow] (lines 176-271): the lines
      printed, one string per [print] call, and the exception that left the
      function, if any.
    The model's reply and the uuid are arguments. *)

From S2P Require Import Prelude Json Conversation Tools.

(** ** Utilities *)

(** [mapping] of line 46. *)
Definition severity_mapping : dict Z := [("NORMAL", 25%Z); ("ALERT", 65%Z); ("CRISIS", 95%Z)].

(** Lines 44-47. *)
Definition severity_score (severity : string) : Z :=
  dict_get_default severity_mapping (py_upper severity) 25%Z.

(** The few-shot answers of lines 75-83 and 96-105. *)
Definition example_answer_1 : json :=
  JObj [("summary", JStr "Minor slowdown on intranet homepage for some users.");
        ("severity", JStr "NORMAL");
        ("actions", JArr [JStr "Log the incident in the monitoring system.";
                          JStr "Check recent performance dashboards.";
                          JStr "Monitor for any worsening or new complaints."])].

Definition example_answer_2 : json :=
  JObj [("summary", JStr "Production database outage blocking all applications.");
        ("severity", JStr "CRISIS");
        ("actions", JArr [JStr "Page on-call DB engineer immediately.";
                          JStr "Fail over to backup database if available.";
                          JStr "Post incident update on status page.";
                          JStr "Notify leadership about business impact."])].

Definition newline : string := String "010" EmptyString.

(** Lines 50-125. *)
Definition build_messages (description : string) : list message :=
  [MSystem ("You are a concise incident triage assistant. " +:+
            "Always reply with a single JSON object only.");
   MUser ("Incident description:" +:+ newline +:+
          "Some users report a slightly slow page load on the intranet homepage.");
   MAssistant (Some (dumps example_answer_1));
   MUser ("Incident description:" +:+ newline +:+
          "Production database is down, no connections possible from any app.");
   MAssistant (Some (dumps example_answer_2));
   MUser ("Incident description:" +:+ newline +:+ description +:+ newline +:+ newline +:+
          "Return ONLY a JSON object with keys: summary, severity, actions. " +:+
          "severity must be one of: NORMAL, ALERT, CRISIS. " +:+
          "actions must be a list of 3-5 concrete next steps.")].

(** ** The triage call *)

(** Lines 161-167: the fallbacks and [actions] made a list. *)
Definition normalize (data : dict json) : dict json :=
  let data := dict_setdefault data "summary" (JStr "(no summary)") in
  let data := dict_setdefault data "severity" (JStr "NORMAL") in
  let data := dict_setdefault data "actions" (JArr []) in
  match dict_get_default data "actions" JNull with
  | JArr _ => data
  | a => dict_set data "actions" (JArr [JStr (py_str a)])
  end.

(** Lines 128-169; [api] answers the request built from the messages.
    [json.loads(None)] raises [TypeError], which the [except
    json.JSONDecodeError] does not catch. *)
Definition call_triage_llm (api : list message -> api_result) (description : string)
  : outcome (dict json) :=
  match api (build_messages description) with
  | ApiError => Raise (SystemExit 1)
  | ApiOk r =>
      match resp_content r with
      | None => Raise TypeError
      | Some content =>
          match loads content with
          | Raise JSONDecodeError => Raise (SystemExit 1)
          | Raise e => Raise e
          | Ok (JObj data) => Ok (normalize data)
          | Ok _ => Raise (SystemExit 1)
          end
      end
  end.

(** ** Workflow steps *)

(** Lines 176-180: the ticket id and the line printed. *)
Definition create_ticket_incident (hex : string) (summary : json) (severity : string)
  : string * list string :=
  let ticket_id := ticket_id_of hex in
  (ticket_id, ["[WORKFLOW] Creating ticket " +:+ ticket_id +:+ " (" +:+ severity +:+ ") - " +:+
               py_str summary]).

(** Lines 183-186. *)
Definition save_to_db_placeholder (ticket_id : string) : list string :=
  ["[WORKFLOW] (DB) Saving ticket " +:+ ticket_id +:+ " to database (simulated)."].

(** The body lines of lines 217-224. *)
Definition email_body_lines (ticket_id severity : string) (items : list json) : list string :=
  ["Incident ID: " +:+ ticket_id; "Severity   : " +:+ severity; ""; "Recommended actions:"] ++
  numbered 1 (map py_str items).

(** ** The email sender *)

(** [USE_REAL_EMAIL = False] (line 34). *)
Definition USE_REAL_EMAIL : bool := false.

(** What [requests.post] returns: the status code, and [response.json()],
    which raises when the body is not JSON. *)
Record http_response := mk_response {
  status_code : Z;
  response_json : outcome json
}.

(** The email backend: the configuration [get_email_api_info()] and
    [get_email_receiver()] (of [common.bc_config], not in [src/]) and
    [requests.post(url, json=payload, headers=headers)], an oracle that
    may raise. *)
Record email_service := mk_email_service {
  email_api_url : string;
  email_api_key : string;
  email_receiver_text : string;
  post : string -> json -> list (string * string) -> outcome http_response
}.

(** The payload and headers of lines 197-206. *)
Definition email_payload (receiver : json) (subject body : string) : json :=
  JObj [("to", receiver); ("subject", JStr subject); ("body", JStr body)].

Definition email_headers (api_key : string) : list (string * string) :=
  [("Content-Type", "application/json"); ("X-API-Key", api_key)].

(** Lines 189-210: [print(a, b)] separates its arguments by a space. *)
Definition send_real_email (svc : email_service) (subject body : string) : list string * outcome unit :=
  let l0 := ["[EMAIL] Sending real email to: " +:+ email_api_url svc] in
  match loads (email_receiver_text svc) with
  | Raise e => (l0, Raise e)
  | Ok receiver =>
      match post svc (email_api_url svc) (email_payload receiver subject body) (email_headers (email_api_key svc)) with
      | Raise e => (l0, Raise e)
      | Ok response =>
          let l1 := l0 ++ ["Status:  " +:+ string_of_Z (status_code response)] in
          match response_json response with
          | Raise e => (l1, Raise e)
          | Ok j => (l1 ++ ["Response JSON: " +:+ py_str j], Ok tt)
          end
      end
  end.

Section EmailService.
Variable svc : email_service.

(** Lines 214-236.  The real branch prints, sends, and prints again unless
    the sender raised; the simulated branch prints the message, and
    [print("         ", line)] separates its two arguments by a space. *)
Definition send_email_alert (ticket_id severity : string) (summary actions : json)
  : list string * outcome unit :=
  match py_iter actions with
  | Raise e => ([], Raise e)
  | Ok items =>
      let subject := "[" +:+ severity +:+ "] Incident " +:+ ticket_id +:+ " - " +:+ py_str summary in
      let body_lines := email_body_lines ticket_id severity items in
      if USE_REAL_EMAIL then
        let '(l, o) := send_real_email svc subject (join newline body_lines) in
        match o with
        | Raise e => ("[EMAIL] Sending real email..." :: l, Raise e)
        | Ok _ => ("[EMAIL] Sending real email..." :: l ++ ["[EMAIL] Email sent (or attempted)."], Ok tt)
        end
      else
        (["[EMAIL] (Simulated) Would send email with:"; "        Subject: " +:+ subject; "        Body:"] ++
         map (fun line => "          " +:+ line) body_lines, Ok tt)
  end.

(** [str(data.get("severity", "NORMAL")).upper()] of lines 241 and 253. *)
Definition data_severity (data : dict json) : string :=
  py_upper (py_str (dict_get_default data "severity" (JStr "NORMAL"))).

(** Lines 239-245. *)
Definition maybe_escalate_to_email (ticket_id : string) (data : dict json) : list string * outcome unit :=
  let severity := data_severity data in
  if decide (severity ∈ ["ALERT"; "CRISIS"]) then
    send_email_alert ticket_id severity (dict_get_default data "summary" (JStr ""))
                     (dict_get_default data "actions" (JArr []))
  else (["[WORKFLOW] No email escalation needed for NORMAL severity."], Ok tt).

(** [data.get(k)]: [None] for a missing key. *)
Definition get_or_none (data : dict json) (k : string) : json := dict_get_default data k JNull.

(** Lines 248-271: everything printed, and the exception that ended the
    run, if any. *)
Definition run_workflow (api : list message -> api_result) (hex description : string)
  : list string * outcome unit :=
  let l0 := [newline +:+ "=== Calling LLM for triage ==="] in
  match call_triage_llm api description with
  | Raise e => (l0, Raise e)
  | Ok data =>
      let sev := data_severity data in
      let score := severity_score sev in
      let l1 := l0 ++ [newline +:+ "=== LLM JSON Response ===";
                       "Summary : " +:+ py_str (get_or_none data "summary");
                       "Severity: " +:+ sev +:+ " (" +:+ string_of_Z score +:+ "/100)";
                       "Actions :"] in
      match py_iter (dict_get_default data "actions" (JArr [])) with
      | Raise e => (l1, Raise e)
      | Ok actions =>
          let l2 := l1 ++ numbered 1 (map py_str actions) ++
                    [newline +:+ "=== Orchestrating Workflow ==="] in
          let '(ticket_id, l3) := create_ticket_incident hex (dict_get_default data "summary" (JStr "")) sev in
          let '(l4, o) := maybe_escalate_to_email ticket_id data in
          match o with
          | Raise e => (l2 ++ l3 ++ save_to_db_placeholder ticket_id ++ l4, Raise e)
          | Ok _ =>
              (l2 ++ l3 ++ save_to_db_placeholder ticket_id ++ l4 ++
               ["[WORKFLOW] Updating dashboards (simulated).";
                newline +:+ "=== Workflow Complete ===";
                "Ticket ID: " +:+ ticket_id; "Done."], Ok tt)
          end
      end
  end.

End EmailService.

(** A model that answers [content] in JSON mode. *)
Definition answering (content : string) : list message -> api_result :=
  fun _ => ApiOk (mk_completion (Some content) None).

Definition sample_uuid : string := "abc123def4567890abc123def4567890".

(** A backend whose receiver setting is a JSON list and which accepts
    every message. *)
Definition sample_service : email_service :=
  mk_email_service "https://mail.example/send" "key" (dumps (JArr [JStr "ops@example.com"]))
    (fun _ _ _ => Ok (mk_response 200 (Ok (JObj [("status", JStr "queued")])))).

Definition crisis_reply : string :=
  dumps (JObj [("summary", JStr "DB outage"); ("severity", JStr "crisis"); ("actions", JStr "page")]).

Definition high_reply : string :=
  dumps (JObj [("summary", JStr "Disk full"); ("severity", JStr "HIGH")]).

(** ** Properties *)

Lemma normalize_keys data k :
  k <> "summary" -> k <> "severity" -> k <> "actions" -> dict_get (normalize data) k = dict_get data k.
Proof.
  intros H1 H2 H3. unfold normalize.
  destruct (dict_get_default _ "actions" JNull); by autorewrite with py_rw.
Qed.

(** The triage object after [normalize] has a summary, a severity and a
    list of actions; any other key keeps its value. *)
Lemma normalize_shape data :
  (exists sm, dict_get (normalize data) "summary" = Some sm) /\
  (exists sv, dict_get (normalize data) "severity" = Some sv) /\
  (exists l, dict_get (normalize data) "actions" = Some (JArr l)).
Proof.
  set (d1 := dict_setdefault data "summary" (JStr "(no summary)")).
  set (d2 := dict_setdefault d1 "severity" (JStr "NORMAL")).
  set (d3 := dict_setdefault d2 "actions" (JArr [])).
  destruct (dict_get_setdefault_eq data "summary" (JStr "(no summary)")) as [sm Hsm].
  destruct (dict_get_setdefault_eq d1 "severity" (JStr "NORMAL")) as [sv Hsv].
  destruct (dict_get_setdefault_eq d2 "actions" (JArr [])) as [a Ha].
  assert (Hsm3 : dict_get d3 "summary" = Some sm) by (unfold d3, d2; by autorewrite with py_rw).
  assert (Hsv3 : dict_get d3 "severity" = Some sv) by (unfold d3; by autorewrite with py_rw).
  change (dict_get d3 "actions" = Some a) in Ha.
  unfold normalize. fold d1 d2 d3.
  replace (dict_get_default d3 "actions" JNull) with a by (unfold dict_get_default; by rewrite Ha).
  destruct a as [| | | | |l|]; autorewrite with py_rw; eauto 6.
Qed.

Lemma triage_ok api d data :
  call_triage_llm api d = Ok data -> exists kvs, data = normalize kvs.
Proof.
  unfold call_triage_llm. destruct (api _) as [r|]; [|discriminate].
  destruct (resp_content r) as [c|]; [|discriminate].
  destruct (loads c) as [[| | | | | |kvs]|[]]; intros E; try discriminate. injection E as <-. by eexists.
Qed.

Lemma triage_actions api d data :
  call_triage_llm api d = Ok data -> exists l, dict_get_default data "actions" (JArr []) = JArr l.
Proof.
  intros [kvs ->]%triage_ok. destruct (normalize_shape kvs) as (_ & _ & l & Hl).
  exists l. unfold dict_get_default. by rewrite Hl.
Qed.

Lemma numbered_prefix i items y : y ∈ numbered i items -> exists r, y = "  " +:+ r.
Proof.
  revert i; induction items as [|x items IH]; intros i; simpl; [set_solver|].
  intros [->|Hy]%elem_of_cons; [by eexists|]. by apply (IH (i + 1)%N).
Qed.

(** A receiver setting that [json.loads] rejects raises out of
    [_send_real_email] (line 195) before any request is made, whatever
    [requests.post] would do; a bare address is such a setting. *)
Lemma send_real_email_bad_receiver svc subject body e :
  loads (email_receiver_text svc) = Raise e ->
  send_real_email svc subject body =
    (["[EMAIL] Sending real email to: " +:+ email_api_url svc], Raise e).
Proof. intros H. unfold send_real_email. now rewrite H. Qed.

Lemma send_real_email_bare_address url key post subject body :
  send_real_email (mk_email_service url key "ops@example.com" post) subject body =
    (["[EMAIL] Sending real email to: " +:+ url], Raise JSONDecodeError).
Proof. apply send_real_email_bad_receiver. vm_compute. reflexivity. Qed.

(** C17: What [call_triage_llm] returns always has a ["summary"], a
    ["severity"] and a list of ["actions"]. *)
Theorem call_triage_llm_shape api d data :
  call_triage_llm api d = Ok data ->
  (exists sm, dict_get data "summary" = Some sm) /\
  (exists sv, dict_get data "severity" = Some sv) /\
  (exists l, dict_get data "actions" = Some (JArr l)).
Proof. intros [kvs ->]%triage_ok. apply normalize_shape. Qed.

(** C18: The triage call ends the program with [sys.exit(1)] when the API
    call fails, when the reply is not JSON, and when it is JSON but not an
    object; a reply without content escapes as [TypeError]. *)
Theorem call_triage_llm_errors api d r :
  (api (build_messages d) = ApiError -> call_triage_llm api d = Raise (SystemExit 1)) /\
  (api (build_messages d) = ApiOk r -> resp_content r = None -> call_triage_llm api d = Raise TypeError) /\
  (forall c, api (build_messages d) = ApiOk r -> resp_content r = Some c ->
     (is_ok (loads c) = false \/ exists v, loads c = Ok v /\ forall kvs, v <> JObj kvs) ->
     call_triage_llm api d = Raise (SystemExit 1)).
Proof.
  unfold call_triage_llm. split; [by intros ->|]. split; [by intros -> ->|].
  intros c -> -> [Hl|(v & Hl & Hv)].
  - destruct (loads c) as [|e] eqn:E; [done|]. apply loads_error in E. by subst.
  - rewrite Hl. destruct v; try done. by edestruct Hv.
Qed.

(** C19: Once the triage call returns, the rest of the workflow never
    raises: [actions] is a list, so both [enumerate] calls succeed. *)
Theorem run_workflow_completes svc api hex d data :
  call_triage_llm api d = Ok data -> snd (run_workflow svc api hex d) = Ok tt.
Proof.
  intros Ht. destruct (triage_actions _ _ _ Ht) as [l Hl].
  unfold run_workflow. rewrite Ht, Hl. cbn zeta iota beta.
  unfold maybe_escalate_to_email. case_decide; [|done].
  unfold send_email_alert. by rewrite Hl.
Qed.

(** C20: After a successful triage the simulated email is printed exactly
    when [str(severity).upper()] is ["ALERT"] or ["CRISIS"]. *)
Theorem email_sent_iff_severity svc api hex d data :
  call_triage_llm api d = Ok data ->
  ("[EMAIL] (Simulated) Would send email with:" ∈ fst (run_workflow svc api hex d) <->
   data_severity data ∈ ["ALERT"; "CRISIS"]).
Proof.
  intros Ht. destruct (triage_actions _ _ _ Ht) as [l Hl].
  unfold run_workflow. rewrite Ht, Hl. cbn zeta iota beta.
  unfold maybe_escalate_to_email. case_decide as Hs.
  - split; [done|]. intros _. unfold send_email_alert. rewrite Hl. simpl fst. set_solver.
  - split; [|done]. simpl fst. intros Hin.
    repeat match type of Hin with
    | _ ∈ _ ++ _ => apply elem_of_app in Hin as [Hin|Hin]
    | _ ∈ _ :: _ => apply elem_of_cons in Hin as [Hin|Hin]
    | _ ∈ [] => apply elem_of_nil in Hin as []
    | _ ∈ numbered _ _ => apply numbered_prefix in Hin as [r Hin]
    end; simpl in Hin; discriminate.
Qed.

(** ** Witnesses *)

Lemma call_triage_llm_shape_witness :
  call_triage_llm (answering high_reply) "disk" =
    Ok [("summary", JStr "Disk full"); ("severity", JStr "HIGH"); ("actions", JArr [])] /\
  exists l, dict_get [("summary", JStr "Disk full"); ("severity", JStr "HIGH"); ("actions", JArr [])]
              "actions" = Some (JArr l).
Proof.
  split; [vm_compute; reflexivity|].
  apply (call_triage_llm_shape (answering high_reply) "disk"). vm_compute. reflexivity.
Defined.

Lemma call_triage_llm_errors_witness :
  call_triage_llm (fun _ => ApiError) "disk" = Raise (SystemExit 1) /\
  call_triage_llm (fun _ => ApiOk (mk_completion None None)) "disk" = Raise TypeError /\
  call_triage_llm (answering "[1, 2]") "disk" = Raise (SystemExit 1).
Proof.
  split; [apply (proj1 (call_triage_llm_errors (fun _ => ApiError) "disk" (mk_completion None None)));
           reflexivity|].
  split; [apply (proj1 (proj2 (call_triage_llm_errors (fun _ => ApiOk (mk_completion None None)) "disk"
                                 (mk_completion None None)))); reflexivity|].
  apply (proj2 (proj2 (call_triage_llm_errors (answering "[1, 2]") "disk"
                         (mk_completion (Some "[1, 2]") None))) "[1, 2]"); [reflexivity|reflexivity|].
  right. exists (JArr [JInt 1; JInt 2]). split; [vm_compute; reflexivity|discriminate].
Defined.

Lemma run_workflow_completes_witness :
  snd (run_workflow sample_service (answering crisis_reply) sample_uuid "DB down") = Ok tt.
Proof.
  apply (run_workflow_completes _ _ _ _
           [("summary", JStr "DB outage"); ("severity", JStr "crisis"); ("actions", JArr [JStr "page"])]).
  vm_compute. reflexivity.
Defined.

Lemma email_sent_iff_severity_witness :
  "[EMAIL] (Simulated) Would send email with:" ∈ fst (run_workflow sample_service (answering crisis_reply) sample_uuid "DB down") /\
  "[EMAIL] (Simulated) Would send email with:" ∉ fst (run_workflow sample_service (answering high_reply) sample_uuid "Disk").
Proof.
  split.
  - apply (email_sent_iff_severity _ _ _ _
             [("summary", JStr "DB outage"); ("severity", JStr "crisis"); ("actions", JArr [JStr "page"])]);
      [vm_compute; reflexivity|vm_compute; set_solver].
  - rewrite (email_sent_iff_severity _ _ _ _
               [("summary", JStr "Disk full"); ("severity", JStr "HIGH"); ("actions", JArr [])]);
      [vm_compute; set_solver|vm_compute; reflexivity].
Defined.

