(* ===== verification/ChatLoop.v ===== *)
(** * ChatLoop: the interactive chat of [exercise4_enhanced.py]

    [run_chat_loop] (lines 4-50) keeps a conversation seeded with a system
    message, reads user lines until ["exit"], ["quit"] or ["q"], resets
    the conversation on ["reset"], prints it on ["show history"], and
    otherwise sends the conversation with the new user message to the
    model; on an API error it removes that user message again
    ([messages.pop()]).
    - [input_event]: what [input()] yields: a line, or Ctrl-C
      ([KeyboardInterrupt], caught at line 49); the end of the event list
      is the end of the input, where [input()] raises [EOFError], which
      nothing catches;
    - [chat_api]: the [n]-th completion call, given the conversation,
      raises with the text [str(e)] or returns the content of the reply
      ([None] when the reply has none);
    - [chat_loop]: the loop, by structural recursion on the events; it
      returns what is printed (the [input] prompts apart), the
      conversations sent, and how the function ended. *)

From S2P Require Import Prelude Conversation.

Definition chat_api : Type := nat -> list message -> string + option string.

Record chat_result := mk_result {
  printed : list string;
  sent : list (list message);
  ended : outcome unit
}.

Definition emit (l : list string) (r : chat_result) : chat_result :=
  mk_result (l ++ printed r) (sent r) (ended r).

Definition record_sent (ms : list message) (r : chat_result) : chat_result :=
  mk_result (printed r) (ms :: sent r) (ended r).

Definition nl : string := String "010" EmptyString.

(** [m['content']] as an f-string formats it. *)
Definition content_str (c : option string) : string :=
  match c with Some s => s | None => "None" end.

Definition message_content (m : message) : string :=
  match m with
  | MSystem c | MUser c => c
  | MAssistant c => content_str c
  | MAssistantCalls c _ => c
  | MTool _ c => c
  end.

(** Lines 16-47, one iteration per event. *)
Fixpoint chat_loop (api : chat_api) (system_prompt : string) (messages : list message) (n : nat)
  (events : list input_event) : chat_result :=
  match events with
  | [] => mk_result [] [] (Raise EOFError)
  | Interrupt :: _ => mk_result [nl +:+ "Interrupted. Exiting."] [] (Ok tt)
  | Line raw :: rest =>
      let user_input := py_strip raw in
      if String.eqb user_input "" then chat_loop api system_prompt messages n rest
      else if decide (py_lower user_input ∈ ["exit"; "quit"; "q"]) then mk_result ["Exiting."] [] (Ok tt)
      else if String.eqb (py_lower user_input) "reset" then
        emit ["Conversation reset."] (chat_loop api system_prompt [MSystem system_prompt] n rest)
      else if String.eqb (py_lower user_input) "show history" then
        emit (map (fun m => role m +:+ ": " +:+ message_content m) messages)
             (chat_loop api system_prompt messages n rest)
      else
        let messages' := messages ++ [MUser user_input] in
        match api n messages' with
        | inl err =>
            record_sent messages' (emit ["API error: " +:+ err] (chat_loop api system_prompt messages (S n) rest))
        | inr assistant_text =>
            record_sent messages'
              (emit ["*******************" +:+ nl +:+ "AI: " +:+ content_str assistant_text]
                    (chat_loop api system_prompt (messages' ++ [MAssistant assistant_text]) (S n) rest))
        end
  end.

Definition default_system_prompt : string := "You are an IT support specialist. Ask clarifying questions.".

(** Lines 4-50. *)
Definition run_chat_loop (api : chat_api) (system_prompt : option string) (events : list input_event)
  : chat_result :=
  let sp := match system_prompt with Some p => p | None => default_system_prompt end in
  emit ["Interactive chat. Type 'exit' or 'quit' to stop, 'reset' to clear conversation."]
       (chat_loop api sp [MSystem sp] 0 events).

(** A line that is neither empty nor a command: it is sent to the model. *)
Definition plain_input (raw : string) : bool :=
  negb (String.eqb (py_strip raw) "") &&
  negb (bool_decide (py_lower (py_strip raw) ∈ ["exit"; "quit"; "q"; "reset"; "show history"])).

(** An event that ends the loop normally. *)
Definition stops (ev : input_event) : bool :=
  match ev with
  | Interrupt => true
  | Line raw => bool_decide (py_lower (py_strip raw) ∈ ["exit"; "quit"; "q"])
  end.

(** The conversations the loop keeps: the system message, then
    user/assistant turns. *)
Definition turns (sp : string) (pairs : list (string * option string)) : list message :=
  MSystem sp :: flat_map (fun p => [MUser p.1; MAssistant p.2]) pairs.

(** ** Properties *)

#[local] Arguments turns : simpl never.

Lemma py_lower_empty : py_lower "" = "".
Proof. reflexivity. Qed.

Lemma chat_loop_plain api sp ms n raw rest :
  plain_input raw = true ->
  chat_loop api sp ms n (Line raw :: rest) =
    match api n (ms ++ [MUser (py_strip raw)]) with
    | inl err => record_sent (ms ++ [MUser (py_strip raw)])
                   (emit ["API error: " +:+ err] (chat_loop api sp ms (S n) rest))
    | inr t => record_sent (ms ++ [MUser (py_strip raw)])
                 (emit ["*******************" +:+ nl +:+ "AI: " +:+ content_str t]
                       (chat_loop api sp ((ms ++ [MUser (py_strip raw)]) ++ [MAssistant t]) (S n) rest))
    end.
Proof.
  unfold plain_input. intros [H1 H2]%andb_true_iff. apply negb_true_iff in H1, H2.
  rewrite bool_decide_eq_false in H2. simpl. rewrite H1.
  rewrite decide_False by set_solver.
  destruct (String.eqb_spec (py_lower (py_strip raw)) "reset"); [set_solver|].
  destruct (String.eqb_spec (py_lower (py_strip raw)) "show history"); [set_solver|done].
Qed.

Lemma chat_loop_reset api sp ms n raw rest :
  py_lower (py_strip raw) = "reset" ->
  chat_loop api sp ms n (Line raw :: rest) = emit ["Conversation reset."] (chat_loop api sp [MSystem sp] n rest).
Proof.
  intros Hr. simpl. destruct (String.eqb_spec (py_strip raw) "") as [E|_].
  { rewrite E in Hr. discriminate. }
  by rewrite Hr, decide_False by set_solver.
Qed.

Lemma turns_snoc sp pairs u t :
  (turns sp pairs ++ [MUser u]) ++ [MAssistant t] = turns sp (pairs ++ [(u, t)]).
Proof. unfold turns. rewrite flat_map_app, <- app_assoc. simpl. by rewrite app_comm_cons. Qed.

Lemma turns_accepted sp pairs : MessageLog.accepts (turns sp pairs) [].
Proof.
  induction pairs as [|[u t] pairs IH] using rev_ind; [reflexivity|].
  rewrite <- turns_snoc. apply MessageLog.accepts_plain; [apply MessageLog.accepts_plain|..]; done.
Qed.

Lemma chat_sent_shape api sp pairs n events :
  Forall (fun c => exists pairs' u, c = turns sp pairs' ++ [MUser u])
         (sent (chat_loop api sp (turns sp pairs) n events)).
Proof.
  revert pairs n; induction events as [|[raw|] events IH]; intros pairs n; simpl; try constructor.
  destruct (String.eqb _ _); [apply IH|].
  case_decide; [constructor|].
  destruct (String.eqb _ "reset"); [apply (IH [])|].
  destruct (String.eqb _ "show history"); [apply IH|].
  destruct (api n _) as [err|t]; simpl; constructor; eauto.
  match goal with |- context [chat_loop _ _ ?m (S n) _] =>
    replace m with (turns sp (pairs ++ [(py_strip raw, t)])) end; [apply IH|].
  by rewrite <- turns_snoc.
Qed.

(** C22: Every conversation the chat sends is the system message followed
    by user/assistant turns and the new user message, and the spec's
    message log accepts it with nothing pending. *)
Theorem chat_sent_accepted api system_prompt events :
  Forall (fun c => MessageLog.accepts c [] /\ exists pairs u,
            c = turns (match system_prompt with Some p => p | None => default_system_prompt end) pairs ++
                [MUser u])
         (sent (run_chat_loop api system_prompt events)).
Proof.
  unfold run_chat_loop. simpl.
  eapply Forall_impl; [exact (chat_sent_shape _ _ [] 0 events)|].
  intros c (pairs & u & ->). split; [|by eauto].
  apply MessageLog.accepts_plain; [apply turns_accepted|..]; done.
Qed.

(** C23: ["reset"] (in any case, surrounded by blanks) starts over from the
    spec's [reset(systemPrompt)]: the next conversation sent is the system
    message and the next user message only. *)
Theorem reset_restarts api sp ms n raw u rest :
  py_lower (py_strip raw) = "reset" -> plain_input u = true ->
  sent (chat_loop api sp ms n (Line raw :: Line u :: rest)) !! 0 =
    Some (MessageLog.messages (MessageLog.reset sp) ++ [MUser (py_strip u)]).
Proof.
  intros Hr Hu. rewrite chat_loop_reset, chat_loop_plain by done. by destruct (api n _).
Qed.

(** C24: A failed API call leaves the conversation as it was: the user
    message is removed again, so the next conversation sent holds the next
    user message in its place, and the error is printed. *)
Theorem api_error_pops api sp ms n u1 u2 err rest :
  plain_input u1 = true -> plain_input u2 = true ->
  api n (ms ++ [MUser (py_strip u1)]) = inl err ->
  printed (chat_loop api sp ms n (Line u1 :: Line u2 :: rest)) !! 0 = Some ("API error: " +:+ err) /\
  sent (chat_loop api sp ms n (Line u1 :: Line u2 :: rest)) !! 1 = Some (ms ++ [MUser (py_strip u2)]).
Proof.
  intros H1 H2 E. rewrite chat_loop_plain, E by done.
  rewrite chat_loop_plain by done. by destruct (api (S n) _).
Qed.

(** C25: The chat ends normally exactly when some input is ["exit"],
    ["quit"] or ["q"] (in any case) or Ctrl-C; when the input ends before,
    [input()] raises [EOFError], which the function does not catch. *)
Theorem chat_loop_ending api sp ms n events :
  ended (chat_loop api sp ms n events) = if existsb stops events then Ok tt else Raise EOFError.
Proof.
  revert ms n; induction events as [|[raw|] events IH]; intros ms n; simpl; try done.
  destruct (String.eqb_spec (py_strip raw) "") as [E|_].
  { rewrite E. simpl. apply IH. }
  case_decide as Hs; [by rewrite bool_decide_true|rewrite bool_decide_false by done; simpl].
  destruct (String.eqb _ "reset"); [apply IH|].
  destruct (String.eqb _ "show history"); [apply IH|].
  destruct (api n _); apply IH.
Qed.

(** ** Witnesses *)

Definition echo_api : chat_api := fun n _ => match n with O => inl "timeout" | _ => inr (Some "Try a reboot.") end.

Lemma chat_sent_accepted_witness :
  MessageLog.accepts [MSystem default_system_prompt; MUser "My PC is slow"] [].
Proof.
  pose proof (chat_sent_accepted echo_api None [Line "My PC is slow"; Line "exit"]) as H.
  vm_compute in H. by inversion H as [|? ? [Hc _] _].
Defined.

Lemma reset_restarts_witness :
  sent (chat_loop echo_api "sp" [MSystem "sp"; MUser "a"; MAssistant None] 1
          [Line " RESET "; Line "hello"]) !! 0 = Some [MSystem "sp"; MUser "hello"].
Proof. apply (reset_restarts _ _ _ _ " RESET " "hello" []); reflexivity. Defined.

Lemma api_error_pops_witness :
  sent (chat_loop echo_api "sp" [MSystem "sp"] 0 [Line "a"; Line "b"]) !! 1 = Some [MSystem "sp"; MUser "b"].
Proof. apply (api_error_pops echo_api "sp" [MSystem "sp"] 0 "a" "b" "timeout" []); reflexivity. Defined.

Lemma chat_loop_ending_witness :
  ended (chat_loop echo_api "sp" [MSystem "sp"] 0 [Line "hi"; Line "  Quit"; Line "more"]) = Ok tt /\
  ended (chat_loop echo_api "sp" [MSystem "sp"] 0 [Line "hi"]) = Raise EOFError.
Proof. split; rewrite chat_loop_ending; reflexivity. Defined.
