(* ===== verification/PyFloat.v ===== *)
(** * PyFloat: Python's [float] as IEEE binary64

    Python floats are binary64 doubles.  This file takes them from the
    Standard Library's [SpecFloat] (the executable specification of IEEE
    754 arithmetic that the primitive floats refine), with the operations
    the coffee stores use: literals, [+], [-], [*], comparisons,
    [round(x, 2)], the format [f"{x:.2f}"] and [repr()].
    - [float_lit m k] is the literal [m / 10^k] (e.g. [2.50] is
      [float_lit 250 2]): the quotient of two exactly representable
      integers rounded to nearest, which is how CPython reads a literal;
    - [cents x] is [x * 100] rounded half to even, computed exactly from
      the binary value of [x]: CPython's [round(x, 2)] and its [.2f]
      format both round the exact binary value to two decimals that way;
    - [py_round2 x] is the double nearest to [cents x / 100]
      ([float_of_ratio]), for every finite [x];
    - [py_int_to_float] is the conversion of an [int] operand, which
      raises [OverflowError] past the largest double;
    - [double_repr x] is [repr(x)]: the shortest digits that read back,
      in CPython's layout. *)

From S2P Require Import Prelude.
From Stdlib Require Export Floats.SpecFloat.

#[local] Open Scope Z_scope.

Definition float : Type := spec_float.

Definition prec : Z := 53.
Definition emax : Z := 1024.

Definition fadd : float -> float -> float := SFadd prec emax.
Definition fsub : float -> float -> float := SFsub prec emax.
Definition fmul : float -> float -> float := SFmul prec emax.
Definition fdiv : float -> float -> float := SFdiv prec emax.
Definition fltb : float -> float -> bool := SFltb.

(** [float(z)] of an integer. *)
Definition float_of_Z (z : Z) : float := binary_normalize prec emax z 0 false.

(** An [int] operand of [*] with a [float] is converted by
    [PyLong_AsDouble], which rounds to nearest, ties to even, and raises
    [OverflowError] where the rounded value is too large, that is where
    [float_of_Z] gives an infinity. *)
Definition py_int_to_float (z : Z) : outcome float :=
  match float_of_Z z with
  | S754_infinity _ => Raise OverflowError
  | f => Ok f
  end.

(** The double nearest [n / d], ties to even: [SpecFloat]'s division
    core applied to the exact integers, as [strtod] reads the decimal
    string [n / 100] that [round] builds. *)
Definition float_of_ratio (n : Z) (d : positive) : float :=
  let div s p := let '(m, e, l) := SFdiv_core_binary prec emax (Zpos p) 0 (Zpos d) 0 in
                 binary_round_aux prec emax s m e l in
  match n with
  | Z0 => S754_zero false
  | Zpos p => div false p
  | Zneg p => div true p
  end.

(** The literal [m / 10^k]. *)
Definition float_lit (m : Z) (k : nat) : float := fdiv (float_of_Z m) (float_of_Z (10 ^ Z.of_nat k)).

Definition fzero : float := S754_zero false.

(** [a / b] rounded half to even, for [b > 0]. *)
Definition round_half_even (a b : Z) : Z :=
  let q := a / b in
  let r := a mod b in
  if 2 * r <? b then q
  else if b <? 2 * r then q + 1
  else if Z.even q then q else q + 1.

(** [a / 2^k] rounded half to even for [k > 0], by shifting:
    [round_half_even_pow2_spec] shows it is [round_half_even a (2 ^ k)]. *)
Definition round_half_even_pow2 (a k : Z) : Z :=
  let q := Z.shiftr a k in
  let r := Z.land a (Z.ones k) in
  let h := Z.shiftl 1 (k - 1) in
  if r <? h then q
  else if h <? r then q + 1
  else if Z.even q then q else q + 1.

(** The exact value of a finite double times 100, rounded half to even. *)
Definition cents (x : float) : Z :=
  match x with
  | S754_finite s m e =>
      let n := if 0 <=? e then Zpos m * 100 * 2 ^ e
               else round_half_even_pow2 (Zpos m * 100) (- e) in
      if s then - n else n
  | _ => 0
  end.

(** [round(x, 2)]: CPython's [double_round] prints [x] to two decimals
    (rounded half to even from the exact value) and reads the string back;
    a zero keeps the sign of [x], and infinities and NaNs round to
    themselves. *)
Definition py_round2 (x : float) : float :=
  match x with
  | S754_finite s _ _ =>
      let n := cents x in
      if n =? 0 then S754_zero s else float_of_ratio n 100
  | _ => x
  end.

(** Two decimal digits of [n mod 100]. *)
Definition two_digits (n : Z) : string :=
  String (digit_char (Z.to_N (n / 10))) (String (digit_char (Z.to_N (n mod 10))) EmptyString).

(** [f"{x:.2f}"]: the exact value rounded half to even, or [inf], [-inf]
    and [nan]. *)
Definition format_2f (x : float) : string :=
  match x with
  | S754_infinity s => (if s then "-" else "") +:+ "inf"
  | S754_nan => "nan"
  | _ =>
      let n := cents x in
      let sign := match x with S754_finite true _ _ | S754_zero true => "-" | _ => "" end in
      sign +:+ string_of_Z (Z.abs n / 100) +:+ "." +:+ two_digits (Z.abs n mod 100)
  end.

(** ** [repr()] of a double

    CPython's [float_repr_style] is ['short']: [repr(x)] is the shortest
    decimal string that [float()] reads back as [x], the nearest to [x]
    among those of that length (ties to an even last digit), laid out by
    [PyOS_double_to_string] with the ['r'] format. *)

(** Structural equality of doubles ([-0.0] and [0.0] differ). *)
Definition float_eqb (x y : float) : bool :=
  match x, y with
  | S754_zero a, S754_zero b | S754_infinity a, S754_infinity b => Bool.eqb a b
  | S754_nan, S754_nan => true
  | S754_finite a m e, S754_finite b n f => Bool.eqb a b && Pos.eqb m n && Z.eqb e f
  | _, _ => false
  end.

(** The double nearest [c * 10^p]. *)
Definition float_of_dec (c p : Z) : float :=
  if 0 <=? p then float_of_ratio (c * 10 ^ p) 1 else float_of_ratio c (Z.to_pos (10 ^ (- p))).

Definition digits10 (n : Z) : Z := Z.of_nat (String.length (string_of_N (Z.to_N n))).

(** The [k] with [10^(k-1) <= num / den < 10^k], for positive [num] and [den]. *)
Definition decimal_exponent (num den : Z) : Z :=
  let k := digits10 num - digits10 den in
  let above := if 0 <=? k then den * 10 ^ k <=? num else den <=? num * 10 ^ (- k) in
  if above then k + 1 else k.

(** The [d]-digit decimals [c * 10^(k-d)] on either side of [num / den],
    where [num / den] has [k] digits before the point: the lower one, and
    whether the value lies strictly between the two, below or above the
    midpoint. *)
Definition neighbours (num den k : Z) (d : Z) : Z * comparison * bool :=
  let s := d - k in
  let N := if 0 <=? s then num * 10 ^ s else num in
  let D := if 0 <=? s then den else den * 10 ^ (- s) in
  (N / D, Z.compare (2 * (N mod D)) D, negb (N mod D =? 0)).

(** The digits [c] and exponent [p] of [repr(x)] for the finite positive
    [x = num / den] with [k] digits before the point: [d] counts the
    digits tried, from 1; 17 always suffice, and the nearest 17-digit
    decimal is taken there. *)
Fixpoint shortest (x : float) (num den k : Z) (d : Z) (fuel : nat) : Z * Z :=
  let '(lo, cmp, inexact) := neighbours num den k d in
  let p := k - d in
  let lo_ok := float_eqb (float_of_dec lo p) x in
  let hi_ok := inexact && float_eqb (float_of_dec (lo + 1) p) x in
  let nearest := match cmp with Lt => lo | Gt => lo + 1 | Eq => if Z.even lo then lo else lo + 1 end in
  match fuel with
  | O => (nearest, p)
  | S fuel' =>
      if lo_ok && hi_ok then (nearest, p)
      else if lo_ok then (lo, p)
      else if hi_ok then (lo + 1, p)
      else shortest x num den k (d + 1) fuel'
  end.

(** [c * 10^p] with the trailing zeros of [c] moved into [p]. *)
Fixpoint strip_zeros (c p : Z) (fuel : nat) : Z * Z :=
  match fuel with
  | O => (c, p)
  | S fuel' => if (c mod 10 =? 0) && (0 <? c) then strip_zeros (c / 10) (p + 1) fuel' else (c, p)
  end.

Fixpoint zeros (n : nat) : string :=
  match n with O => EmptyString | S n' => String "0" (zeros n') end.

(** [format_float_short] for ['r']: the digits [ds] stand for
    [0.ds * 10^decpt]; exponent notation when [decpt <= -4] or
    [decpt > 16], with a signed exponent of at least two digits, and
    [".0"] added to a whole number. *)
Definition layout_repr (ds : string) (decpt : Z) : string :=
  let n := Z.of_nat (String.length ds) in
  if (decpt <=? -4) || (16 <? decpt) then
    let e := decpt - 1 in
    let ae := string_of_Z (Z.abs e) in
    match ds with
    | String c r => String c (if String.eqb r "" then "" else "." +:+ r)
    | EmptyString => ""
    end +:+ "e" +:+ (if e <? 0 then "-" else "+") +:+
    (if String.length ae =? 1 then "0" +:+ ae else ae)%nat
  else if decpt <=? 0 then "0." +:+ zeros (Z.to_nat (- decpt)) +:+ ds
  else if decpt <? n then
    substring 0 (Z.to_nat decpt) ds +:+ "." +:+ substring (Z.to_nat decpt) (Z.to_nat (n - decpt)) ds
  else ds +:+ zeros (Z.to_nat (decpt - n)) +:+ ".0".

(** [repr(x)]. *)
Definition double_repr (x : float) : string :=
  match x with
  | S754_zero s => if s then "-0.0" else "0.0"
  | S754_infinity s => if s then "-inf" else "inf"
  | S754_nan => "nan"
  | S754_finite s m e =>
      let num := if 0 <=? e then Zpos m * 2 ^ e else Zpos m in
      let den := if 0 <=? e then 1 else 2 ^ (- e) in
      let k := decimal_exponent num den in
      let '(c, p) := shortest (S754_finite false m e) num den k 1 16 in
      let '(c', p') := strip_zeros c p 17 in
      let ds := string_of_Z c' in
      (if s then "-" else "") +:+ layout_repr ds (Z.of_nat (String.length ds) + p')
  end.

(** ** Properties *)

Lemma round_half_even_pow2_spec a k :
  0 < k -> round_half_even_pow2 a k = round_half_even a (2 ^ k).
Proof.
  intros Hk. unfold round_half_even_pow2, round_half_even.
  rewrite Z.shiftr_div_pow2, Z.land_ones, Z.shiftl_1_l by lia.
  assert (E : 2 ^ k = 2 * 2 ^ (k - 1)) by (rewrite <- Z.pow_succ_r by lia; f_equal; lia).
  rewrite E. destruct (Z.ltb_spec (a mod (2 * 2 ^ (k - 1))) (2 ^ (k - 1))),
    (Z.ltb_spec (2 * (a mod (2 * 2 ^ (k - 1)))) (2 * 2 ^ (k - 1))); try lia;
    destruct (Z.ltb_spec (2 ^ (k - 1)) (a mod (2 * 2 ^ (k - 1)))),
    (Z.ltb_spec (2 * 2 ^ (k - 1)) (2 * (a mod (2 * 2 ^ (k - 1))))); lia.
Qed.

Lemma round_half_even_pow2_nonneg a k : 0 <= a -> 0 < k -> 0 <= round_half_even_pow2 a k.
Proof.
  intros Ha Hk. unfold round_half_even_pow2.
  assert (0 <= Z.shiftr a k) by (apply Z.shiftr_nonneg; lia).
  repeat case_match; lia.
Qed.

(** A finite double that is not negative: what a sum of prices is. *)
Definition finite_nonneg (x : float) : bool :=
  match x with
  | S754_zero _ | S754_finite false _ _ => true
  | _ => false
  end.

Lemma cents_nonneg x : finite_nonneg x = true -> 0 <= cents x.
Proof.
  destruct x as [| | |[] m e]; try done; intros _; simpl.
  destruct (Z.leb_spec 0 e); [|apply round_half_even_pow2_nonneg; lia].
  pose proof (Z.pow_nonneg 2 e). lia.
Qed.

(** [round(x, 2)] of a finite non-negative double is a zero or the
    double nearest [cents x / 100]. *)
Lemma py_round2_nonneg x :
  finite_nonneg x = true ->
  (exists b, py_round2 x = S754_zero b /\ cents x = 0) \/
  (0 < cents x /\ py_round2 x = float_of_ratio (cents x) 100).
Proof.
  intros Hx. pose proof (cents_nonneg x Hx) as Hc.
  destruct x as [b| | |[] m e]; try done; [by left; exists b|].
  unfold py_round2. destruct (Z.eqb_spec (cents (S754_finite false m e)) 0) as [E|E].
  - left. by exists false.
  - right. split; [lia|done].
Qed.

Lemma py_int_to_float_ok z f : py_int_to_float z = Ok f -> f = float_of_Z z.
Proof. unfold py_int_to_float. by case_match; intros E; simplify_eq. Qed.

Lemma py_int_to_float_error z e : py_int_to_float z = Raise e -> e = OverflowError.
Proof. unfold py_int_to_float. by case_match; intros E; simplify_eq. Qed.

Lemma fmul_comm x y : fmul x y = fmul y x.
Proof.
  unfold fmul, SFmul.
  destruct x as [sx|sx| |sx mx ex], y as [sy|sy| |sy my ey]; try done;
    rewrite xorb_comm; try done.
  by rewrite Pos.mul_comm, Z.add_comm.
Qed.
