(* ===== verification/FloatExact.v ===== *)
(** * FloatExact: exact binary64 arithmetic on quarter dollars

    All prices of the coffee stores are multiples of a quarter dollar, so
    their sums and products with quantities are exact in binary64 as long
    as they stay below [2^53] quarters.  This file proves it from
    [SpecFloat]'s definitions: shifting zero bits out of a mantissa does
    not change [binary_round] ([binary_round_shift]), from which [+] and
    [*] on [bin k E], the double of [k * 2^E], are exact
    ([fadd_bin], [fmul_bin]), and [round(x, 2)] keeps a multiple of a
    quarter ([py_round2_quarter]). *)

From S2P Require Import Prelude PyFloat.

#[local] Open Scope Z_scope.

(** The double nearest [k * 2^E]. *)
Definition bin (k E : Z) : float := binary_normalize prec emax k E false.

(** ** Shifting mantissas *)

Lemma iter_pos_nat {A} (f : A -> A) p x : iter_pos f p x = Nat.iter (Pos.to_nat p) f x.
Proof.
  revert x; induction p as [p IH|p IH|]; intros x; cbn [iter_pos].
  - rewrite !IH, <- Nat.iter_add, Pos2Nat.inj_xI, Nat.iter_succ_r. f_equal. lia.
  - rewrite !IH, <- Nat.iter_add, Pos2Nat.inj_xO. f_equal. lia.
  - done.
Qed.

Lemma pos_iter_nat {A} (f : A -> A) x p : Pos.iter f x p = Nat.iter (Pos.to_nat p) f x.
Proof.
  induction p as [|p IH] using Pos.peano_ind; [done|].
  by rewrite Pos.iter_succ, Pos2Nat.inj_succ, Nat.iter_succ, IH.
Qed.

Lemma iter_xO_Z n m : Zpos (Nat.iter n xO m) = Zpos m * 2 ^ Z.of_nat n.
Proof.
  induction n as [|n IH]; [simpl; lia|].
  rewrite Nat.iter_succ, Nat2Z.inj_succ, Z.pow_succ_r by lia.
  change (Zpos (xO (Nat.iter n xO m))) with (2 * Zpos (Nat.iter n xO m)). lia.
Qed.

Lemma digits2_iter_xO n m :
  Zpos (digits2_pos (Nat.iter n xO m)) = Zpos (digits2_pos m) + Z.of_nat n.
Proof.
  induction n as [|n IH]; [simpl; lia|].
  rewrite Nat.iter_succ. simpl (digits2_pos (xO _)). rewrite Pos2Z.inj_succ, IH. lia.
Qed.

(** [shr_1] drops a zero bit exactly. *)
Lemma iter_shr_1 a b m :
  Nat.iter a shr_1 (Build_shr_record (Zpos (Nat.iter (a + b) xO m)) false false) =
  Build_shr_record (Zpos (Nat.iter b xO m)) false false.
Proof.
  induction a as [|a IH]; [done|].
  rewrite Nat.iter_succ_r. change (Nat.iter (S a + b) xO m) with (xO (Nat.iter (a + b) xO m)). exact IH.
Qed.

Section Shift.
Variables (m : positive) (E : Z).

(** The exponent [binary_round] gives [m * 2^E]. *)
Let t := fexp prec emax (Zpos (digits2_pos m) + E).

Lemma shr_fexp_shift i :
  E - t <= Z.of_nat i ->
  shr_fexp prec emax (Zpos (Nat.iter i xO m)) (E - Z.of_nat i) loc_Exact =
  (if E <=? t then (Nat.iter (Z.to_nat (t - E)) shr_1 (Build_shr_record (Zpos m) false false), t)
   else (Build_shr_record (Zpos (Nat.iter (Z.to_nat (E - t)) xO m)) false false, t)).
Proof.
  intros Hi. unfold shr_fexp, shr. simpl (shr_record_of_loc _ _).
  change (Zdigits2 (Zpos ?x)) with (Zpos (digits2_pos x)).
  rewrite digits2_iter_xO. replace (_ + Z.of_nat i + (E - Z.of_nat i)) with (Zpos (digits2_pos m) + E) by lia.
  fold t. destruct (t - (E - Z.of_nat i)) as [|p|p] eqn:En; [..|lia].
  - destruct (Z.leb_spec E t).
    + replace i with 0%nat by lia. f_equal; [|lia]. by replace (Z.to_nat (t - E)) with 0%nat by lia.
    + replace (Z.to_nat (E - t)) with i by lia. f_equal. lia.
  - rewrite iter_pos_nat. destruct (Z.leb_spec E t).
    + replace (Pos.to_nat p) with (Z.to_nat (t - E) + i)%nat by lia.
      pose proof (iter_shr_1 i 0 m) as Hs. rewrite Nat.add_0_r in Hs. rewrite Nat.iter_add, Hs.
      f_equal. lia.
    + replace (Nat.iter i xO m) with (Nat.iter (Pos.to_nat p + Z.to_nat (E - t)) xO m) by (f_equal; lia).
      rewrite iter_shr_1. f_equal. lia.
Qed.

Lemma round_aux_shift s i :
  E - t <= Z.of_nat i ->
  binary_round_aux prec emax s (Zpos (Nat.iter i xO m)) (E - Z.of_nat i) loc_Exact =
  binary_round_aux prec emax s (Zpos (Nat.iter (Z.to_nat (E - t)) xO m))
    (E - Z.of_nat (Z.to_nat (E - t))) loc_Exact.
Proof. intros Hi. unfold binary_round_aux. by rewrite !shr_fexp_shift by lia. Qed.

(** [binary_round] of [m * 2^E] is its exact rounding once the mantissa
    has been shifted left by at least what [shl_align] would shift. *)
Lemma binary_round_iter s i :
  E - t <= Z.of_nat i ->
  binary_round_aux prec emax s (Zpos (Nat.iter i xO m)) (E - Z.of_nat i) loc_Exact =
  binary_round prec emax s m E.
Proof.
  intros Hi. unfold binary_round, shl_align. fold t. rewrite (round_aux_shift s i Hi).
  destruct (t - E) as [|d|d] eqn:Ed.
  1,2: rewrite <- (round_aux_shift s 0) by lia; cbn [Nat.iter Z.of_nat]; by rewrite Z.sub_0_r.
  rewrite pos_iter_nat, <- (round_aux_shift s (Pos.to_nat d)) by lia.
  do 2 f_equal. lia.
Qed.

End Shift.

(** Zero bits shifted into the mantissa do not change the rounding. *)
Lemma binary_round_shift s m E j :
  binary_round prec emax s (Nat.iter j xO m) (E - Z.of_nat j) = binary_round prec emax s m E.
Proof.
  set (t := fexp prec emax (Zpos (digits2_pos m) + E)).
  assert (Ht : fexp prec emax (Zpos (digits2_pos (Nat.iter j xO m)) + (E - Z.of_nat j)) = t)
    by (unfold t; rewrite digits2_iter_xO; f_equal; lia).
  rewrite <- (binary_round_iter _ _ s (Z.to_nat (E - Z.of_nat j - t))) by (rewrite Ht; lia).
  rewrite <- Nat.iter_add. rewrite <- (binary_round_iter m E s (Z.to_nat (E - Z.of_nat j - t) + j)) by (fold t; lia).
  f_equal. lia.
Qed.

(** ** Canonical forms *)

Lemma digits2_log2 p : Zpos (digits2_pos p) = Z.log2 (Zpos p) + 1.
Proof.
  assert (Hs : forall q, digits2_pos q = Pos.size q) by (induction q; simpl; congruence).
  rewrite Hs. destruct p; simpl; lia.
Qed.

Lemma shr_fexp_canonical m e :
  fexp prec emax (Zpos (digits2_pos m) + e) = e ->
  shr_fexp prec emax (Zpos m) e loc_Exact = (Build_shr_record (Zpos m) false false, e).
Proof.
  intros H. unfold shr_fexp. change (Zdigits2 (Zpos m)) with (Zpos (digits2_pos m)).
  rewrite H, Z.sub_diag. reflexivity.
Qed.

(** A canonical mantissa and exponent round to themselves. *)
Lemma round_aux_canonical s m e :
  fexp prec emax (Zpos (digits2_pos m) + e) = e -> e <= emax - prec ->
  binary_round_aux prec emax s (Zpos m) e loc_Exact = S754_finite s m e.
Proof.
  intros H He. unfold binary_round_aux. rewrite shr_fexp_canonical by done.
  cbn [loc_of_shr_record shr_m round_nearest_even]. rewrite shr_fexp_canonical by done.
  cbn [shr_m]. by replace (e <=? emax - prec) with true by lia.
Qed.

(** The number of bits of [k] and the shift that makes it 53 bits. *)
Definition bits (k : Z) : Z := Z.log2 k + 1.

(** Where [k * 2^E] is a normal double with a mantissa below [2^53]. *)
Definition exact_at (k E : Z) : Prop :=
  0 < k < 2 ^ 53 /\ emin prec emax <= bits k + E - prec /\ E <= emax - prec.

Lemma fexp_exact k E : exact_at k E -> fexp prec emax (bits k + E) = bits k + E - prec.
Proof. intros (_ & Hn & _). unfold fexp. lia. Qed.

Lemma bits_le_53 k : 0 < k < 2 ^ 53 -> bits k <= 53.
Proof.
  intros Hk. unfold bits. assert (Z.log2 k < 53) by (apply Z.log2_lt_pow2; lia). lia.
Qed.

(** [bin k E] is [k] shifted left to 53 bits. *)
Lemma bin_exact k E :
  exact_at k E ->
  bin k E = S754_finite false (Nat.iter (Z.to_nat (prec - bits k)) xO (Z.to_pos k))
              (E - Z.of_nat (Z.to_nat (prec - bits k))).
Proof.
  intros Hx. pose proof (fexp_exact _ _ Hx) as Hf. destruct Hx as (Hk & Hn & He).
  pose proof (bits_le_53 k Hk) as Hb. unfold bits in *.
  destruct k as [|p|p]; try lia. unfold bin, binary_normalize. change (Z.to_pos (Zpos p)) with p.
  rewrite <- (binary_round_iter p E false (Z.to_nat (prec - (Z.log2 (Zpos p) + 1))))
    by (rewrite digits2_log2, Hf, Z2Nat.id by (unfold prec; lia); unfold prec; lia).
  apply round_aux_canonical; [|lia].
  rewrite digits2_iter_xO, digits2_log2, Z2Nat.id by (unfold prec; lia).
  replace (_ + _ + (E - _)) with (Z.log2 (Zpos p) + 1 + E) by lia. rewrite Hf. unfold prec in *. lia.
Qed.

(** ** Exact sums and products *)

Lemma shl_align_fst mx ex ez :
  ez <= ex -> Zpos (fst (shl_align mx ex ez)) = Zpos mx * 2 ^ (ex - ez).
Proof.
  intros H. unfold shl_align. destruct (ez - ex) as [|d|d] eqn:Ed; simpl fst; [|lia|].
  - replace (ex - ez) with 0 by lia. lia.
  - rewrite pos_iter_nat, iter_xO_Z, positive_nat_Z. do 2 f_equal. lia.
Qed.

Lemma to_pos_iter k j : 0 < k -> Zpos (Nat.iter j xO (Z.to_pos k)) = k * 2 ^ Z.of_nat j.
Proof. intros Hk. by rewrite iter_xO_Z, Z2Pos.id. Qed.

Lemma bin_pos k E : 0 < k -> bin k E = binary_round prec emax false (Z.to_pos k) E.
Proof. intros Hk. unfold bin. by destruct k; [lia| |lia]. Qed.

(** The sum of two exact doubles of the same scale is the rounding of
    the exact sum. *)
Lemma fadd_bin a b E : exact_at a E -> exact_at b E -> fadd (bin a E) (bin b E) = bin (a + b) E.
Proof.
  intros Ha Hb. rewrite (bin_exact a), (bin_exact b) by done.
  destruct Ha as (Ha & _), Hb as (Hb & _).
  set (ia := Z.to_nat (prec - bits a)). set (ib := Z.to_nat (prec - bits b)).
  unfold fadd, SFadd. cbv zeta. cbn [cond_Zopp].
  set (ez := Z.min (E - Z.of_nat ia) (E - Z.of_nat ib)).
  rewrite !shl_align_fst by lia. rewrite !to_pos_iter by lia.
  replace (a * 2 ^ Z.of_nat ia * 2 ^ (E - Z.of_nat ia - ez) + b * 2 ^ Z.of_nat ib * 2 ^ (E - Z.of_nat ib - ez))
    with (Zpos (Nat.iter (Z.to_nat (E - ez)) xO (Z.to_pos (a + b)))).
  - change (binary_normalize prec emax (Zpos ?m) ez false) with (binary_round prec emax false m ez).
    replace ez with (E - Z.of_nat (Z.to_nat (E - ez))) at 2 by lia.
    rewrite binary_round_shift, bin_pos by lia. done.
  - rewrite to_pos_iter, Z2Nat.id by lia. rewrite <- !Z.mul_assoc, <- !Z.pow_add_r by lia.
    replace (Z.of_nat ia + (E - Z.of_nat ia - ez)) with (E - ez) by lia.
    replace (Z.of_nat ib + (E - Z.of_nat ib - ez)) with (E - ez) by lia. ring.
Qed.

Lemma bits_mono a b : 0 < a <= b -> bits a <= bits b.
Proof. intros H. unfold bits. pose proof (Z.log2_le_mono a b). lia. Qed.

(** The product of two exact doubles is the rounding of the exact
    product. *)
Lemma fmul_bin a b Ea Eb :
  exact_at a Ea -> exact_at b Eb -> fmul (bin a Ea) (bin b Eb) = bin (a * b) (Ea + Eb).
Proof.
  intros Ha Hb. rewrite (bin_exact a), (bin_exact b) by done.
  destruct Ha as (Ha & _), Hb as (Hb & _).
  pose proof (bits_le_53 a Ha). pose proof (bits_le_53 b Hb).
  assert (Hm : bits a <= bits (a * b)) by (apply bits_mono; nia).
  set (ia := Z.to_nat (prec - bits a)). set (ib := Z.to_nat (prec - bits b)).
  unfold fmul, SFmul. cbn [xorb].
  replace (Pos.mul _ _) with (Nat.iter (ia + ib) xO (Z.to_pos (a * b))).
  - replace (Ea - Z.of_nat ia + (Eb - Z.of_nat ib)) with (Ea + Eb - Z.of_nat (ia + ib)) by lia.
    rewrite binary_round_iter, bin_pos; [done|nia|].
    rewrite digits2_log2, Z2Pos.id, Nat2Z.inj_add by nia. unfold ia, ib.
    rewrite !Z2Nat.id by (unfold prec; lia). unfold fexp, bits, prec in *. lia.
  - apply Pos2Z.inj. rewrite Pos2Z.inj_mul, !to_pos_iter by lia. rewrite Nat2Z.inj_add, Z.pow_add_r by lia. ring.
Qed.

(** ** Quarters *)

Lemma exact_quarter k : 0 < k < 2 ^ 53 -> exact_at k (-2).
Proof.
  intros Hk. split; [done|]. pose proof (Z.log2_nonneg k).
  unfold bits, emin, prec, emax. lia.
Qed.

Lemma exact_int k : 0 < k < 2 ^ 53 -> exact_at k 0.
Proof.
  intros Hk. split; [done|]. pose proof (Z.log2_nonneg k).
  unfold bits, emin, prec, emax. lia.
Qed.

Lemma bin_finite k E : exact_at k E -> exists m e, bin k E = S754_finite false m e.
Proof. intros Hx. rewrite bin_exact by done. by do 2 eexists. Qed.

(** A multiple of a quarter is [25 * k] cents exactly. *)
Lemma cents_quarter k : 0 < k < 2 ^ 53 -> cents (bin k (-2)) = 25 * k.
Proof.
  intros Hk. pose proof (bits_le_53 k Hk). rewrite bin_exact by (by apply exact_quarter).
  set (i := Z.to_nat (prec - bits k)). unfold cents.
  replace (0 <=? -2 - Z.of_nat i) with false by lia.
  rewrite round_half_even_pow2_spec by lia. rewrite to_pos_iter by lia.
  unfold round_half_even.
  replace (k * 2 ^ Z.of_nat i * 100) with (25 * k * 2 ^ (- (-2 - Z.of_nat i)))
    by (replace (- (-2 - Z.of_nat i)) with (2 + Z.of_nat i) by lia; rewrite Z.pow_add_r by lia; lia).
  assert (0 < 2 ^ (- (-2 - Z.of_nat i))) by (apply Z.pow_pos_nonneg; lia).
  rewrite Z.div_mul, Z.mod_mul by lia. by replace (2 * 0 <? _) with true by lia.
Qed.

Lemma div_eucl_eq a b : Z.div_eucl a b = (a / b, a mod b).
Proof. unfold Z.div, Z.modulo. by destruct (Z.div_eucl a b). Qed.

Lemma bits_25 k : 0 < k -> bits (25 * k) <= bits k + 5.
Proof.
  intros Hk. unfold bits. pose proof (Z.log2_mul_pow2 k 5 Hk ltac:(lia)).
  pose proof (Z.log2_le_mono (25 * k) (k * 2 ^ 5)). lia.
Qed.

(** Reading [25 * k] hundredths back gives the quarter multiple [k]
    exactly. *)
Lemma float_of_ratio_quarter k : 0 < k < 2 ^ 53 -> float_of_ratio (25 * k) 100 = bin k (-2).
Proof.
  intros Hk. pose proof (bits_25 k (proj1 Hk)) as H25. pose proof (bits_le_53 k Hk) as Hb.
  assert (Hp : 0 <= Z.log2 (25 * k)) by apply Z.log2_nonneg.
  unfold float_of_ratio. replace (25 * k) with (Zpos (Z.to_pos (25 * k))) by (rewrite Z2Pos.id; lia).
  cbv zeta. unfold SFdiv_core_binary. change (Zdigits2 (Zpos 100)) with 7.
  change (Zdigits2 (Zpos ?p)) with (Zpos (digits2_pos p)). rewrite digits2_log2, Z2Pos.id by lia.
  fold (bits (25 * k)) in *. cbv zeta.
  replace (Z.min _ (0 - 0)) with (bits (25 * k) - 60) by (unfold fexp, emin, prec, emax, bits in *; lia).
  destruct (0 - 0 - (bits (25 * k) - 60)) as [|s|s] eqn:Es; [unfold bits in *; lia| |unfold bits in *; lia].
  rewrite Z.shiftl_mul_pow2, div_eucl_eq by lia.
  replace (25 * k * 2 ^ Zpos s) with (k * 2 ^ (58 - bits (25 * k)) * 100)
    by (rewrite <- Es; replace (0 - 0 - (bits (25 * k) - 60)) with (2 + (58 - bits (25 * k))) by lia;
        rewrite Z.pow_add_r by (unfold bits in *; lia); lia).
  rewrite Z.div_mul, Z.mod_mul by lia. change (new_location 100 0) with loc_Exact.
  replace (k * 2 ^ (58 - bits (25 * k))) with (Zpos (Nat.iter (Z.to_nat (58 - bits (25 * k))) xO (Z.to_pos k)))
    by (rewrite to_pos_iter, Z2Nat.id by (unfold bits in *; lia); done).
  replace (bits (25 * k) - 60) with (-2 - Z.of_nat (Z.to_nat (58 - bits (25 * k)))) by (unfold bits in *; lia).
  rewrite binary_round_iter, bin_pos by
    (try lia; rewrite digits2_log2, Z2Pos.id by lia; unfold fexp, bits, prec in *; lia). done.
Qed.

Lemma py_round2_finite s m e :
  py_round2 (S754_finite s m e) =
  if cents (S754_finite s m e) =? 0 then S754_zero s else float_of_ratio (cents (S754_finite s m e)) 100.
Proof. reflexivity. Qed.

(** [round(x, 2)] keeps a multiple of a quarter. *)
Lemma py_round2_quarter k : 0 < k < 2 ^ 53 -> py_round2 (bin k (-2)) = bin k (-2).
Proof.
  intros Hk. destruct (bin_finite k (-2)) as (m & e & He); [by apply exact_quarter|].
  pose proof (cents_quarter k Hk) as Hc. rewrite He, py_round2_finite, <- He, Hc.
  replace (25 * k =? 0) with false by lia. by apply float_of_ratio_quarter.
Qed.

(** [round(qty * price, 2)] for a price of [p] quarters is exact below
    [2^53] quarters. *)
Lemma line_total_quarter qty p :
  0 < qty -> 0 < p -> qty * p < 2 ^ 53 ->
  py_round2 (fmul (float_of_Z qty) (bin p (-2))) = bin (qty * p) (-2).
Proof.
  intros Hq Hp Hb. assert (qty <= qty * p /\ p <= qty * p) by nia.
  change (float_of_Z qty) with (bin qty 0).
  rewrite fmul_bin by (first [apply exact_int | apply exact_quarter]; lia).
  apply py_round2_quarter. lia.
Qed.

(** [0.0 + x] is [x] for a positive exact [x]. *)
Lemma fadd_zero_bin k E : exact_at k E -> fadd (bin 0 E) (bin k E) = bin k E.
Proof. intros Hx. destruct (bin_finite k E Hx) as (m & e & ->). reflexivity. Qed.
