(* ===== verification/CoffeeStore.v ===== *)
(** * CoffeeStore: [src/setup/coffee_store_advanced.py]

    A console order taker: it asks for a name, shows the menu, reads items
    (by number or by name) and quantities until ["quit"] or Ctrl-C, keeps
    the order as a list of line dicts, and prints a receipt with a
    discount and tax computed on floats rounded with [round(x, 2)].
    - [build_menu], [display_menu], [get_customer_name];
    - [parse_choice]: number, exact name, then substring match;
      [py_int] is [int(s)] on a string ([ValueError] as [None]);
    - [get_quantity]: the quantity or [None], with the message printed;
    - [order_line] and [add_to_order]: the list of line dicts and its
      in-place update, returned as the new list (the list has a single
      owner, [main]);
    - [calculate_totals], [print_receipt];
    - [main]: the input loop, by structural recursion on the input
      events; the end of the input raises [EOFError], which only
      [KeyboardInterrupt]'s handler would have caught.
    Money is [PyFloat.float], binary64. *)

From S2P Require Import Prelude PyFloat FloatExact.

#[local] Open Scope Z_scope.

(** ** The menu *)

Record menu_item := mk_item {
  price : float;
  category : string
}.

(** Lines 16-24. *)
Definition build_menu : dict menu_item :=
  [("Espresso", mk_item (float_lit 250 2) "Coffee");
   ("Americano", mk_item (float_lit 300 2) "Coffee");
   ("Latte", mk_item (float_lit 350 2) "Coffee");
   ("Cappuccino", mk_item (float_lit 375 2) "Coffee");
   ("Tea", mk_item (float_lit 200 2) "Hot Drink")].

Definition nl : string := String "010" EmptyString.

(** Line 7. *)
Definition display_welcome : list string := ["Welcome to the Advanced Coffee Store (function-based)!"].

(** Lines 10-13: [input(...).strip() or "Guest"]. *)
Definition get_customer_name (raw : string) : string :=
  let name := py_strip raw in if String.eqb name "" then "Guest" else name.

Fixpoint menu_lines (idx : N) (items : list (string * menu_item)) : list string :=
  match items with
  | [] => []
  | (name, info) :: items' =>
      (string_of_N idx +:+ ". " +:+ name +:+ " - $" +:+ format_2f (price info) +:+ " (" +:+
       category info +:+ ")") :: menu_lines (idx + 1)%N items'
  end.

(** Lines 27-32. *)
Definition display_menu (menu : dict menu_item) : list string :=
  (nl +:+ "Today's menu:") :: menu_lines 1 menu.

(** ** Reading choices and quantities *)

Fixpoint is_prefix (p s : string) : bool :=
  match p, s with
  | EmptyString, _ => true
  | String c p', String d s' => Ascii.eqb c d && is_prefix p' s'
  | _, _ => false
  end.

(** [needle in hay] on strings. *)
Fixpoint py_contains (needle hay : string) : bool :=
  is_prefix needle hay || match hay with EmptyString => false | String _ h => py_contains needle h end.

(** Lines 35-62. *)
Definition parse_choice (choice : string) (menu : dict menu_item) : outcome (option string) :=
  let choice := py_strip choice in
  if String.eqb choice "" then Ok None
  else if py_isdigit choice then
    match py_int choice with
    | None => Raise ValueError
    | Some n =>
        let idx := n - 1 in
        let keys := dict_keys menu in
        if (0 <=? idx) && (idx <? Z.of_nat (List.length keys)) then Ok (keys !! Z.to_nat idx) else Ok None
    end
  else
    match List.find (fun name => String.eqb (py_lower choice) (py_lower name)) (dict_keys menu) with
    | Some name => Ok (Some name)
    | None => Ok (List.find (fun name => py_contains (py_lower choice) (py_lower name)) (dict_keys menu))
    end.

(** Lines 65-81: the messages printed and the quantity. *)
Definition get_quantity (raw : string) : list string * option Z :=
  let raw := py_strip raw in
  if String.eqb raw "" then ([], None)
  else match py_int raw with
       | None => (["Invalid number. Please enter a whole number (e.g., 1, 2)."], None)
       | Some qty =>
           if qty <=? 0 then (["Please enter a whole number greater than 0."], None) else ([], Some qty)
       end.

(** ** The order *)

(** [{"name": ..., "price": ..., "qty": ..., "line_total": ...}] *)
Record order_line := mk_line {
  line_name : string;
  line_price : float;
  line_qty : Z;
  line_total : float
}.

(** The loop of lines 88-94 on the order list.  [qty * price] converts
    the [int] and raises [OverflowError] past the largest double; the
    exception leaves [main], so the list it leaves behind is never read. *)
Fixpoint add_line (order : list order_line) (name : string) (price : float) (qty : Z)
  : outcome (list order_line) :=
  match order with
  | [] =>
      (f <- py_int_to_float qty ;; Ok [mk_line name price qty (py_round2 (fmul price f))])%py
  | line :: rest =>
      if String.eqb (py_lower (line_name line)) (py_lower name) then
        let q := line_qty line + qty in
        (f <- py_int_to_float q ;;
         Ok (mk_line (line_name line) (line_price line) q (py_round2 (fmul f (line_price line))) :: rest))%py
      else (rest' <- add_line rest name price qty ;; Ok (line :: rest'))%py
  end.

(** Lines 84-94: [menu[name]] raises [KeyError] for a name not on the menu. *)
Definition add_to_order (order : list order_line) (menu : dict menu_item) (name : string) (qty : Z)
  : outcome (list order_line) :=
  match dict_get menu name with
  | None => Raise KeyError
  | Some item => add_line order name (price item) qty
  end.

(** [sum(...)] of floats, from the integer [0], left to right. *)
Definition py_sum (xs : list float) : float := fold_left fadd xs fzero.

Record totals := mk_totals {
  subtotal : float;
  discount : float;
  after_discount : float;
  tax : float;
  total : float
}.

(** Lines 101-108: the totals from the rounded subtotal. *)
Definition totals_of_subtotal (subtotal tax_rate discount_threshold discount_rate : float) : totals :=
  let discount := if fltb fzero discount_threshold && fltb discount_threshold subtotal
                  then py_round2 (fmul subtotal discount_rate) else fzero in
  let after_discount := py_round2 (fsub subtotal discount) in
  let tax := py_round2 (fmul after_discount tax_rate) in
  let total := py_round2 (fadd after_discount tax) in
  mk_totals subtotal discount after_discount tax total.

(** Lines 97-110. *)
Definition calculate_totals (order : list order_line) (tax_rate discount_threshold discount_rate : float)
  : totals :=
  totals_of_subtotal (py_round2 (py_sum (map line_total order))) tax_rate discount_threshold discount_rate.

(** Lines 113-124. *)
Definition print_receipt (customer : string) (order : list order_line) (t : totals) : list string :=
  [nl +:+ "--- Receipt ---"; "Customer: " +:+ customer] ++
  map (fun line => line_name line +:+ " x" +:+ string_of_Z (line_qty line) +:+ " @ $" +:+
                   format_2f (line_price line) +:+ " = $" +:+ format_2f (line_total line)) order ++
  ["Subtotal: $" +:+ format_2f (subtotal t)] ++
  (if fltb fzero (discount t) then ["Discount: -$" +:+ format_2f (discount t)] else []) ++
  ["Tax: $" +:+ format_2f (tax t); "Total due: $" +:+ format_2f (total t); "-----------------"].

(** ** The program *)

Definition add_front {A B} (l : list string) (r : list string * A * B) : list string * A * B :=
  let '(out, a, b) := r in (l ++ out, a, b).

Definition interrupted : string := nl +:+ "Order interrupted by user. Proceeding to checkout...".

(** Lines 136-157: what is printed, the order, and whether the loop was
    left normally ([quit] or Ctrl-C) or by an exception. *)
Fixpoint order_loop (menu : dict menu_item) (order : list order_line) (events : list input_event)
  : list string * list order_line * outcome unit :=
  match events with
  | [] => ([], order, Raise EOFError)
  | Interrupt :: _ => ([interrupted], order, Ok tt)
  | Line raw :: rest =>
      if String.eqb (py_lower (py_strip raw)) "quit" then ([], order, Ok tt)
      else match parse_choice raw menu with
      | Raise e => ([], order, Raise e)
      | Ok None => add_front ["Item not found. Try again."] (order_loop menu order rest)
      | Ok (Some item) =>
          match rest with
          | [] => ([], order, Raise EOFError)
          | Interrupt :: _ => ([interrupted], order, Ok tt)
          | Line q :: rest' =>
              let '(msgs, oqty) := get_quantity q in
              match oqty with
              | None => add_front msgs (order_loop menu order rest')
              | Some qty =>
                  match add_to_order order menu item qty with
                  | Raise e => (msgs, order, Raise e)
                  | Ok order' =>
                      add_front (msgs ++ ["Added " +:+ string_of_Z qty +:+ " x " +:+ item +:+
                                          ". Current subtotal: $" +:+
                                          format_2f (py_round2 (py_sum (map line_total order')))])
                                (order_loop menu order' rest')
                  end
              end
          end
      end
  end.

Definition types_line : string :=
  nl +:+ "(Types demonstration) customer: <class 'str'> , order: <class 'list'> , totals: <class 'dict'>".

(** Lines 127-168: everything printed, and the exception that ended the
    program, if any. *)
Definition main (events : list input_event) : list string * outcome unit :=
  match events with
  | [] => (display_welcome, Raise EOFError)
  | Interrupt :: _ => (display_welcome, Raise KeyboardInterrupt)
  | Line name_raw :: rest =>
      let customer := get_customer_name name_raw in
      let menu := build_menu in
      let '(out, order, o) := order_loop menu [] rest in
      let shown := display_welcome ++ display_menu menu ++ out in
      match o with
      | Raise e => (shown, Raise e)
      | Ok _ =>
          match order with
          | [] => (shown ++ [nl +:+ "No items ordered. Goodbye!"], Ok tt)
          | _ =>
              let t := calculate_totals order (float_lit 13 2) (float_lit 150 1) (float_lit 10 2) in
              (shown ++ print_receipt customer order t ++ [types_line], Ok tt)
          end
      end
  end.

(** ** Properties *)

(** Lines of the order, by lower-cased name. *)
Definition line_key (l : order_line) : string := py_lower (line_name l).

(** A line holds a positive quantity of a menu item at its menu price,
    and its total is [round(qty * price, 2)]. *)
Definition line_ok (menu : dict menu_item) (l : order_line) : Prop :=
  0 < line_qty l /\
  (exists item, dict_get menu (line_name l) = Some item /\ line_price l = price item) /\
  line_total l = py_round2 (fmul (float_of_Z (line_qty l)) (line_price l)).

Definition order_ok (menu : dict menu_item) (order : list order_line) : Prop :=
  NoDup (map line_key order) /\ Forall (line_ok menu) order.

Lemma digits_aux_digits f n acc :
  all_chars is_ascii_digit acc = true -> all_chars is_ascii_digit (digits_aux f n acc) = true.
Proof.
  revert n acc; induction f as [|f IH]; intros n acc Hacc; simpl; [done|].
  assert (Hd : is_ascii_digit (digit_char (n mod 10)) = true)
    by (apply digit_char_spec, N.mod_lt; lia).
  case_match; [simpl; by rewrite Hd|apply IH; simpl; by rewrite Hd].
Qed.

Lemma string_of_N_digits n : all_chars is_ascii_digit (string_of_N n) = true.
Proof. by apply digits_aux_digits. Qed.

Lemma int_digits_read s acc b :
  all_chars is_ascii_digit s = true -> s <> EmptyString ->
  int_digits s (Z.of_N acc) b = Some (Z.of_N (read_digits s acc).1).
Proof.
  revert acc b; induction s as [|c s IH]; intros acc b; [done|]. simpl.
  intros [Hc Hs]%andb_true_iff _. rewrite Hc.
  replace (Z.of_N acc * 10 + Z.of_N (digit_value c)) with (Z.of_N (acc * 10 + digit_value c)) by lia.
  destruct s as [|c' s]; [done|]. by apply IH.
Qed.

Lemma py_int_no_sign t : all_chars py_isdigit_char t = true -> py_int t = int_limited t.
Proof.
  intros Ht. unfold py_int.
  rewrite py_strip_id by (eapply all_chars_impl; [apply isdigit_not_space|done]).
  destruct t as [|c r]; [done|]. simpl in Ht. apply andb_true_iff in Ht as [Hc _].
  destruct c as [[] [] [] [] [] [] [] []]; try discriminate Hc; reflexivity.
Qed.

Lemma int_digits_superscript s acc b :
  all_chars py_isdigit_char s = true -> all_chars is_ascii_digit s = false -> int_digits s acc b = None.
Proof.
  revert acc b; induction s as [|c s IH]; intros acc b; simpl; [discriminate|].
  intros [Hc Hs]%andb_true_iff. destruct (is_ascii_digit c) eqn:Ed; simpl; [by apply IH|].
  intros _. destruct (Ascii.eqb_spec c "_") as [->|]; [discriminate|done].
Qed.

Lemma count_digits_all s : all_chars is_ascii_digit s = true -> count_digits s = String.length s.
Proof. induction s as [|c s IH]; simpl; [done|]. intros [-> Hs]%andb_true_iff. by rewrite IH. Qed.

Lemma string_of_N_int n :
  (String.length (string_of_N n) <= int_max_str_digits)%nat -> py_int (string_of_N n) = Some (Z.of_N n).
Proof.
  intros Hlen. pose proof (string_of_N_digits n) as Hd.
  rewrite py_int_no_sign by (eapply all_chars_impl; [|exact Hd]; intros c Hc; unfold py_isdigit_char; by rewrite Hc).
  unfold int_limited. rewrite count_digits_all by done. replace (_ <=? _)%nat with true by (symmetry; by apply Nat.leb_le).
  change 0%Z with (Z.of_N 0). rewrite int_digits_read; [|done|].
  - pose proof (read_digits_string_of_N n EmptyString eq_refl) as E. rewrite string_app_nil_r in E.
    by rewrite E.
  - destruct (N.eq_dec n 0) as [->|Hn]; [discriminate|].
    destruct (string_of_N_head n) as (c & r & -> & _); [lia|discriminate].
Qed.

Lemma parse_choice_key s menu name : parse_choice s menu = Ok (Some name) -> name ∈ dict_keys menu.
Proof.
  unfold parse_choice. cbv zeta. intros E. repeat case_match; simplify_eq.
  all: first [by eapply list_elem_of_lookup_2
             |match goal with H : List.find _ _ = Some _ |- _ =>
                apply List.find_some in H as [Hin _]; by apply list_elem_of_In end].
Qed.

Lemma parse_choice_error s menu e : parse_choice s menu = Raise e -> e = ValueError.
Proof. unfold parse_choice. cbv zeta. intros E. by repeat case_match; simplify_eq. Qed.

(** C26: A choice made only of digits with a superscript among them (["²"]:
    [isdigit()] holds) crashes [parse_choice] with [ValueError], since
    [int()] accepts only decimal digits. *)
Theorem parse_choice_superscript s menu :
  py_isdigit (py_strip s) = true -> all_chars is_ascii_digit (py_strip s) = false ->
  parse_choice s menu = Raise ValueError.
Proof.
  intros Hd Ha. unfold parse_choice. cbv zeta.
  destruct (py_strip s) as [|c r] eqn:E; [discriminate|]. simpl (String.eqb _ _). rewrite Hd.
  rewrite (py_int_no_sign _ Hd). unfold int_limited.
  rewrite (int_digits_superscript _ _ _ Hd Ha). by destruct (_ <=? _)%nat.
Qed.

(** C29: Typing the number [n] of a menu entry selects the [n]-th item. *)
Theorem parse_choice_number n menu :
  (1 <= n)%N -> (N.to_nat n <= List.length (dict_keys menu))%nat ->
  (String.length (string_of_N n) <= int_max_str_digits)%nat ->
  parse_choice (string_of_N n) menu = Ok (dict_keys menu !! (N.to_nat n - 1)%nat).
Proof.
  intros H1 H2 H3. pose proof (string_of_N_digits n) as Hd.
  destruct (string_of_N_head n) as (c & r & E & Hc & _); [lia|].
  assert (Hdig : all_chars py_isdigit_char (string_of_N n) = true)
    by (eapply all_chars_impl; [|exact Hd]; intros c' Hc'; unfold py_isdigit_char; by rewrite Hc').
  assert (Hs : py_strip (string_of_N n) = string_of_N n)
    by (apply py_strip_id; eapply all_chars_impl; [apply isdigit_not_space|done]).
  assert (He : String.eqb (string_of_N n) "" = false) by (by rewrite E).
  assert (Hi : py_isdigit (string_of_N n) = true) by (unfold py_isdigit; by rewrite E, <- E).
  unfold parse_choice. cbv zeta. rewrite Hs, He, Hi, string_of_N_int by done.
  replace (0 <=? Z.of_N n - 1) with true by lia.
  replace (Z.of_N n - 1 <? Z.of_nat (List.length (dict_keys menu))) with true by lia.
  do 2 f_equal. lia.
Qed.

(** [get_quantity] returns only positive quantities, and reads back
    every positive number as typed, up to [int()]'s limit of 4300
    digits. *)
Theorem get_quantity_positive raw msgs qty n :
  (get_quantity raw = (msgs, Some qty) -> 0 < qty) /\
  ((0 < n)%N -> (String.length (string_of_N n) <= int_max_str_digits)%nat ->
   get_quantity (string_of_N n) = ([], Some (Z.of_N n))).
Proof.
  split.
  - unfold get_quantity. cbv zeta. destruct (String.eqb _ _); [discriminate|].
    destruct (py_int _) as [q|]; [|discriminate]. destruct (q <=? 0) eqn:E; [discriminate|].
    intros H; injection H as _ <-. lia.
  - intros Hn Hlen. unfold get_quantity. cbv zeta.
    rewrite py_strip_id
      by (eapply all_chars_impl; [|apply string_of_N_digits]; intros c Hc; case (py_isspace c) eqn:Es;
          [|done]; destruct c as [[] [] [] [] [] [] [] []]; discriminate).
    destruct (string_of_N_head n) as (c & r & E & _); [lia|]. rewrite E. simpl (String.eqb _ _).
    rewrite <- E, string_of_N_int by done. by replace (Z.of_N n <=? 0) with false by lia.
Qed.

Lemma add_line_keys order name p qty order' :
  add_line order name p qty = Ok order' ->
  map line_key order' = map line_key order \/
  (map line_key order' = map line_key order ++ [py_lower name] /\ py_lower name ∉ map line_key order).
Proof.
  revert order'. induction order as [|l order IH]; intros order'; simpl.
  - destruct (py_int_to_float qty); cbn [obind]; intros E; simplify_eq. right. split; [done|set_solver].
  - destruct (String.eqb_spec (py_lower (line_name l)) (py_lower name)) as [E|Hne].
    + destruct (py_int_to_float _); cbn [obind]; intros E'; simplify_eq. by left.
    + destruct (add_line order name p qty) as [o|]; cbn [obind]; intros E; simplify_eq.
      destruct (IH o eq_refl) as [IH'|[IH' Hn]]; simpl; rewrite IH'; [by left|right].
      split; [done|]. unfold line_key at 1. set_solver.
Qed.

Lemma add_line_ok menu order name item qty order' :
  Forall (line_ok menu) order -> 0 < qty -> dict_get menu name = Some item ->
  add_line order name (price item) qty = Ok order' -> Forall (line_ok menu) order'.
Proof.
  intros Hall Hq Hi. revert order'. induction Hall as [|l order [Hl [Hp Ht]] Hall IH]; intros order'; simpl.
  - destruct (py_int_to_float qty) eqn:Ef; cbn [obind]; intros E; simplify_eq. apply py_int_to_float_ok in Ef as ->.
    constructor; [|constructor]. split; [simpl; lia|]. split; [by eexists|].
    simpl. by rewrite fmul_comm.
  - case_match.
    + destruct (py_int_to_float _) eqn:Ef; cbn [obind]; intros E; simplify_eq. apply py_int_to_float_ok in Ef as ->.
      constructor; [|done]. split; [simpl; lia|]. by split.
    + destruct (add_line order name _ qty) as [o|]; cbn [obind]; intros E; simplify_eq.
      constructor; [by split|by apply IH].
Qed.

Lemma add_line_error order name p qty e : add_line order name p qty = Raise e -> e = OverflowError.
Proof.
  induction order as [|l order IH]; simpl.
  - by destruct (py_int_to_float qty) eqn:Ef; cbn [obind]; intros E; simplify_eq; apply py_int_to_float_error in Ef.
  - case_match; [|by destruct (add_line order name p qty); cbn [obind]; intros E; simplify_eq; auto].
    by destruct (py_int_to_float _) eqn:Ef; cbn [obind]; intros E; simplify_eq; apply py_int_to_float_error in Ef.
Qed.

(** C28: The order list stays well formed: one line per item (up to
    case), positive quantities, menu prices, and every line total equal to
    [round(qty * price, 2)] after each [add_to_order]. *)
Theorem add_to_order_ok menu order name qty order' :
  order_ok menu order -> 0 < qty -> add_to_order order menu name qty = Ok order' -> order_ok menu order'.
Proof.
  intros [Hnd Hall] Hq. unfold add_to_order. destruct (dict_get menu name) as [item|] eqn:Hi; [|discriminate].
  intros E. split; [|by eapply add_line_ok].
  destruct (add_line_keys order name (price item) qty order' E) as [->|[-> Hn]]; [done|].
  apply NoDup_app. split; [done|]. split; [set_solver|]. apply NoDup_singleton.
Qed.

Lemma order_loop_outcome menu n events order :
  (List.length events <= n)%nat ->
  let '(_, _, o) := order_loop menu order events in
  o = Ok tt \/ o = Raise ValueError \/ o = Raise EOFError \/ o = Raise OverflowError.
Proof.
  revert events order; induction n as [|n IH]; intros events order Hlen.
  { destruct events; [simpl; auto|simpl in Hlen; lia]. }
  destruct events as [|[raw|] rest]; simpl; auto.
  destruct (String.eqb _ "quit"); [auto|].
  destruct (parse_choice raw menu) as [[item|]|e] eqn:Hp.
  - destruct rest as [|[q|] rest']; simpl; auto.
    destruct (get_quantity q) as [msgs [qty|]].
    + unfold add_to_order. apply parse_choice_key in Hp.
      destruct (dict_get menu item) as [it|] eqn:Hg.
      * destruct (add_line order item (price it) qty) as [o|e] eqn:Ea;
          [|apply add_line_error in Ea; subst; auto].
        pose proof (IH rest' o) as IH'. unfold add_front.
        destruct (order_loop _ _ rest') as [[? ?] ?]. apply IH'. simpl in Hlen. lia.
      * exfalso. by apply dict_get_None_keys in Hg.
    + pose proof (IH rest' order) as IH'. unfold add_front.
      destruct (order_loop _ _ rest') as [[? ?] ?]. apply IH'. simpl in Hlen. lia.
  - pose proof (IH rest order) as IH'. unfold add_front.
    destruct (order_loop _ _ rest) as [[? ?] ?]. apply IH'. simpl in Hlen. lia.
  - apply parse_choice_error in Hp. subst. auto.
Qed.

(** C27: The only exceptions that can end the program are [ValueError] (a
    superscript digit as a choice), [EOFError] (the input ends),
    [KeyboardInterrupt] (Ctrl-C while the name is asked) and
    [OverflowError] (a quantity too large for a float); in particular
    [menu[name]] never raises [KeyError], as [parse_choice] only returns
    menu names. *)
Theorem main_exceptions events :
  snd (main events) = Ok tt \/ snd (main events) = Raise ValueError \/
  snd (main events) = Raise EOFError \/ snd (main events) = Raise KeyboardInterrupt \/
  snd (main events) = Raise OverflowError.
Proof.
  destruct events as [|[raw|] rest]; [simpl; tauto| |simpl; tauto].
  unfold main. cbv zeta.
  pose proof (order_loop_outcome build_menu (List.length rest) rest [] (le_n _)) as Ho.
  destruct (order_loop build_menu [] rest) as [[out order] o].
  destruct Ho as [-> | [-> | [-> | ->]]]; [destruct order|..]; cbn [snd]; tauto.
Qed.

(** A quantity of 310 digits passes [int()] and the [qty <= 0] test of
    [get_quantity], and [price * qty] then raises [OverflowError] out of
    [main] (line 149 is outside the handler of [KeyboardInterrupt]). *)
Lemma main_overflow :
  snd (main [Line "Ann"; Line "1"; Line (string_of_N (10 ^ 309))]) = Raise OverflowError.
Proof. vm_compute. reflexivity. Qed.

(** Every price of the menu is a multiple of a quarter dollar. *)
Lemma build_menu_quarters name item :
  dict_get build_menu name = Some item -> exists p, 0 < p < 2 ^ 53 /\ price item = bin p (-2).
Proof.
  intros E%dict_get_In. unfold build_menu in E.
  destruct E as [E|[E|[E|[E|[E|[]]]]]]; injection E as _ <-;
    [exists 10|exists 12|exists 14|exists 15|exists 8]; (split; [lia|vm_compute; reflexivity]).
Qed.

(** C31: Line totals are exact: for every menu item and every quantity
    whose line is below [2^53] quarter dollars (over two quadrillion
    dollars), [round(qty * price, 2)] is the quantity times the price, to
    the cent, although both are binary floats. *)
Theorem line_total_exact name item qty :
  dict_get build_menu name = Some item -> 0 < qty -> qty * cents (price item) < 25 * 2 ^ 53 ->
  cents (py_round2 (fmul (float_of_Z qty) (price item))) = qty * cents (price item).
Proof.
  intros Hi Hq Hb. destruct (build_menu_quarters name item Hi) as (p & Hp & Hpr).
  rewrite Hpr, cents_quarter in * by done. assert (qty <= qty * p) by nia.
  rewrite line_total_quarter, cents_quarter by lia. lia.
Qed.

(** The receipt of [main] ([tax_rate=0.13], [discount_threshold=15.0],
    [discount_rate=0.10], line 164) for a rounded subtotal, as a test:
    the printed amounts add up and the discount and tax are the nearest
    cents to 10% and 13%. *)
Definition main_tax_rate : float := Eval vm_compute in float_lit 13 2.
Definition main_threshold : float := Eval vm_compute in float_lit 150 1.
Definition main_discount_rate : float := Eval vm_compute in float_lit 10 2.

Definition receipt_ok (S : float) : bool :=
  let t := totals_of_subtotal S main_tax_rate main_threshold main_discount_rate in
  (cents (after_discount t) =? cents S - cents (discount t)) &&
  (cents (total t) =? cents (after_discount t) + cents (tax t)) &&
  (Z.abs (100 * cents (tax t) - 13 * cents (after_discount t)) <=? 50) &&
  (if 1500 <? cents S then Z.abs (100 * cents (discount t) - 10 * cents S) <=? 50
   else cents (discount t) =? 0).

(** Every subtotal from one cent to fifty dollars, checked by
    evaluation. *)
Lemma receipt_check :
  all_upto (fun s => receipt_ok (float_of_ratio s 100)) 5000 1 = true.
Proof. vm_compute. reflexivity. Qed.

Lemma receipt_check_zero b : receipt_ok (S754_zero b) = true.
Proof. by destruct b; vm_compute. Qed.

(** C21: Up to a subtotal of fifty dollars, the receipt of [main]
    adds up to the cent although every amount is a binary float: the
    amount after discount is the subtotal less the discount, the total is
    that amount plus the tax, the tax is 13% of it and the discount (above
    fifteen dollars) 10% of the subtotal, each rounded to a nearest cent. *)
Theorem receipt_adds_up order :
  finite_nonneg (py_sum (map line_total order)) = true ->
  cents (py_sum (map line_total order)) <= 5000 ->
  let t := calculate_totals order (float_lit 13 2) (float_lit 150 1) (float_lit 10 2) in
  cents (after_discount t) = cents (subtotal t) - cents (discount t) /\
  cents (total t) = cents (after_discount t) + cents (tax t) /\
  Z.abs (100 * cents (tax t) - 13 * cents (after_discount t)) <= 50 /\
  (if 1500 <? cents (subtotal t) then Z.abs (100 * cents (discount t) - 10 * cents (subtotal t)) <= 50
   else cents (discount t) = 0).
Proof.
  intros Hnn Hb t.
  assert (H : receipt_ok (subtotal t) = true).
  { subst t. cbn [calculate_totals totals_of_subtotal subtotal].
    destruct (py_round2_nonneg _ Hnn) as [(b & -> & _)|(Hpos & ->)]; [apply receipt_check_zero|].
    pose proof (all_upto_spec _ _ _ (cents (py_sum (map line_total order))) receipt_check) as Hc.
    apply Hc. change (Z.of_nat 5000) with 5000. lia. }
  unfold receipt_ok in H. cbv zeta in H.
  change main_tax_rate with (float_lit 13 2) in H. change main_threshold with (float_lit 150 1) in H.
  change main_discount_rate with (float_lit 10 2) in H.
  assert (Et : t = totals_of_subtotal (subtotal t) (float_lit 13 2) (float_lit 150 1) (float_lit 10 2))
    by reflexivity.
  rewrite <- Et in H. clearbody t. clear Et.
  rewrite !andb_true_iff, !Z.eqb_eq, !Z.leb_le in H. destruct H as [[[H1 H2] H3] H4].
  split_and!; [lia..|]. destruct (1500 <? cents (subtotal t)); [by apply Z.leb_le|by apply Z.eqb_eq].
Qed.

(** ** Witnesses *)

Definition superscript_two : string := String "178" EmptyString.

Lemma parse_choice_superscript_witness : parse_choice superscript_two build_menu = Raise ValueError.
Proof. apply parse_choice_superscript; reflexivity. Defined.

Lemma parse_choice_number_witness : parse_choice (string_of_N 3) build_menu = Ok (Some "Latte").
Proof. apply (parse_choice_number 3 build_menu); [lia|vm_compute; lia|vm_compute; lia]. Defined.

Lemma add_to_order_ok_witness :
  exists o, add_to_order [] build_menu "Latte" 2 = Ok o /\ order_ok build_menu o.
Proof.
  eexists. split; [reflexivity|].
  eapply (add_to_order_ok build_menu [] "Latte" 2); [split; constructor|lia|reflexivity].
Defined.

(** One latte at 4.50: 13% is 0.585, and the receipt charges 58 cents of
    tax. *)
Lemma receipt_adds_up_witness :
  finite_nonneg (py_sum (map line_total [mk_line "latte" (float_lit 450 2) 1 (float_lit 450 2)])) = true /\
  cents (py_sum (map line_total [mk_line "latte" (float_lit 450 2) 1 (float_lit 450 2)])) <= 5000 /\
  cents (tax (calculate_totals [mk_line "latte" (float_lit 450 2) 1 (float_lit 450 2)]
               (float_lit 13 2) (float_lit 150 1) (float_lit 10 2))) = 58 /\
  Z.abs (100 * cents (tax (calculate_totals [mk_line "latte" (float_lit 450 2) 1 (float_lit 450 2)]
                             (float_lit 13 2) (float_lit 150 1) (float_lit 10 2))) -
         13 * cents (after_discount (calculate_totals [mk_line "latte" (float_lit 450 2) 1 (float_lit 450 2)]
                             (float_lit 13 2) (float_lit 150 1) (float_lit 10 2)))) <= 50.
Proof.
  assert (H1 : finite_nonneg (py_sum (map line_total [mk_line "latte" (float_lit 450 2) 1 (float_lit 450 2)]))
               = true) by (vm_compute; reflexivity).
  assert (H2 : cents (py_sum (map line_total [mk_line "latte" (float_lit 450 2) 1 (float_lit 450 2)])) <= 5000)
    by (vm_compute; discriminate).
  split; [exact H1|]. split; [exact H2|]. split; [vm_compute; reflexivity|].
  exact (proj1 (proj2 (proj2 (receipt_adds_up _ H1 H2)))).
Defined.

Lemma line_total_exact_witness :
  cents (py_round2 (fmul (float_of_Z 1000000) (price (mk_item (float_lit 375 2) "Coffee")))) =
    1000000 * cents (price (mk_item (float_lit 375 2) "Coffee")).
Proof. apply (line_total_exact "Cappuccino"); [reflexivity|lia|vm_compute; reflexivity]. Defined.
