(* ===== verification/CoffeeBasic.v ===== *)
(** * CoffeeBasic: [src/setup/test/coffee_store_basic.py]

    The beginner version of the coffee store: a script at top level, with
    no function, no [try] and no discount.  It greets the customer, shows
    the menu, reads items (by number or by name) and quantities until
    ["quit"], keeps the order as a list of line dicts and a running
    [total], and prints a receipt and a summary of the data types.
    - [Basic.menu], [Basic.menu_lines]: lines 15-27;
    - [Basic.select_item], [Basic.read_qty]: the [isdigit()] checks of
      lines 41-68 (no [try]: [int()] of a superscript digit raises);
    - [Basic.find_and_update], [Basic.update_order]: the [for ... break]
      loop with its [found] flag and the append (lines 76-91);
    - [Basic.add_item]: lines 71-94 on the state [Basic.state] (the order
      list and the running total);
    - [Basic.loop]: the [while True] loop, by structural recursion on the
      input events; every exception leaves the script;
    - [Basic.script]: the whole script, the exception that ended it
      included ([raise SystemExit] when nothing was ordered).
    The order list has a single owner, so its in-place updates are
    modelled as a new list.  Theorems: the order update is the one of the
    advanced store ([CoffeeStore.add_line]), the running total, a sum of
    unrounded products, is the sum of the rounded line totals to the cent
    below [2^53] quarter dollars, and the exceptions that can end the
    script. *)

From S2P Require Import Prelude Json PyFloat FloatExact CoffeeStore.

#[local] Open Scope Z_scope.

Module Basic.

(** Lines 15-21: item name -> price. *)
Definition menu : dict float :=
  [("Espresso", float_lit 250 2); ("Americano", float_lit 300 2); ("Latte", float_lit 350 2);
   ("Cappuccino", float_lit 375 2); ("Tea", float_lit 200 2)].

(** Lines 25-27: [list(menu.items())] numbered from 1. *)
Fixpoint menu_lines (i : N) (menu_items : list (string * float)) : list string :=
  match menu_items with
  | [] => []
  | (name, price) :: rest =>
      (string_of_N i +:+ ". " +:+ name +:+ " - $" +:+ format_2f price) :: menu_lines (i + 1)%N rest
  end.

(** Lines 41-58: the menu item a (stripped) choice selects, or the
    message printed before [continue]; [menu_items] is [list(menu.items())]
    and the names are [menu.keys()]. *)
Definition select_item (menu : dict float) (choice : string) : outcome (string + string) :=
  if py_isdigit choice then
    match py_int choice with
    | None => Raise ValueError
    | Some idx =>
        if (1 <=? idx) && (idx <=? Z.of_nat (List.length menu)) then
          match nth_error menu (Z.to_nat (idx - 1)) with
          | Some (name, _) => Ok (inr name)
          | None => Raise IndexError
          end
        else Ok (inl "That item number is not on the menu. Try again.")
    end
  else
    match List.find (fun name => String.eqb (py_lower choice) (py_lower name)) (dict_keys menu) with
    | Some name => Ok (inr name)
    | None => Ok (inl "Couldn't find that item name. Try again.")
    end.

(** Lines 62-68: the quantity, or the message printed before [continue]. *)
Definition read_qty (qty_input : string) : outcome (string + Z) :=
  if negb (py_isdigit qty_input) then Ok (inl "Please enter a whole number for quantity. Try again.")
  else match py_int qty_input with
       | None => Raise ValueError
       | Some qty => if qty <=? 0 then Ok (inl "Quantity must be at least 1. Try again.") else Ok (inr qty)
       end.

(** Lines 76-82: the first line of the same name (up to case) gets the
    quantity added and its total recomputed, [line["qty"] * line["price"]]
    converting the [int]; [None] when no line matched ([found] stays
    [False]). *)
Fixpoint find_and_update (order : list order_line) (item_name : string) (qty : Z)
  : outcome (option (list order_line)) :=
  match order with
  | [] => Ok None
  | line :: rest =>
      if String.eqb (py_lower (line_name line)) (py_lower item_name) then
        let q := line_qty line + qty in
        (f <- py_int_to_float q ;;
         Ok (Some (mk_line (line_name line) (line_price line) q (py_round2 (fmul f (line_price line))) :: rest)))%py
      else (o <- find_and_update rest item_name qty ;; Ok (option_map (cons line) o))%py
  end.

(** Lines 76-91: the update, or the new line appended. *)
Definition update_order (order : list order_line) (item_name : string) (unit_price : float) (qty : Z)
  (line_total : float) : outcome (list order_line) :=
  (found <- find_and_update order item_name qty ;;
   match found with
   | Some order' => Ok order'
   | None => Ok (order ++ [mk_line item_name unit_price qty (py_round2 line_total)])
   end)%py.

(** The variables the loop updates: [order] and [total]. *)
Record state := mk_state {
  order : list order_line;
  total : float
}.

(** Lines 71-94: [menu[item_name]], [unit_price * qty] (which converts
    [qty] to a float), the order update and [total += line_total]. *)
Definition add_item (st : state) (item_name : string) (qty : Z) : outcome state :=
  (unit_price <- match dict_get menu item_name with Some p => Ok p | None => Raise KeyError end ;;
   f <- py_int_to_float qty ;;
   let line_total := fmul unit_price f in
   order' <- update_order (order st) item_name unit_price qty line_total ;;
   Ok (mk_state order' (fadd (total st) line_total)))%py.

(** Lines 35-95: what is printed, the state, and whether the loop was
    left by [break] or by an exception ([input()] raises [EOFError] at
    the end of the input and [KeyboardInterrupt] on Ctrl-C). *)
Fixpoint loop (st : state) (events : list input_event) : list string * state * outcome unit :=
  match events with
  | [] => ([], st, Raise EOFError)
  | Interrupt :: _ => ([], st, Raise KeyboardInterrupt)
  | Line raw :: rest =>
      let choice := py_strip raw in
      if String.eqb (py_lower choice) "quit" then ([], st, Ok tt)
      else match select_item menu choice with
      | Raise e => ([], st, Raise e)
      | Ok (inl msg) => add_front [msg] (loop st rest)
      | Ok (inr item_name) =>
          match rest with
          | [] => ([], st, Raise EOFError)
          | Interrupt :: _ => ([], st, Raise KeyboardInterrupt)
          | Line q :: rest' =>
              match read_qty (py_strip q) with
              | Raise e => ([], st, Raise e)
              | Ok (inl msg) => add_front [msg] (loop st rest')
              | Ok (inr qty) =>
                  match add_item st item_name qty with
                  | Raise e => ([], st, Raise e)
                  | Ok st' =>
                      add_front ["Added " +:+ string_of_Z qty +:+ " x " +:+ item_name +:+
                                 ". Current subtotal: $" +:+ format_2f (total st')]
                                (loop st' rest')
                  end
              end
          end
      end
  end.

(** [repr()] of a line dict, its keys in insertion order. *)
Definition order_line_repr (l : order_line) : string :=
  "{'name': " +:+ repr_string (line_name l) +:+ ", 'price': " +:+ double_repr (line_price l) +:+
  ", 'qty': " +:+ string_of_Z (line_qty l) +:+ ", 'line_total': " +:+ double_repr (line_total l) +:+ "}".

(** Lines 103-112. *)
Definition receipt (customer_name : string) (order : list order_line) (final_total : float) : list string :=
  [nl +:+ "--- Receipt ---"; "Customer: " +:+ customer_name] ++
  map (fun line => line_name line +:+ " x" +:+ string_of_Z (line_qty line) +:+ " @ $" +:+
                   format_2f (line_price line) +:+ " = $" +:+ format_2f (line_total line)) order ++
  ["Total due: $" +:+ format_2f final_total; "-----------------"].

(** Lines 115-122: [type(...)] of a [str] and of [round(total, 2)], a
    [float]; [order[0]] is the first line. *)
Definition learning_summary (first : order_line) (n : nat) : list string :=
  [nl +:+ "(For learning) Data types and collections:";
   "Type of customer_name: <class 'str'>";
   "Type of final_total: <class 'float'>";
   "Menu keys (item names): [" +:+ join ", " (map repr_string (dict_keys menu)) +:+ "]";
   "Order is a list with " +:+ string_of_N (N.of_nat n) +:+ " distinct items.";
   "First order line (example): " +:+ order_line_repr first;
   nl +:+ "Thank you! Goodbye!"].

(** The whole script: everything printed, and the exception that ended
    it; [raise SystemExit] (line 100) exits with status 0. *)
Definition script (events : list input_event) : list string * outcome unit :=
  let l0 := ["Welcome to the Simple Coffee Store!"] in
  match events with
  | [] => (l0, Raise EOFError)
  | Interrupt :: _ => (l0, Raise KeyboardInterrupt)
  | Line raw :: rest =>
      let customer_name := py_strip raw in
      let shown := l0 ++ ["Hello, " +:+ customer_name; nl +:+ "Today's menu:"] ++ menu_lines 1 menu in
      let '(out, st, o) := loop (mk_state [] fzero) rest in
      match o with
      | Raise e => (shown ++ out, Raise e)
      | Ok _ =>
          match order st with
          | [] => (shown ++ out ++ [nl +:+ "No items ordered. Thank you!"], Raise (SystemExit 0))
          | first :: _ =>
              let final_total := py_round2 (total st) in
              (shown ++ out ++ receipt customer_name (order st) final_total ++
               learning_summary first (List.length (order st)), Ok tt)
          end
      end
  end.

(** ** Properties *)

(** The order's value in quarter dollars: [qty] times the price's
    quarters, summed over the lines. *)
Definition quarters (x : float) : Z := cents x / 25.

Definition order_quarters (o : list order_line) : Z :=
  fold_right (fun l acc => line_qty l * quarters (line_price l) + acc) 0 o.

(** A line holds a positive quantity of a menu item at its menu price,
    and its total is [round(qty * price, 2)]. *)
Definition line_inv (l : order_line) : Prop :=
  dict_get menu (line_name l) = Some (line_price l) /\ 0 < line_qty l /\
  line_total l = py_round2 (fmul (float_of_Z (line_qty l)) (line_price l)).

(** The running total is exact while the order is below [2^53] quarters. *)
Definition inv (st : state) : Prop :=
  Forall line_inv (order st) /\
  (order_quarters (order st) < 2 ^ 53 -> total st = bin (order_quarters (order st)) (-2)).

Lemma menu_price name p : dict_get menu name = Some p -> 0 < quarters p <= 15 /\ p = bin (quarters p) (-2).
Proof.
  intros E%dict_get_In. unfold menu in E.
  destruct E as [E|[E|[E|[E|[E|[]]]]]]; injection E as _ <-; (split; [|vm_compute; reflexivity]);
    match goal with |- context [quarters ?x] => let v := eval vm_compute in (quarters x) in change (quarters x) with v end;
    lia.
Qed.

(** Two menu names equal up to case are the same item. *)
Lemma menu_lower n1 n2 p1 p2 :
  dict_get menu n1 = Some p1 -> dict_get menu n2 = Some p2 -> py_lower n1 = py_lower n2 -> p1 = p2.
Proof.
  intros E1%dict_get_In E2%dict_get_In. unfold menu in E1, E2.
  destruct E1 as [E1|[E1|[E1|[E1|[E1|[]]]]]]; injection E1 as <- <-;
    destruct E2 as [E2|[E2|[E2|[E2|[E2|[]]]]]]; injection E2 as <- <-; try done; vm_compute; discriminate.
Qed.

Lemma update_order_add_line order name p qty f :
  py_int_to_float qty = Ok f -> update_order order name p qty (fmul p f) = add_line order name p qty.
Proof.
  intros Hf. induction order as [|l rest IH]; unfold update_order in *; cbn [find_and_update add_line].
  - by rewrite Hf.
  - case_match; [by destruct (py_int_to_float (line_qty l + qty))|].
    destruct (find_and_update rest name qty) as [[o|]|e]; cbn [obind option_map] in *; by rewrite <- IH.
Qed.

Lemma add_line_inv order name p qty order' :
  Forall line_inv order -> dict_get menu name = Some p -> 0 < qty -> add_line order name p qty = Ok order' ->
  Forall line_inv order' /\ order_quarters order' = order_quarters order + qty * quarters p.
Proof.
  intros Hall Hp Hq. revert order'. induction Hall as [|l rest [Hl [Hlq Hlt]] Hall IH]; intros order'; cbn [add_line].
  - destruct (py_int_to_float qty) eqn:Ef; cbn [obind]; intros E; simplify_eq.
    apply py_int_to_float_ok in Ef as ->. split; [|unfold order_quarters; simpl; lia].
    repeat constructor; [done|simpl; lia|simpl; by rewrite fmul_comm].
  - destruct (String.eqb_spec (py_lower (line_name l)) (py_lower name)) as [Hn|Hn].
    + pose proof (menu_lower _ _ _ _ Hl Hp Hn) as <-.
      destruct (py_int_to_float _) eqn:Ef; cbn [obind]; intros E; simplify_eq.
      apply py_int_to_float_ok in Ef as ->. split; [|unfold order_quarters; simpl; lia].
      constructor; [|done]. split_and!; [done|simpl; lia|done].
    + destruct (add_line rest name p qty) as [o|] eqn:Ea; cbn [obind]; intros E; simplify_eq.
      destruct (IH o eq_refl) as [IHa IHq]. split; [by constructor|].
      unfold order_quarters in *. simpl. lia.
Qed.

Lemma order_quarters_cons l o :
  order_quarters (l :: o) = line_qty l * quarters (line_price l) + order_quarters o.
Proof. reflexivity. Qed.

Lemma order_quarters_nonneg o : Forall line_inv o -> 0 <= order_quarters o.
Proof.
  induction 1 as [|l o [Hl [Hq _]] _ IH]; [done|]. rewrite order_quarters_cons.
  destruct (menu_price _ _ Hl). nia.
Qed.

(** Every line of an order below [2^53] quarters has an exact total, and
    the totals add up to the order's value. *)
Lemma lines_exact o :
  Forall line_inv o -> order_quarters o < 2 ^ 53 ->
  Forall (fun l => cents (line_total l) = line_qty l * cents (line_price l)) o /\
  fold_right (fun l acc => cents (line_total l) + acc) 0 o = 25 * order_quarters o.
Proof.
  induction 1 as [|l o [Hl [Hq Ht]] Hall IH]; [done|]. rewrite order_quarters_cons. cbn [fold_right].
  intros Hb. pose proof (order_quarters_nonneg o Hall).
  destruct (menu_price _ _ Hl) as [Hp Hpb]. set (qp := quarters (line_price l)) in *.
  assert (line_qty l <= line_qty l * qp) by nia.
  assert (Hc : cents (line_total l) = 25 * (line_qty l * qp))
    by (rewrite Ht, Hpb, line_total_quarter, cents_quarter by lia; lia).
  destruct IH as [IHa IHs]; [lia|]. split; [constructor; [|done]|lia].
  rewrite Hc, Hpb, cents_quarter by lia. lia.
Qed.

Lemma read_qty_pos s qty : read_qty s = Ok (inr qty) -> 0 < qty.
Proof. unfold read_qty. repeat case_match; intros E; simplify_eq; lia. Qed.

Lemma inv_init : inv (mk_state [] fzero).
Proof. split; [constructor|done]. Qed.

(** One item added: the invariant holds and the order's value grows. *)
Lemma add_item_inv st name qty st' :
  inv st -> 0 < qty -> add_item st name qty = Ok st' ->
  inv st' /\ order_quarters (order st) <= order_quarters (order st').
Proof.
  intros [Hall Ht] Hq. unfold add_item.
  destruct (dict_get menu name) as [p|] eqn:Hp; [|discriminate]. cbn [obind].
  destruct (py_int_to_float qty) as [f|] eqn:Hf; [|discriminate]. cbn [obind].
  rewrite update_order_add_line by done.
  destruct (add_line (order st) name p qty) as [o|] eqn:Ea; [|discriminate]. cbn [obind].
  intros E. injection E as <-. unfold inv. cbn [order total].
  destruct (add_line_inv _ _ _ _ _ Hall Hp Hq Ea) as [Ho Hk].
  destruct (menu_price _ _ Hp) as [Hqp Hpb]. set (qp := quarters p) in *.
  pose proof (order_quarters_nonneg _ Hall). split; [|nia].
  split; [done|]. intros Hb. rewrite Hk in Hb |- *. rewrite Ht by nia.
  apply py_int_to_float_ok in Hf as ->. rewrite Hpb. change (float_of_Z qty) with (bin qty 0).
  assert (qty <= qty * qp) by nia.
  rewrite fmul_bin by (first [apply exact_int | apply exact_quarter]; lia). change (-2 + 0) with (-2).
  destruct (Z.eq_dec (order_quarters (order st)) 0) as [E0|HK].
  - rewrite E0, fadd_zero_bin by (apply exact_quarter; nia). f_equal. lia.
  - rewrite fadd_bin by (apply exact_quarter; nia). f_equal. lia.
Qed.

(** The invariant along the loop, by induction on the number of input
    events. *)
Lemma loop_inv n events st :
  (List.length events <= n)%nat -> inv st ->
  let '(_, st', _) := loop st events in inv st' /\ order_quarters (order st) <= order_quarters (order st').
Proof.
  revert events st; induction n as [|n IH]; intros events st Hlen Hst.
  { destruct events; [simpl; split; [done|lia]|simpl in Hlen; lia]. }
  destruct events as [|[raw|] rest]; simpl; try (split; [done|lia]).
  destruct (String.eqb _ "quit"); [split; [done|lia]|].
  destruct (select_item menu (py_strip raw)) as [[msg|item]|e]; try (split; [done|lia]).
  - unfold add_front. pose proof (IH rest st) as IH'. destruct (loop st rest) as [[? ?] ?].
    apply IH'; [simpl in Hlen; lia|done].
  - destruct rest as [|[q|] rest']; try (split; [done|lia]).
    destruct (read_qty (py_strip q)) as [[msg|qty]|e] eqn:Hr; try (split; [done|lia]).
    + unfold add_front. pose proof (IH rest' st) as IH'. destruct (loop st rest') as [[? ?] ?].
      apply IH'; [simpl in Hlen; lia|done].
    + destruct (add_item st item qty) as [st1|e] eqn:Ha; [|split; [done|lia]].
      destruct (add_item_inv _ _ _ _ Hst (read_qty_pos _ _ Hr) Ha) as [Hst1 Hle].
      unfold add_front. pose proof (IH rest' st1) as IH'. destruct (loop st1 rest') as [[? ?] ?].
      destruct IH' as [? ?]; [simpl in Hlen; lia|done|]. split; [done|lia].
Qed.

(** C30: The basic script's "Total due" adds up: [total] sums the
    unrounded products [unit_price * qty], yet for every input whose
    order is worth less than [2^53] quarter dollars (over two
    quadrillion dollars), [round(total, 2)] is to the cent the sum of the
    line totals on the receipt, and each line total is its quantity times
    its price. *)
Theorem total_due_adds_up events out st o :
  loop (mk_state [] fzero) events = (out, st, o) -> order_quarters (order st) < 2 ^ 53 ->
  cents (py_round2 (total st)) = fold_right (fun l acc => cents (line_total l) + acc) 0 (order st) /\
  Forall (fun l => cents (line_total l) = line_qty l * cents (line_price l)) (order st).
Proof.
  intros E Hb. pose proof (loop_inv _ events _ (le_n _) inv_init) as H. rewrite E in H.
  destruct H as [[Hall Ht] _]. destruct (lines_exact _ Hall Hb) as [Hl Hs].
  split; [|done]. rewrite Hs, (Ht Hb). pose proof (order_quarters_nonneg _ Hall).
  destruct (Z.eq_dec (order_quarters (order st)) 0) as [->|HK]; [reflexivity|].
  rewrite py_round2_quarter, cents_quarter by lia. done.
Qed.

Lemma select_item_key c name : select_item menu c = Ok (inr name) -> exists p, dict_get menu name = Some p.
Proof.
  intros E. destruct (dict_get menu name) eqn:Hg; [eauto|]. exfalso.
  apply dict_get_None_keys in Hg. apply Hg, list_elem_of_In. revert E. unfold select_item.
  intros E. repeat case_match; simplify_eq.
  - match goal with H : nth_error _ _ = Some _ |- _ => apply nth_error_In, (in_map fst) in H; exact H end.
  - match goal with H : List.find _ _ = Some _ |- _ => apply List.find_some in H as [Hin _] end. done.
Qed.

(** [menu_items[idx - 1]] is in range: only [int()] can raise. *)
Lemma select_item_error c e : select_item menu c = Raise e -> e = ValueError.
Proof.
  unfold select_item. intros E. repeat case_match; simplify_eq; try done.
  match goal with H : nth_error _ _ = None |- _ => apply nth_error_None in H end.
  match goal with H : (_ && _) = true |- _ => apply andb_true_iff in H as [?%Z.leb_le ?%Z.leb_le] end. lia.
Qed.

Lemma read_qty_error s e : read_qty s = Raise e -> e = ValueError.
Proof. unfold read_qty. intros E. by repeat case_match; simplify_eq. Qed.

Lemma add_item_error st name p qty e :
  dict_get menu name = Some p -> add_item st name qty = Raise e -> e = OverflowError.
Proof.
  intros Hp. unfold add_item. rewrite Hp. cbn [obind].
  destruct (py_int_to_float qty) as [f|] eqn:Hf; cbn [obind]; [|intros E; simplify_eq; by eapply py_int_to_float_error].
  rewrite update_order_add_line by done.
  destruct (add_line _ _ _ _) eqn:Ea; cbn [obind]; intros E; simplify_eq. by eapply add_line_error.
Qed.

Lemma loop_outcome n events st :
  (List.length events <= n)%nat ->
  In (snd (loop st events)) [Ok tt; Raise ValueError; Raise EOFError; Raise KeyboardInterrupt; Raise OverflowError].
Proof.
  revert events st; induction n as [|n IH]; intros events st Hlen.
  { destruct events; [simpl; tauto|simpl in Hlen; lia]. }
  destruct events as [|[raw|] rest]; simpl; try tauto.
  destruct (String.eqb _ "quit"); [simpl; tauto|].
  destruct (select_item menu (py_strip raw)) as [[msg|item]|e] eqn:Hs.
  - unfold add_front. pose proof (IH rest st) as IH'. destruct (loop st rest) as [[? ?] ?].
    apply IH'. simpl in Hlen. lia.
  - destruct (select_item_key _ _ Hs) as [p Hp].
    destruct rest as [|[q|] rest']; simpl; try tauto.
    destruct (read_qty (py_strip q)) as [[msg|qty]|e] eqn:Hr.
    + unfold add_front. pose proof (IH rest' st) as IH'. destruct (loop st rest') as [[? ?] ?].
      apply IH'. simpl in Hlen. lia.
    + destruct (add_item st item qty) as [st1|e] eqn:Ha.
      * unfold add_front. pose proof (IH rest' st1) as IH'. destruct (loop st1 rest') as [[? ?] ?].
        apply IH'. simpl in Hlen. lia.
      * rewrite (add_item_error _ _ _ _ _ Hp Ha). simpl; tauto.
    + rewrite (read_qty_error _ _ Hr). simpl; tauto.
  - rewrite (select_item_error _ _ Hs). simpl; tauto.
Qed.

(** C37: The basic script, which has no [try], ends normally after a
    receipt, with [SystemExit] (status 0) when nothing was ordered, or
    with [ValueError] ([int()] of a choice or quantity that passed
    [isdigit()] with a superscript digit), [EOFError] (the input ends),
    [KeyboardInterrupt] (Ctrl-C) or [OverflowError] (a quantity too
    large for a float); never [KeyError] or [IndexError], since it only
    looks up menu names and numbers in range. *)
Theorem script_exceptions events :
  In (snd (script events))
     [Ok tt; Raise (SystemExit 0); Raise ValueError; Raise EOFError; Raise KeyboardInterrupt; Raise OverflowError].
Proof.
  destruct events as [|[raw|] rest]; [simpl; tauto| |simpl; tauto].
  unfold script. cbv zeta.
  pose proof (loop_outcome _ rest (mk_state [] fzero) (le_n _)) as Ho.
  destruct (loop (mk_state [] fzero) rest) as [[out st] o]. cbn [snd] in Ho.
  destruct Ho as [<-|[<-|[<-|[<-|[<-|[]]]]]]; [destruct (order st)|..]; cbn [snd]; simpl; tauto.
Qed.

(** A quantity that passes [isdigit()] with a superscript digit crashes
    the script with [ValueError]. *)
Lemma script_superscript_quantity :
  snd (script [Line "Ed"; Line "1"; Line superscript_two]) = Raise ValueError.
Proof. vm_compute. reflexivity. Qed.

(** ** Witnesses *)

(** Three lattes, two teas, then one more tea by name in capitals. *)
Definition sample_events : list input_event :=
  [Line "3"; Line "3"; Line "tea"; Line "2"; Line "TEA"; Line "1"; Line "quit"].

Lemma total_due_adds_up_witness :
  cents (py_round2 (total (snd (fst (loop (mk_state [] fzero) sample_events))))) = 1650 /\
  cents (py_round2 (total (snd (fst (loop (mk_state [] fzero) sample_events))))) =
  fold_right (fun l acc => cents (line_total l) + acc) 0 (order (snd (fst (loop (mk_state [] fzero) sample_events)))).
Proof.
  split; [vm_compute; reflexivity|].
  apply (proj1 (total_due_adds_up sample_events (fst (fst (loop (mk_state [] fzero) sample_events)))
                  (snd (fst (loop (mk_state [] fzero) sample_events))) (snd (loop (mk_state [] fzero) sample_events))
                  ltac:(vm_compute; reflexivity) ltac:(vm_compute; reflexivity))).
Defined.

End Basic.
