(* ===== verification/Scripts.v ===== *)
(** * Scripts: the single-shot prompt scripts of workshop 1

    [exercise1.py], [exercise2.py], [exercise3.py], [exercise4.py],
    [exercise6.py] and [exercise6_enhanced.py] are module-level scripts:
    they build a request, call [client.chat.completions.create], and print
    [response.choices[0].message.content]; [exercise3.py] does so in a
    [while True] loop over [input()], [exercise4.py] keeps a two-turn
    conversation, and [exercise6_enhanced.py] parses the reply with
    [json.loads] and prints it with [json.dumps(result, indent=2)].

    The scripts are written here in a state and exception monad [M]
    (notation [x <- m ;; k] in [script_scope]) over a [console]: the lines
    printed so far, the requests sent so far, and the input events not yet
    read.  The client is the oracle [api : nat -> request -> api_result]
    (the [n]-th call with its request), the parameter of the Section; a
    failed call raises [APIError], which none of these scripts catches.
    A [request] keeps what the scripts pass besides the deployment name:
    the messages, [temperature], [max_tokens] and [response_format]. *)

From S2P Require Import Prelude Json JsonIndent Conversation ChatLoop PyFloat.

(** ** Requests *)

Record request := mk_request {
  req_messages : list message;
  req_temperature : option float;      (** [None]: not passed *)
  req_max_tokens : option Z;
  req_json_object : bool               (** [response_format={"type": "json_object"}] *)
}.

Definition client : Type := nat -> request -> api_result.

(** ** The console monad *)

Record console := mk_console {
  stdout : list string;          (** the lines printed, in order *)
  requests : list request;       (** the requests sent, in order *)
  stdin : list input_event       (** the input not yet read *)
}.

Definition M (A : Type) : Type := console -> console * outcome A.

Definition ret {A} (a : A) : M A := fun c => (c, Ok a).

Definition bind {A B} (m : M A) (k : A -> M B) : M B :=
  fun c => match m c with
           | (c', Ok a) => k a c'
           | (c', Raise e) => (c', Raise e)
           end.

Declare Scope script_scope.
Delimit Scope script_scope with script.
Notation "x <- m ;; k" := (bind m (fun x => k))
  (at level 100, m at next level, right associativity) : script_scope.
Notation "m ;; k" := (bind m (fun _ => k))
  (at level 100, right associativity) : script_scope.
#[local] Open Scope script_scope.

Definition raise {A} (e : py_exn) : M A := fun c => (c, Raise e).

(** [print(s)] *)
Definition print (s : string) : M unit :=
  fun c => (mk_console (stdout c ++ [s]) (requests c) (stdin c), Ok tt).

(** [input(prompt)]: the prompt is not part of [stdout]. *)
Definition input : M string :=
  fun c => match stdin c with
           | [] => (c, Raise EOFError)
           | Interrupt :: rest => (mk_console (stdout c) (requests c) rest, Raise KeyboardInterrupt)
           | Line s :: rest => (mk_console (stdout c) (requests c) rest, Ok s)
           end.

(** The number of input events left, read by loops to size their fuel. *)
Definition pending_input : M nat := fun c => (c, Ok (List.length (stdin c))).

Section Client.
Variable api : client.

(** [client.chat.completions.create(...)]: the request is sent, whatever
    the answer. *)
Definition create (r : request) : M completion :=
  fun c =>
    let c' := mk_console (stdout c) (requests c ++ [r]) (stdin c) in
    match api (List.length (requests c)) r with
    | ApiOk x => (c', Ok x)
    | ApiError => (c', Raise APIError)
    end.

(** [response.choices[0].message.content] *)
Definition completion_content (r : request) : M (option string) :=
  response <- create r ;; ret (resp_content response).

(** ** [exercise1.py] *)

Definition ex1_user_problem : string := "My computer won't turn on".

Definition exercise1 : M unit :=
  result <- completion_content (mk_request [MUser ex1_user_problem] None None false) ;;
  print ("User: " +:+ ex1_user_problem) ;;
  print ("AI: " +:+ content_str result).

(** ** [exercise2.py] *)

Definition it_specialist_prompt : string :=
  "You are an experienced IT support specialist. " +:+
  "Provide clear, step-by-step solutions. " +:+
  "Be patient and thorough.".

(** [temperature=0.1] *)
Definition low_temperature : float := float_lit 1 1.

(** [improved_it_support(problem)] of [exercise2.py], with the token
    limit as a parameter: 100 there, 500 in [exercise6.py]
    ([improved_it_support6]). *)
Definition improved_it_support (max_tokens : Z) (problem : string) : M (option string) :=
  completion_content
    (mk_request [MSystem it_specialist_prompt; MUser problem] (Some low_temperature) (Some max_tokens) false).

Definition exercise2 : M unit :=
  let user_problem := ex1_user_problem in
  result <- improved_it_support 100%Z user_problem ;;
  print ("User: " +:+ user_problem) ;;
  print ("AI: " +:+ content_str result).

(** ** [exercise4.py]: two turns of one conversation *)

Definition ex4_system : string := "You are an IT support specialist. Ask clarifying questions.".
Definition ex4_first : string := "My computer is slow".
Definition ex4_second : string := "It started after Windows update".

(** One turn: append the user message, print it, call the model on the
    whole list, print the reply and append it. *)
Definition ex4_turn (messages : list message) (user_message : string) : M (list message) :=
  let messages := messages ++ [MUser user_message] in
  print ("User: " +:+ user_message) ;;
  result <- completion_content (mk_request messages None None false) ;;
  print ("AI: " +:+ content_str result) ;;
  ret (messages ++ [MAssistant result]).

Definition exercise4 : M (list message) :=
  print "Hello, how can I help you? " ;;
  messages <- ex4_turn [MSystem ex4_system] ex4_first ;;
  ex4_turn messages ex4_second.

(** ** [exercise3.py]: a loop of independent questions *)

(** [basic_it_support(problem)]: one user message, [max_tokens=50]. *)
Definition basic_it_support (problem : string) : M (option string) :=
  completion_content (mk_request [MUser problem] None (Some 50%Z) false).

(** The test of line 28:
    [user_input and len(user_input.strip())>0 and user_input.lower() != "quit"]. *)
Definition ex3_continues (user_input : string) : bool :=
  negb (String.eqb user_input "") && (0 <? String.length (py_strip user_input))%nat &&
  negb (String.eqb (py_lower user_input) "quit").

(** Lines 26-32.  Every iteration reads one input event, so [fuel]
    above the number of events left is never exhausted ([ex3_loop_fuel]). *)
Fixpoint ex3_loop (fuel : nat) : M unit :=
  match fuel with
  | O => ret tt
  | S f =>
      user_input <- input ;;
      if ex3_continues user_input then
        result <- basic_it_support user_input ;;
        print ("AI: " +:+ content_str result) ;;
        ex3_loop f
      else ret tt
  end.

Definition exercise3 : M unit :=
  print "Hello, how can I help you? (type 'quit' to exist.)" ;;
  n <- pending_input ;;
  ex3_loop (S n) ;;
  print "AI: bye.".

(** ** [exercise6.py] and [exercise6_enhanced.py]: structured extraction *)

(** [qt s] is [s] with every backquote replaced by a double quote.  The
    prompt lines below are the scripts' text with a backquote written for
    each double quote, which a Rocq string can only hold doubled; the
    prompts contain no backquote of their own. *)
Fixpoint qt (s : string) : string :=
  match s with
  | EmptyString => EmptyString
  | String c r => String (if Ascii.eqb c "`" then "034"%char else c) (qt r)
  end.

Definition ex6_user_problem : string :=
  "Customer's iPhone 12 has cracked screen. Happened yesterday (2025-11-20) when dropped. " +:+
  "Touch still works but display shows lines. Customer needs it by Friday.".

(** The schema block of the prompt; [number] is how the two scripts
    write the type of the cost and hours. *)
Definition repair_schema (number : string) : string :=
  concat nl (map qt [
    "{";
    "    `device`: {";
    "        `brand`: `string`,";
    "        `model`: `string`,";
    "        `type`: `phone|laptop|tablet|desktop`";
    "    },";
    "    `damage`: {";
    "        `primary_issue`: `string`,";
    "        `symptoms`: [`list of symptoms`],";
    "        `cause`: `string`,";
    "        `date_occurred`: `YYYY-MM-DD`";
    "    },";
    "    `repair`: {";
    "        `complexity`: `simple|moderate|complex`,";
    "        `parts_needed`: [`list`],";
    "        `estimated_cost`: " +:+ number +:+ ",";
    "        `estimated_hours`: " +:+ number;
    "    },";
    "    `urgency`: {";
    "        `priority`: `low|medium|high|urgent`,";
    "        `deadline`: `YYYY-MM-DD or null`";
    "    }";
    "}"]).

(** The f-string of lines 45-74 (exercise6) and 43-72 (exercise6_enhanced),
    with [{{] and [}}] printed as single braces; the two scripts differ in
    the heading of the structure and in quoting [number]. *)
Definition repair_prompt (heading number : string) (user_problem : string) : string :=
  nl +:+ "Extract repair information and format as JSON:" +:+ nl +:+ nl +:+
  qt "Description: `" +:+ user_problem +:+ qt "`" +:+ nl +:+ nl +:+
  heading +:+ nl +:+
  repair_schema number +:+ nl.

Definition ex6_prompt : string := repair_prompt "Schema:" "number" ex6_user_problem.

(** [improved_it_support(problem)] of [exercise6.py]: exercise2's request
    with [max_tokens=500]. *)
Definition improved_it_support6 (problem : string) : M (option string) :=
  improved_it_support 500%Z problem.

Definition exercise6 : M unit :=
  result <- improved_it_support6 ex6_prompt ;;
  print ("User: " +:+ ex6_user_problem) ;;
  print ("AI: " +:+ content_str result).

Definition ex6e_prompt : string :=
  repair_prompt "Return this JSON structure:" "`number`" ex6_user_problem.

Definition json_only_prompt : string :=
  "You are an experienced IT support specialist. " +:+
  "Extract repair information and return valid JSON only. " +:+
  "Do not include any text outside the JSON object.".

(** [json.loads(result_text)]: [None] is not a string ([TypeError]). *)
Definition loads_content (result_text : option string) : M json :=
  fun c => match result_text with
           | None => (c, Raise TypeError)
           | Some t => (c, loads t)
           end.

(** [improved_it_support_json(problem)] of [exercise6_enhanced.py]. *)
Definition improved_it_support_json (problem : string) : M json :=
  result_text <- completion_content
    (mk_request [MSystem json_only_prompt; MUser problem] (Some low_temperature) (Some 1000%Z) true) ;;
  loads_content result_text.

Definition exercise6_enhanced : M unit :=
  result <- improved_it_support_json ex6e_prompt ;;
  print ("User: " +:+ ex6_user_problem +:+ nl) ;;
  print "AI Response (as JSON):" ;;
  print (dumps_indent 2 result).

End Client.

(** ** The monad *)

Lemma bind_ret_l {A B} (a : A) (k : A -> M B) c : bind (ret a) k c = k a c.
Proof. done. Qed.

Lemma bind_ret_r {A} (m : M A) c : bind m ret c = m c.
Proof. unfold bind. by destruct (m c) as [? []]. Qed.

Lemma bind_assoc {A B C} (m : M A) (k : A -> M B) (h : B -> M C) c :
  bind (bind m k) h c = bind m (fun a => bind (k a) h) c.
Proof. unfold bind. by destruct (m c) as [? []]. Qed.

Lemma bind_print {A} s (k : unit -> M A) c :
  bind (print s) k c = k tt (mk_console (stdout c ++ [s]) (requests c) (stdin c)).
Proof. done. Qed.

(** A request with the messages only, as exercise1 and exercise4 send. *)
Definition plain (ms : list message) : request := mk_request ms None None false.

(** Runs a script symbolically: unfolds the monad and its primitives. *)
Ltac run_script :=
  cbv beta iota zeta delta [bind ret print input create completion_content raise pending_input loads_content];
  cbn [stdout requests stdin List.length].

(** ** Properties *)

Section Exercise4.
Variable api : client.

Definition ex4_ms1 : list message := [MSystem ex4_system; MUser ex4_first].

Lemma exercise4_unfold c :
  exercise4 api c =
  let n := List.length (requests c) in
  let hello := "Hello, how can I help you? " in
  match api n (plain ex4_ms1) with
  | ApiError =>
      (mk_console (stdout c ++ [hello; "User: " +:+ ex4_first]) (requests c ++ [plain ex4_ms1]) (stdin c),
       Raise APIError)
  | ApiOk r1 =>
      let ms2 := ex4_ms1 ++ [MAssistant (resp_content r1); MUser ex4_second] in
      let out1 := [hello; "User: " +:+ ex4_first; "AI: " +:+ content_str (resp_content r1);
                   "User: " +:+ ex4_second] in
      match api (S n) (plain ms2) with
      | ApiError =>
          (mk_console (stdout c ++ out1) (requests c ++ [plain ex4_ms1; plain ms2]) (stdin c), Raise APIError)
      | ApiOk r2 =>
          (mk_console (stdout c ++ out1 ++ ["AI: " +:+ content_str (resp_content r2)])
                      (requests c ++ [plain ex4_ms1; plain ms2]) (stdin c),
           Ok (ms2 ++ [MAssistant (resp_content r2)]))
      end
  end.
Proof.
  unfold exercise4, ex4_turn. run_script. rewrite <- !app_assoc. cbn [app].
  destruct (api _ _) as [r1|]; [|done]. cbn [stdout requests stdin].
  rewrite length_app, Nat.add_1_r.
  destruct (api _ _); cbn [stdout requests stdin]; rewrite <- ?app_assoc; reflexivity.
Qed.

(** C32: [exercise4.py] keeps one conversation: the second request is the
    first with the model's first reply and the second question appended,
    every conversation sent and the one the script ends with is accepted
    by the spec's message log with no call pending, and the only exception
    is the client's. *)
Theorem exercise4_conversation c :
  let '(c', res) := exercise4 api c in
  exists sent, requests c' = requests c ++ sent /\
    Forall (fun r => MessageLog.accepts (req_messages r) []) sent /\
    match res with
    | Ok ms => MessageLog.accepts ms [] /\
        exists r1, api (List.length (requests c)) (plain ex4_ms1) = ApiOk r1 /\
          map req_messages sent = [ex4_ms1; ex4_ms1 ++ [MAssistant (resp_content r1); MUser ex4_second]]
    | Raise e => e = APIError
    end.
Proof.
  rewrite exercise4_unfold. cbv zeta.
  destruct (api _ _) as [r1|]; [destruct (api _ _) as [r2|]|]; eexists; (split; [done|]);
    repeat constructor; eauto.
Qed.

End Exercise4.

Section Exercise3.
Variable api : client.

(** The loop of [exercise3.py] by structural recursion on the input
    events: the reference the fuelled loop is checked against. *)
Fixpoint ex3_ref (events : list input_event) : M unit :=
  match events with
  | [] => input ;; ret tt
  | _ :: rest =>
      user_input <- input ;;
      if ex3_continues user_input then
        result <- basic_it_support api user_input ;;
        print ("AI: " +:+ content_str result) ;;
        ex3_ref rest
      else ret tt
  end.

Lemma ex3_loop_ref f c :
  List.length (stdin c) < f -> ex3_loop api f c = ex3_ref (stdin c) c.
Proof.
  revert c. induction f as [|f IH]; intros c Hf; [lia|].
  destruct c as [out reqs [|ev rest]]; cbn [stdin] in *; [done|].
  cbn [ex3_loop ex3_ref]. unfold bind, input. cbn [stdin stdout requests].
  destruct ev as [l|]; [|done].
  destruct (ex3_continues l); [|done].
  unfold basic_it_support, completion_content, create, bind, ret, print. cbn [stdout requests stdin].
  destruct (api _ _); [|done]. apply IH. cbn. simpl in Hf. lia.
Qed.

Definition ex3_banner : string := "Hello, how can I help you? (type 'quit' to exist.)".

(** The request [basic_it_support(line)] sends. *)
Definition ex3_request (l : string) : request := mk_request [MUser l] None (Some 50%Z) false.

(** [exercise3.py]'s [while True] loop, run with the fuel the model gives
    it, computes exactly the loop written by structural recursion on the
    input: the fuel never runs out. *)
Theorem exercise3_reference c :
  exercise3 api c = (print ex3_banner ;; ex3_ref (stdin c) ;; print "AI: bye.") c.
Proof.
  unfold exercise3, ex3_banner. unfold bind at 1 4. cbn [print stdout requests stdin].
  unfold bind at 1, pending_input. cbn [stdin]. unfold bind. rewrite ex3_loop_ref; cbn; [done|lia].
Qed.

(** Lines that continue the loop, when every call is answered: one
    request and one printed answer per line, in order. *)
Lemma ex3_ref_prefix ls tail c :
  Forall (fun l => ex3_continues l = true) ls -> (forall n r, api n r <> ApiError) ->
  stdin c = map Line ls ++ tail ->
  exists replies, List.length replies = List.length ls /\
    ex3_ref (stdin c) c =
    ex3_ref tail (mk_console (stdout c ++ map (fun t => "AI: " +:+ content_str t) replies)
                             (requests c ++ map ex3_request ls) tail).
Proof.
  intros Hls Hapi. revert c. induction Hls as [|l ls Hl Hls IH]; intros [out reqs evs] Hin; cbn in Hin; subst evs.
  { exists []. by rewrite !app_nil_r. }
  cbn [stdin ex3_ref map app]. unfold bind, input. cbn [stdin stdout requests]. rewrite Hl.
  unfold basic_it_support, completion_content, create, bind, ret, print. cbn [stdout requests stdin].
  destruct (api _ _) as [r|] eqn:E; [|by destruct (Hapi _ _ E)].
  cbn [stdout requests stdin]. change (mk_request [MUser l] None (Some 50%Z) false) with (ex3_request l).
  destruct (IH (mk_console (out ++ ["AI: " +:+ content_str (resp_content r)])
                           (reqs ++ [ex3_request l]) (map Line ls ++ tail))) as (replies & Hlen & E2); [done|].
  cbn [stdin stdout requests] in E2. rewrite E2.
  exists (resp_content r :: replies). cbn. split; [lia|]. by rewrite <- !app_assoc.
Qed.

(** C33: [exercise3.py] honours its exit: when the model answers every
    call, the lines before the first blank or ["quit"] line (in any case)
    are each sent once, alone and unstripped, and answered in order, and
    then ["AI: bye."] is printed and the rest of the input is left unread;
    when the input ends first, [input()] raises [EOFError] and the
    farewell is not printed. *)
Theorem exercise3_exit_honoured c ls q rest :
  Forall (fun l => ex3_continues l = true) ls -> (forall n r, api n r <> ApiError) ->
  (ex3_continues q = false ->
   stdin c = map Line ls ++ Line q :: rest ->
   exists replies, List.length replies = List.length ls /\
     exercise3 api c =
     (mk_console (stdout c ++ [ex3_banner] ++ map (fun t => "AI: " +:+ content_str t) replies ++ ["AI: bye."])
                 (requests c ++ map ex3_request ls) rest, Ok tt)) /\
  (stdin c = map Line ls ->
   exists replies, List.length replies = List.length ls /\
     exercise3 api c =
     (mk_console (stdout c ++ [ex3_banner] ++ map (fun t => "AI: " +:+ content_str t) replies)
                 (requests c ++ map ex3_request ls) [], Raise EOFError)).
Proof.
  intros Hls Hapi. split.
  - intros Hq Hin. rewrite exercise3_reference, bind_print.
    destruct (ex3_ref_prefix ls (Line q :: rest) (mk_console (stdout c ++ [ex3_banner]) (requests c) (stdin c)))
      as (replies & Hlen & E); [done..|].
    exists replies. split; [done|]. cbn [stdin] in E. unfold bind at 1. rewrite E.
    cbn. rewrite Hq. unfold print, ret. cbn. by rewrite <- !app_assoc.
  - intros Hin. rewrite exercise3_reference, bind_print.
    destruct (ex3_ref_prefix ls [] (mk_console (stdout c ++ [ex3_banner]) (requests c) (stdin c)))
      as (replies & Hlen & E); [done|done|by rewrite app_nil_r|].
    exists replies. split; [done|]. cbn [stdin] in E. unfold bind at 1. rewrite E.
    cbn. rewrite <- !app_assoc. reflexivity.
Qed.

End Exercise3.

Section Exercise6.
Variable api : client.

(** The request of [improved_it_support_json(problem)]. *)
Definition json_request (problem : string) : request :=
  mk_request [MSystem json_only_prompt; MUser problem] (Some low_temperature) (Some 1000%Z) true.

Lemma improved_it_support_json_unfold problem c :
  improved_it_support_json api problem c =
  let c' := mk_console (stdout c) (requests c ++ [json_request problem]) (stdin c) in
  match api (List.length (requests c)) (json_request problem) with
  | ApiError => (c', Raise APIError)
  | ApiOk r => match resp_content r with None => (c', Raise TypeError) | Some t => (c', loads t) end
  end.
Proof.
  unfold improved_it_support_json. run_script. fold (json_request problem).
  destruct (api _ _) as [r|]; [|done]. cbn. by destruct (resp_content r).
Qed.

(** C34: [improved_it_support_json] always sends its request, and raises
    exactly in three cases: the client fails ([APIError]), the reply has
    no content ([json.loads(None)] raises [TypeError]), or the content is
    not JSON ([JSONDecodeError]). *)
Theorem improved_it_support_json_errors problem c e :
  requests (improved_it_support_json api problem c).1 = requests c ++ [json_request problem] /\
  (snd (improved_it_support_json api problem c) = Raise e <->
   (e = APIError /\ api (List.length (requests c)) (json_request problem) = ApiError) \/
   (exists r, api (List.length (requests c)) (json_request problem) = ApiOk r /\
      ((e = TypeError /\ resp_content r = None) \/
       (e = JSONDecodeError /\ exists t, resp_content r = Some t /\ loads t = Raise JSONDecodeError)))).
Proof.
  rewrite improved_it_support_json_unfold. cbv zeta.
  destruct (api _ _) as [r|]; [destruct (resp_content r) as [t|] eqn:Ec|]; (split; [done|]); cbn.
  - destruct (loads t) as [v|e'] eqn:El.
    + split; [done|]. intros [[_ ?]|(r' & [= <-] & [[_ ?]|(_ & t' & Et & Ht)])]; congruence.
    + pose proof (loads_error _ _ El) as ->. split.
      * intros [= <-]. right. eauto 10.
      * intros [[_ ?]|(r' & [= <-] & [[_ ?]|(-> & t' & Et & Ht)])]; congruence.
  - split.
    + intros [= <-]. right. eauto.
    + intros [[_ ?]|(r' & [= <-] & [[-> _]|(_ & t' & Et & _)])]; congruence.
  - split; [intros [= <-]; by left|]. intros [[-> _]|(r' & ? & _)]; congruence.
Qed.

(** C35: the [-> dict] annotation of [improved_it_support_json] is not
    checked: whatever JSON value the reply's text holds (a list, a string,
    a number as well as a dict), the function returns exactly
    [json.loads] of it, after sending its one request, and the value is a
    dict exactly when the text opens with a brace. *)
Theorem improved_it_support_json_type problem c r t v :
  api (List.length (requests c)) (json_request problem) = ApiOk r -> resp_content r = Some t ->
  loads t = Ok v ->
  improved_it_support_json api problem c =
    (mk_console (stdout c) (requests c ++ [json_request problem]) (stdin c), Ok v) /\
  is_obj v = opens_object t.
Proof.
  intros Ha Hc Hl. rewrite improved_it_support_json_unfold. cbv zeta. rewrite Ha, Hc, Hl.
  split; [done|]. by apply loads_is_obj.
Qed.

(** C36: what [exercise6_enhanced.py] prints as the AI response is
    [json.dumps(result, indent=2)], and it reads back with [json.loads]
    to the very value of the model's reply. *)
Theorem exercise6_enhanced_prints_reply c c' :
  exercise6_enhanced api c = (c', Ok tt) ->
  exists r t v, api (List.length (requests c)) (json_request ex6e_prompt) = ApiOk r /\
    resp_content r = Some t /\ loads t = Ok v /\
    stdout c' = stdout c ++ ["User: " +:+ ex6_user_problem +:+ nl; "AI Response (as JSON):"; dumps_indent 2 v] /\
    loads (dumps_indent 2 v) = loads t.
Proof.
  unfold exercise6_enhanced. unfold bind at 1. rewrite improved_it_support_json_unfold. cbv zeta.
  destruct (api _ _) as [r|]; [|done]. destruct (resp_content r) as [t|] eqn:Ec; [|done].
  destruct (loads t) as [v|] eqn:El; [|done]. intros [= <-].
  exists r, t, v. split_and!; [done..| |].
  - cbn. by rewrite <- !app_assoc.
  - rewrite El. apply loads_dumps_indent. by eapply loads_wf.
Qed.

(** The schema of [exercise6_enhanced.py]'s prompt is a JSON object with
    the four sections, while [exercise6.py]'s, with [number] unquoted, is
    not JSON. *)
Lemma repair_schema_json :
  (exists kvs, loads (repair_schema "`number`") = Ok (JObj kvs) /\
     map fst kvs = ["device"; "damage"; "repair"; "urgency"]) /\
  loads (repair_schema "number") = Raise JSONDecodeError.
Proof. split; [eexists; split; vm_compute; reflexivity|vm_compute; reflexivity]. Qed.

End Exercise6.

Section SingleShot.
Variable api : client.

(** What a script that asks one question does: on a reply it prints the
    question and the answer; on a failed call it prints nothing. *)
Definition asks_once (script : M unit) (req : request) (question : string) (c : console) : Prop :=
  match api (List.length (requests c)) req with
  | ApiOk r =>
      script c = (mk_console (stdout c ++ ["User: " +:+ question; "AI: " +:+ content_str (resp_content r)])
                             (requests c ++ [req]) (stdin c), Ok tt)
  | ApiError => script c = (mk_console (stdout c) (requests c ++ [req]) (stdin c), Raise APIError)
  end.

(** [exercise1.py], [exercise2.py] and [exercise6.py] each make
    exactly one call, with their own messages, temperature and token
    limit, then print the question and the answer (["None"] for a reply
    without content); a failed call raises [APIError] before anything is
    printed.  [exercise6.py] sends the whole extraction prompt but prints
    only the description as the user's line. *)
Theorem single_shot_scripts c :
  asks_once (exercise1 api) (plain [MUser ex1_user_problem]) ex1_user_problem c /\
  asks_once (exercise2 api)
    (mk_request [MSystem it_specialist_prompt; MUser ex1_user_problem] (Some low_temperature) (Some 100%Z) false)
    ex1_user_problem c /\
  asks_once (exercise6 api)
    (mk_request [MSystem it_specialist_prompt; MUser ex6_prompt] (Some low_temperature) (Some 500%Z) false)
    ex6_user_problem c.
Proof.
  unfold asks_once, exercise1, exercise2, exercise6, improved_it_support6, improved_it_support.
  split_and!; run_script; (destruct (api _ _); [|done]); cbn; by rewrite <- app_assoc.
Qed.

End SingleShot.

(** ** Concrete runs *)

(** A client that answers every request with [content]. *)
Definition answering_client (content : string) : client :=
  fun _ _ => ApiOk (mk_completion (Some content) None).

(** A line with a blank before ["quit"] is not the exit command: it is
    sent to the model, and the next line ["QUIT"] ends the loop. *)
Lemma exercise3_exit_honoured_witness :
  ex3_continues " quit" = true /\
  exists replies, List.length replies = 1 /\
    exercise3 (answering_client "ok") (mk_console [] [] [Line " quit"; Line "QUIT"; Line "later"]) =
    (mk_console ([] ++ [ex3_banner] ++ map (fun t => "AI: " +:+ content_str t) replies ++ ["AI: bye."])
                ([] ++ map ex3_request [" quit"]) [Line "later"], Ok tt).
Proof.
  split; [reflexivity|].
  apply (proj1 (exercise3_exit_honoured (answering_client "ok")
                  (mk_console [] [] [Line " quit"; Line "QUIT"; Line "later"]) [" quit"] "QUIT" [Line "later"]
                  (List.Forall_cons _ " quit" _ eq_refl (List.Forall_nil _)) (fun n r => ltac:(discriminate)))); reflexivity.
Defined.

(** A reply holding a JSON list: [improved_it_support_json], annotated to
    return a dict, returns the list. *)
Lemma improved_it_support_json_type_witness :
  improved_it_support_json (answering_client "[1, 2]") "x" (mk_console [] [] []) =
    (mk_console [] [json_request "x"] [], Ok (JArr [JInt 1; JInt 2])) /\
  is_obj (JArr [JInt 1; JInt 2]) = false.
Proof.
  exact (improved_it_support_json_type (answering_client "[1, 2]") "x" (mk_console [] [] [])
           (mk_completion (Some "[1, 2]") None) "[1, 2]" (JArr [JInt 1; JInt 2])
           ltac:(reflexivity) ltac:(reflexivity) ltac:(vm_compute; reflexivity)).
Defined.

(** A reply holding a JSON object is printed indented and reads back. *)
Lemma exercise6_enhanced_prints_reply_witness :
  let api := answering_client (qt "{`device`: {`brand`: `Apple`}, `parts_needed`: [`screen`]}") in
  exists c', exercise6_enhanced api (mk_console [] [] []) = (c', Ok tt) /\
  exists r t v, api 0 (json_request ex6e_prompt) = ApiOk r /\
    resp_content r = Some t /\ loads t = Ok v /\
    stdout c' = [] ++ ["User: " +:+ ex6_user_problem +:+ nl; "AI Response (as JSON):"; dumps_indent 2 v] /\
    loads (dumps_indent 2 v) = loads t.
Proof.
  intros api.
  assert (H : exercise6_enhanced api (mk_console [] [] []) = ((exercise6_enhanced api (mk_console [] [] [])).1, Ok tt))
    by (vm_compute; reflexivity).
  eexists. split; [exact H|]. exact (exercise6_enhanced_prints_reply _ _ _ H).
Defined.
