(* ===== verification/Cli.v ===== *)
(** * Cli: the console entry points of exercise7 and exercise8

    [main] of [exercise7.py] (lines 278-306) and of [exercise8_advanced.py]
    (lines 245-273) print a banner, read the incident description, a
    temperature and a token limit with [input().strip()], fall back to
    the defaults ([0.2] and [200]) on an empty answer or on the
    [ValueError] of [float()] or [int()], and call the workflow.  They are
    written in the console monad of [Scripts]; the workflows are the
    models of [Triage] and [Orchestration], whose clients may depend on
    the settings read.

    [py_float_of_string] is CPython's [float()] on a [str]
    ([PyFloat_FromString]): non-ASCII characters are transformed as
    [_PyUnicode_TransformDecimalAndSpaceToASCII] does, underscores are
    checked and removed as [_Py_string_to_number_with_underscores] does,
    ASCII blanks are stripped, and the rest must be one decimal number
    ([_Py_dg_strtod]) or an infinity or NaN ([_Py_parse_inf_or_nan]).
    The value is kept as the exact decimal, like the JSON numbers of
    [Json]: rounding to binary64 is not modelled, since the temperature is
    only handed to the client. *)

From S2P Require Import Prelude Json Conversation Tools Orchestration Triage Scripts.

#[local] Open Scope script_scope.

(** ** [float()] of a string *)

(** [_PyUnicode_TransformDecimalAndSpaceToASCII]: ASCII below 127 kept,
    other whitespace made a space, anything else ends the text with a
    ['?'] (Latin-1 has no decimal digit outside ASCII). *)
Fixpoint to_ascii_text (s : string) : string :=
  match s with
  | EmptyString => EmptyString
  | String c r =>
      if (N_of_ascii c <? 127)%N then String c (to_ascii_text r)
      else if py_isspace c then String " " (to_ascii_text r)
      else String "?" EmptyString
  end.

(** [_Py_string_to_number_with_underscores]: an underscore must follow
    and precede a digit; the underscores are dropped.  [prev] is the
    previous character, NUL at the start. *)
Fixpoint remove_underscores (prev : ascii) (s : string) : option string :=
  match s with
  | EmptyString => if Ascii.eqb prev "_" then None else Some EmptyString
  | String c r =>
      if Ascii.eqb c "_" then
        if is_ascii_digit prev then remove_underscores c r else None
      else if Ascii.eqb prev "_" && negb (is_ascii_digit c) then None
      else option_map (String c) (remove_underscores c r)
  end.

(** [Py_ISSPACE]: the C locale's blanks. *)
Definition is_c_space (c : ascii) : bool :=
  let n := N_of_ascii c in (n =? 32)%N || ((9 <=? n)%N && (n <=? 13)%N).

Fixpoint lstrip_c (s : string) : string :=
  match s with
  | String c r => if is_c_space c then lstrip_c r else s
  | EmptyString => EmptyString
  end.

Definition strip_c (s : string) : string := string_rev (lstrip_c (string_rev (lstrip_c s))).

(** An optional sign. *)
Definition read_sign (s : string) : Z * string :=
  match s with
  | String "-" r => (-1, r)%Z
  | String "+" r => (1, r)%Z
  | _ => (1%Z, s)
  end.

(** The exponent after the digits: ['e'] or ['E'], a sign, at least one
    digit; without a digit nothing is read. *)
Definition read_exponent (s : string) : Z * string :=
  match s with
  | String c r =>
      if Ascii.eqb c "e" || Ascii.eqb c "E" then
        let '(sg, r1) := read_sign r in
        let '(n, k, r2) := read_digits_count r1 0 0 in
        if (k =? 0)%nat then (0%Z, s) else ((sg * Z.of_N n)%Z, r2)
      else (0%Z, s)
  | EmptyString => (0%Z, s)
  end.

(** [_Py_dg_strtod]: sign, digits, an optional point and digits, at least
    one digit, an optional exponent; the value and what follows. *)
Definition read_decimal (s : string) : option (py_float * string) :=
  let '(sg, s1) := read_sign s in
  let '(i, ki, s2) := read_digits_count s1 0 0 in
  let '(f, kf, s3) := match s2 with
                      | String "." r => read_digits_count r 0 0
                      | _ => (0%N, 0, s2)
                      end in
  if (ki + kf =? 0)%nat then None
  else
    let '(e, s4) := read_exponent s3 in
    Some (FDec (sg * Z.of_N (i * 10 ^ N.of_nat kf + f)) (e - Z.of_nat kf), s4).

(** [Py_TOLOWER]: ASCII letters only. *)
Definition ascii_lower (c : ascii) : ascii :=
  let n := N_of_ascii c in
  if (65 <=? n)%N && (n <=? 90)%N then ascii_of_N (n + 32) else c.

(** Case-insensitive prefix, with ASCII [tolower]. *)
Fixpoint strip_prefix_ci (p s : string) : option string :=
  match p, s with
  | EmptyString, _ => Some s
  | String a p', String b s' =>
      if Ascii.eqb a (ascii_lower b) then strip_prefix_ci p' s' else None
  | String _ _, EmptyString => None
  end.

(** [_Py_parse_inf_or_nan] *)
Definition read_inf_or_nan (s : string) : option (py_float * string) :=
  let '(sg, s1) := read_sign s in
  match strip_prefix_ci "inf" s1 with
  | Some r =>
      let r' := match strip_prefix_ci "inity" r with Some r' => r' | None => r end in
      Some (if (sg <? 0)%Z then FNegInf else FInf, r')
  | None =>
      match strip_prefix_ci "nan" s1 with
      | Some r => Some (FNaN, r)
      | None => None
      end
  end.

(** [float(s)] for a [str]; [None] where Python raises [ValueError]. *)
Definition py_float_of_string (s : string) : option py_float :=
  match remove_underscores "000" (to_ascii_text s) with
  | None => None
  | Some u =>
      let v := strip_c u in
      if String.eqb v "" then None
      else
        match match read_decimal v with Some r => Some r | None => read_inf_or_nan v end with
        | Some (x, EmptyString) => Some x
        | _ => None
        end
  end.

(** ** The settings and the two [main] functions *)

(** [DEFAULT_TEMPERATURE = 0.2] (exercise7 line 30, exercise8 line 26)
    and [DEFAULT_MAX_TOKENS], 200 in exercise7 (line 31) and 500 in
    exercise8 (line 27). *)
Definition default_temperature : py_float := FDec 2 (-1).
Definition default_max_tokens : Z := 200.
Definition ex8_default_max_tokens : Z := 500.

Record settings := mk_settings {
  temperature : py_float;
  max_tokens : Z
}.

(** What differs between the two [main]s: the banner, the default token
    limit and the warnings ([{DEFAULT_TEMPERATURE}] formats as ["0.2"]). *)
Record cli_text := mk_cli_text {
  banner : list string;
  default_tokens : Z;
  invalid_temperature : string -> string;
  invalid_max_tokens : string -> string
}.

Definition ex7_text : cli_text := {|
  banner := ["=== Incident Triage Console Demo ==="; "This demo uses:"; "- Few-shot prompt engineering";
             "- JSON-only output (response_format = json_object)";
             "- Simple end-to-end workflow (ticket + DB + email)" +:+ nl];
  default_tokens := default_max_tokens;
  invalid_temperature := fun t => "Invalid temperature '" +:+ t +:+ "', using default 0.2.";
  invalid_max_tokens := fun m => "Invalid max tokens '" +:+ m +:+ "', using default 200."
|}.

Definition ex8_text : cli_text := {|
  banner := ["=== Incident Triage with Function Calling ==="; "This demo uses:";
             "- LLM function calling (tool_choice)"; "- Automatic tool invocation";
             "- Crisis escalation tool triggered on CRISIS severity" +:+ nl];
  default_tokens := ex8_default_max_tokens;
  invalid_temperature := fun _ => "Invalid temperature, using default 0.2.";
  invalid_max_tokens := fun _ => "Invalid max tokens, using default 500."
|}.

Fixpoint print_lines (ls : list string) : M unit :=
  match ls with
  | [] => ret tt
  | l :: ls' => print l ;; print_lines ls'
  end.

(** [temp_str = input(...).strip()] and the [try] around [float()]. *)
Definition read_temperature (text : cli_text) : M py_float :=
  raw <- input ;;
  let temp_str := py_strip raw in
  if String.eqb temp_str "" then ret default_temperature
  else match py_float_of_string temp_str with
       | Some t => ret t
       | None => print (invalid_temperature text temp_str) ;; ret default_temperature
       end.

(** [max_tokens_str = input(...).strip()] and the [try] around [int()]. *)
Definition read_max_tokens (text : cli_text) : M Z :=
  raw <- input ;;
  let max_tokens_str := py_strip raw in
  if String.eqb max_tokens_str "" then ret (default_tokens text)
  else match py_int max_tokens_str with
       | Some m => ret m
       | None => print (invalid_max_tokens text max_tokens_str) ;; ret (default_tokens text)
       end.

(** The part of [main] before the workflow: [None] when the description
    is empty and [main] returns. *)
Definition read_cli (text : cli_text) : M (option (string * settings)) :=
  print_lines (banner text) ;;
  raw <- input ;;
  let description := py_strip raw in
  if String.eqb description "" then print "No description provided. Exiting." ;; ret None
  else
    temperature <- read_temperature text ;;
    max_tokens <- read_max_tokens text ;;
    ret (Some (description, mk_settings temperature max_tokens)).

(** A workflow model's printed lines, then its exception if it raised. *)
Definition emit_outcome (r : list string * outcome unit) : M unit :=
  print_lines r.1 ;; (fun c => (c, r.2)).

(** [main] of [exercise7.py]; the client may depend on the settings, and
    [svc] is the email backend. *)
Definition main7 (svc : email_service) (api : settings -> list message -> api_result) (hex : string)
  : M unit :=
  r <- read_cli ex7_text ;;
  match r with
  | None => ret tt
  | Some (description, st) => emit_outcome (run_workflow svc (api st) hex description)
  end.

(** [main] of [exercise8_advanced.py]; [None] when the tool loop has not
    finished within [fuel] steps. *)
Definition main8 (w : settings -> world) (fuel : nat) : M (option unit) :=
  r <- read_cli ex8_text ;;
  match r with
  | None => ret (Some tt)
  | Some (description, st) =>
      match run_workflow_with_function_calling (w st) fuel description with
      | Some res => emit_outcome res ;; ret (Some tt)
      | None => ret None
      end
  end.

(** ** Properties *)

Lemma print_lines_run ls c :
  print_lines ls c = (mk_console (stdout c ++ ls) (requests c) (stdin c), Ok tt).
Proof.
  revert c. induction ls as [|l ls IH]; intros [out reqs ins]; cbn; [by rewrite app_nil_r|].
  rewrite IH. cbn. by rewrite <- app_assoc.
Qed.

(** The setting [main] derives from one stripped input line: the default
    for a blank line or one that [parse] rejects, the parsed value
    otherwise. *)
Definition setting_value {A} (parse : string -> option A) (default : A) (s : string) : A :=
  if String.eqb s "" then default else match parse s with Some x => x | None => default end.

(** What reading one setting can end with: it consumes one line and
    yields its [setting_value], or raises at the end of the input. *)
Definition reads_setting {A} (parse : string -> option A) (default : A) (c : console) (res : console * outcome A)
  : Prop :=
  requests res.1 = requests c /\
  match res.2 with
  | Ok x => exists raw, stdin c = Line raw :: stdin res.1 /\ x = setting_value parse default (py_strip raw)
  | Raise e => e = EOFError \/ e = KeyboardInterrupt
  end.

Lemma read_temperature_run text c :
  reads_setting py_float_of_string default_temperature c (read_temperature text c).
Proof.
  unfold read_temperature, reads_setting, setting_value, bind, input.
  destruct (stdin c) as [|[raw|] rest]; cbn; [tauto|..|tauto].
  destruct (String.eqb _ _) eqn:Es; [simpl; split; [done|exists raw; by rewrite Es]|].
  destruct (py_float_of_string _) eqn:E; simpl; (split; [done|exists raw; by rewrite Es, E]).
Qed.

Lemma read_max_tokens_run text c :
  reads_setting py_int (default_tokens text) c (read_max_tokens text c).
Proof.
  unfold read_max_tokens, reads_setting, setting_value, bind, input.
  destruct (stdin c) as [|[raw|] rest]; cbn; [tauto|..|tauto].
  destruct (String.eqb _ _) eqn:Es; [simpl; split; [done|exists raw; by rewrite Es]|].
  destruct (py_int _) eqn:E; simpl; (split; [done|exists raw; by rewrite Es, E]).
Qed.

(** C38: before the workflow, [main] makes no call and lets no
    [ValueError] escape: it ends only on the end of the input or Ctrl-C,
    returns without a workflow exactly on a blank description, and
    otherwise passes the stripped first line as the description, the
    temperature read from the second line and the token limit read from
    the third, each replaced by its default when blank or rejected by
    [float()] or [int()]. *)
Theorem read_cli_settings text c :
  let '(c', r) := read_cli text c in
  requests c' = requests c /\
  match r with
  | Raise e => e = EOFError \/ e = KeyboardInterrupt
  | Ok None => exists raw rest, stdin c = Line raw :: rest /\ py_strip raw = ""
  | Ok (Some (d, st)) =>
      exists raw t m, stdin c = Line raw :: Line t :: Line m :: stdin c' /\
      d = py_strip raw /\ d <> "" /\
      temperature st = setting_value py_float_of_string default_temperature (py_strip t) /\
      max_tokens st = setting_value py_int (default_tokens text) (py_strip m)
  end.
Proof.
  unfold read_cli. unfold bind at 1. rewrite print_lines_run. cbn [stdout requests stdin].
  unfold bind at 1, input at 1. cbn [stdin].
  destruct (stdin c) as [|[raw|] rest] eqn:Ein; cbn; [tauto| |tauto].
  destruct (String.eqb_spec (py_strip raw) "") as [Hd|Hd]; [cbn; eauto|].
  unfold bind at 1.
  pose proof (read_temperature_run text (mk_console (stdout c ++ banner text) (requests c) rest)) as [Rt Ht].
  destruct (read_temperature _ _) as [c1 [t|e]]; cbn in *; [|tauto].
  destruct Ht as (traw & Et & ->).
  unfold bind. pose proof (read_max_tokens_run text c1) as [Rm Hm].
  destruct (read_max_tokens _ _) as [c2 [m|e]]; cbn in *; [|split; [congruence|tauto]].
  destruct Hm as (mraw & Em & ->). split; [congruence|].
  exists raw, traw, mraw. rewrite Et, Em. done.
Qed.

(** The inputs of a console session: a description with blanks around
    it, a temperature written with a decimal comma, and a token limit
    with an underscore. *)
Lemma read_cli_example :
  read_cli ex7_text (mk_console [] [] [Line "  disk full "; Line "0,7"; Line "1_000"]) =
  (mk_console (banner ex7_text ++ ["Invalid temperature '0,7', using default 0.2."]) [] [],
   Ok (Some ("disk full", mk_settings default_temperature 1000))).
Proof. vm_compute. reflexivity. Qed.
